(** * SFTP client (windows_main.py): session navigation, teardown and
    persistence, embedded from the Python source.

    Python [str] values are lists of characters, Python exceptions are an
    explicit result type threaded through a small state-and-error monad,
    and the collaborators the program only calls (paramiko, the host file
    system, json, Qt dialogs) are an interface whose answers are functions
    of an abstract world. *)

From stdpp Require Import gmap strings list fin_maps.
From Stdlib Require Import Ascii String ZArith Lia.

Local Open Scope Z_scope.
Local Open Scope list_scope.

(** ** Python strings *)

Definition str : Type := list ascii.

(** A literal of the source, e.g. [lit "/"]. *)
Definition lit (s : string) : str := list_ascii_of_string s.

Definition slash : ascii := "/"%char.

Module PyStr.

Fixpoint drop_while (p : ascii -> bool) (s : str) : str :=
  match s with
  | [] => []
  | c :: s' => if p c then drop_while p s' else s
  end.

(** [str.isspace] on the code points below 256. *)
Definition is_space (c : ascii) : bool :=
  let n := Z.of_nat (nat_of_ascii c) in
  ((9 <=? n) && (n <=? 13)) || ((28 <=? n) && (n <=? 32))
  || (n =? 133) || (n =? 160).

Definition mem (chars : str) (c : ascii) : bool :=
  bool_decide (c ∈ chars).

(** [s.lstrip(chars)], [s.rstrip(chars)] *)
Definition lstrip_chars (chars s : str) : str := drop_while (mem chars) s.
Definition rstrip_chars (chars s : str) : str :=
  rev (drop_while (mem chars) (rev s)).

(** [s.strip()] *)
Definition strip (s : str) : str :=
  rev (drop_while is_space (rev (drop_while is_space s))).

(** [s.startswith(prefix)], [s.endswith(suffix)] *)
Fixpoint startswith (s prefix : str) : bool :=
  match prefix, s with
  | [], _ => true
  | p :: prefix', c :: s' => bool_decide (c = p) && startswith s' prefix'
  | _ :: _, [] => false
  end.

Definition endswith (s suffix : str) : bool :=
  startswith (rev s) (rev suffix).

(** [s.rfind(c)] for a one-character [c]: the scan keeps the last index
    at which [c] was seen, [-1] when there is none. *)
Fixpoint rfind_from (c : ascii) (s : str) (i acc : Z) : Z :=
  match s with
  | [] => acc
  | x :: s' => rfind_from c s' (i + 1) (if bool_decide (x = c) then i else acc)
  end.

Definition rfind (s : str) (c : ascii) : Z := rfind_from c s 0 (-1).

(** [s[:i]] and [s[i:]] for [0 <= i]. *)
Definition slice_to (s : str) (i : Z) : str := take (Z.to_nat i) s.
Definition slice_from (s : str) (i : Z) : str := drop (Z.to_nat i) s.

(** [s.split(c)] for a one-character separator. *)
Fixpoint split (s : str) (c : ascii) : list str :=
  match s with
  | [] => [[]]
  | x :: s' =>
      if bool_decide (x = c) then [] :: split s' c
      else match split s' c with
           | h :: t => (x :: h) :: t
           | [] => [[x]]
           end
  end.

(** [sep.join(parts)] *)
Fixpoint join (sep : str) (parts : list str) : str :=
  match parts with
  | [] => []
  | [p] => p
  | p :: rest => p ++ sep ++ join sep rest
  end.

(** [a or b] on strings: the empty string is falsy. *)
Definition or_else (a b : str) : str :=
  match a with [] => b | _ => a end.

End PyStr.

(** ** posixpath (CPython's Lib/posixpath.py, on [str] arguments) *)

Module posixpath.

Definition sep : str := [slash].

(** [posixpath.join(a, b)] with one component [b]. *)
Definition join (a b : str) : str :=
  if PyStr.startswith b sep then b
  else if bool_decide (a = []) || PyStr.endswith a sep then a ++ b
  else a ++ sep ++ b.

(** [posixpath.dirname(p)] *)
Definition dirname (p : str) : str :=
  let i := PyStr.rfind p slash + 1 in
  let head := PyStr.slice_to p i in
  if negb (bool_decide (head = []))
     && negb (bool_decide (head = repeat slash (List.length head)))
  then PyStr.rstrip_chars sep head
  else head.

(** The component loop of [normpath]: [new_comps] grows at its end. *)
Definition normpath_step (initial_slashes : nat) (new_comps : list str)
    (comp : str) : list str :=
  if bool_decide (comp = []) || bool_decide (comp = lit ".") then new_comps
  else if negb (bool_decide (comp = lit ".."))
          || (bool_decide (initial_slashes = 0%nat)
              && bool_decide (new_comps = []))
          || (negb (bool_decide (new_comps = []))
              && bool_decide (last new_comps = Some (lit "..")))
  then new_comps ++ [comp]
  else if negb (bool_decide (new_comps = [])) then removelast new_comps
  else new_comps.

(** [posixpath.normpath(path)] *)
Definition normpath (path : str) : str :=
  if bool_decide (path = []) then lit "."
  else
    let initial_slashes : nat :=
      if PyStr.startswith path sep then
        if PyStr.startswith path (sep ++ sep)
           && negb (PyStr.startswith path (sep ++ sep ++ sep))
        then 2%nat else 1%nat
      else 0%nat in
    let comps := PyStr.split path slash in
    let new_comps := fold_left (normpath_step initial_slashes) comps [] in
    let path' := PyStr.join sep new_comps in
    let path'' := repeat slash initial_slashes ++ path' in
    PyStr.or_else path'' (lit ".").

End posixpath.

(** ** Python values, exceptions and results *)

(** Values read from JSON or held in a profile dictionary.  [PNone] is
    Python's [None] (JSON [null]); numbers are the integers. *)
#[warnings="-register-all"]
Inductive pyval : Type :=
| PNone
| PBool (b : bool)
| PInt (n : Z)
| PStr (s : str)
| PList (l : list pyval)
| PDict (d : gmap str pyval).

(** Exceptions, all subclasses of [Exception]; a bare [except:] and
    [except Exception] catch the same ones here. *)
Inductive exn : Type :=
| AttributeError (msg : str)
| TypeError (msg : str)
| KeyError (key : str)
| ValueError (msg : str)
| OverflowError (msg : str)
| CollaboratorError (msg : str).

Inductive result (A : Type) : Type :=
| Ok (a : A)
| Raise (e : exn).
Arguments Ok {A} a.
Arguments Raise {A} e.

Definition handle : Type := nat.

(** ** stat *)

Module py_stat.
Definition S_IFMT (mode : Z) : Z := Z.land mode 61440.   (* 0o170000 *)
Definition S_IFDIR : Z := 16384.                         (* 0o040000 *)

(** The two C types of the host that [_stat.c] takes a mode through:
    [unsigned long] holds the integers below [ulong_limit] and [mode_t]
    those below [mode_limit] (2^32 and 2^16 on Windows, 2^64 and 2^32 on
    Linux). *)
Record host : Type := { ulong_limit : Z; mode_limit : Z }.

(** [_PyLong_AsMode_t] of [_stat.c]: [PyLong_AsUnsignedLong], then the
    cast to [mode_t] checked; what is no integer is a [TypeError]. *)
Definition as_mode_t (h : host) (mode : option Z) : result Z :=
  match mode with
  | Some m =>
      if m <? 0 then
        Raise (OverflowError (lit "can't convert negative value to unsigned int"))
      else if ulong_limit h <=? m then
        Raise (OverflowError (lit "Python int too large to convert to C unsigned long"))
      else if mode_limit h <=? m then
        Raise (OverflowError (lit "mode out of range"))
      else Ok m
  | None => Raise (TypeError (lit "an integer is required"))
  end.

(** A mode that [mode_t] holds. *)
Definition in_mode_t (h : host) (m : Z) : Prop :=
  0 <= m /\ m < ulong_limit h /\ m < mode_limit h.

(** [stat.S_ISDIR(mode)], the function of the C module. *)
Definition S_ISDIR (h : host) (mode : option Z) : result bool :=
  match as_mode_t h mode with
  | Ok m => Ok (S_IFMT m =? S_IFDIR)
  | Raise e => Raise e
  end.
End py_stat.

(** paramiko's [SFTPAttributes]: [st_mode] is [None] when the server sends
    no permissions. *)
Record SFTPAttributes : Type := {
  filename : str;
  st_mode : option Z
}.

(** ** Collaborators

    Each call the program makes on paramiko, the host operating system
    and json.  [ret c] is the type of the value the call returns. *)
Inductive call : Type :=
| TransportNew (server : pyval) (port : Z)        (* paramiko.Transport((server, port)) *)
| TransportConnect (t : handle) (username password : pyval)
| TransportClose (t : handle)
| TransportOpenSession (t : handle)
| SFTPFromTransport (t : handle)                  (* SFTPClient.from_transport(t) *)
| SFTPClose (c : handle)
| SFTPListdirAttr (c : handle) (path : str)
| SFTPStat (c : handle) (path : str)
| SFTPGet (c : handle) (remote local : str)
| SFTPPut (c : handle) (local remote : str)
| SFTPRemove (c : handle) (path : str)
| SFTPRmdir (c : handle) (path : str)
| ChannelGetPty (ch : handle)
| ChannelInvokeShell (ch : handle)
| ChannelSend (ch : handle) (txt : str)
| ChannelClose (ch : handle)
| ThreadStart (ch : handle)                       (* the reader thread of a channel *)
| OsRemove (path : str)
| OsRmdir (path : str)
| OsListdir (path : str)
| OsClose (fd : Z)
| OsStartfile (path : str)
| Mkstemp (prefix suffix : str)
| JsonLoadFile (path : str)                       (* json.load(open(path, "r")) *)
| JsonDumpFile (path : str) (v : pyval).          (* json.dump(v, open(path, "w")) *)

Definition ret (c : call) : Type :=
  match c with
  | TransportNew _ _ | TransportOpenSession _ | SFTPFromTransport _ => handle
  | SFTPListdirAttr _ _ => list SFTPAttributes
  | SFTPStat _ _ => SFTPAttributes
  | OsListdir _ => list str
  | Mkstemp _ _ => (Z * str)%type
  | JsonLoadFile _ => pyval
  | _ => unit
  end.

(** What the program shows or records besides its own fields. *)
Inductive event : Type :=
| ECall (c : call)                       (* a collaborator was called *)
| EPrint (e : exn)                       (* print(e) *)
| EPrintMsg (msg : str) (e : exn)        (* print(msg, e) *)
| ECritical (title : str) (e : exn)      (* QMessageBox.critical(self, title, str(e)) *)
| ERefreshRemote                         (* list_remote_files was entered *)
| ERefreshLocal.                         (* list_local_files was entered *)

(** The collaborators over a world [W]: every call answers with a value
    or an exception and the next world.  [os.path.exists] and
    [os.path.isdir] only look and never raise.  The host's [os.path.join],
    its C integer types, the builtin [int] on strings, [dict.update] from a non-dictionary and
    the two storage paths come with it. *)
Class Collab (W : Type) : Type := {
  answer : forall c : call, W -> result (ret c) * W;
  path_exists : W -> str -> bool;
  path_isdir : W -> str -> bool;
  os_path_join : str -> str -> str;
  c_types : py_stat.host;
  int_of_str : str -> result Z;
  update_from_iterable : gmap str pyval -> pyval -> result (gmap str pyval);
  CONFIG_FILE : str;
  THEME_FILE : str
}.

(** ** The state-and-exception monad

    A method runs on its object [S] and on the environment: the world of
    the collaborators and the log of events so far (newest last). *)
Record Env (W : Type) : Type := { world : W; log : list event }.
Arguments world {W} e.
Arguments log {W} e.

Definition Py (W S A : Type) : Type := S * Env W -> result A * (S * Env W).

Section Monad.
Context {W S : Type}.

Definition pure {A} (a : A) : Py W S A := fun st => (Ok a, st).

Definition raise {A} (e : exn) : Py W S A := fun st => (Raise e, st).

Definition bind {A B} (m : Py W S A) (k : A -> Py W S B) : Py W S B :=
  fun st =>
    match m st with
    | (Ok a, st') => k a st'
    | (Raise e, st') => (Raise e, st')
    end.

(** [try: m  except Exception as e: h e]; what [m] changed before it
    raised stays changed. *)
Definition try_except {A} (m : Py W S A) (h : exn -> Py W S A) : Py W S A :=
  fun st =>
    match m st with
    | (Ok a, st') => (Ok a, st')
    | (Raise e, st') => h e st'
    end.

Definition lift_result {A} (r : result A) : Py W S A :=
  match r with Ok a => pure a | Raise e => raise e end.

Definition get_self : Py W S S := fun '(s, env) => (Ok s, (s, env)).

Definition modify (f : S -> S) : Py W S unit :=
  fun '(s, env) => (Ok tt, (f s, env)).

Definition emit (ev : event) : Py W S unit :=
  fun '(s, env) =>
    (Ok tt, (s, {| world := world env; log := log env ++ [ev] |})).

(** A collaborator call: logged, then answered by the world. *)
Definition perform `{Collab W} (c : call) : Py W S (ret c) :=
  fun '(s, env) =>
    let '(r, w') := answer c (world env) in
    (r, (s, {| world := w'; log := log env ++ [ECall c] |})).

End Monad.

Notation "x <- m ;; k" := (bind m (fun x => k))
  (at level 20, m at level 99, k at level 200, only parsing).
Notation "m ;; k" := (bind m (fun _ => k))
  (at level 100, k at level 200, only parsing, right associativity).

(** [for x in l: body x] *)
Fixpoint for_each {W S A} (l : list A) (body : A -> Py W S unit) : Py W S unit :=
  match l with
  | [] => pure tt
  | x :: l' => body x ;; for_each l' body
  end.

(** A method of a part [T] of the object, run inside the object. *)
Definition zoom {W S T A} (get : S -> T) (set : T -> S -> S)
    (m : Py W T A) : Py W S A :=
  fun '(s, env) =>
    let '(r, (t', env')) := m (get s, env) in
    (r, (set t' s, env')).

(** ** Dictionaries and [int] *)

(** [d[key]] *)
Definition dict_getitem (d : gmap str pyval) (key : str) : result pyval :=
  match d !! key with
  | Some v => Ok v
  | None => Raise (KeyError key)
  end.

(** [d.get(key)] and [d.get(key, default)] *)
Definition dict_get (d : gmap str pyval) (key : str) (default : pyval) : pyval :=
  match d !! key with
  | Some v => v
  | None => default
  end.

(** [int(v)] *)
Definition py_int `{Collab W} (v : pyval) : result Z :=
  match v with
  | PInt n => Ok n
  | PBool b => Ok (if b then 1 else 0)
  | PStr s => int_of_str s
  | _ => Raise (TypeError (lit "int() argument must be a string or a number"))
  end.

(** [base.update(data)]: the entries of a dictionary [data] win. *)
Definition dict_update `{Collab W} (base : gmap str pyval) (data : pyval)
    : result (gmap str pyval) :=
  match data with
  | PDict d => Ok (d ∪ base)
  | _ => update_from_iterable base data
  end.

(** [posixpath.join(a, n)] and [os.path.join(a, n)] where [n] is the
    user-role datum of a list item, [None] for the parent marker. *)
Definition join_datum (join : str -> str -> str) (a : str) (n : option str)
    : result str :=
  match n with
  | Some b => Ok (join a b)
  | None => Raise (TypeError (lit "expected str, bytes or os.PathLike object, not NoneType"))
  end.

Definition newline : str := ["010"%char].

(** ** Theme *)

Module Theme.
(** [Theme()]: the instance dictionary of the dataclass defaults. *)
Definition default : gmap str pyval :=
  <[lit "name" := PStr (lit "Default")]>
  (<[lit "bg_color" := PStr (lit "#13111b")]>
  (<[lit "text_color" := PStr (lit "#eae6ff")]>
  (<[lit "font_family" := PStr (lit "Consolas")]>
  (<[lit "font_size" := PInt 11]> ∅)))).
End Theme.

Module ThemeManager.
Section Methods.
Context {W : Type} `{Collab W} {S : Type}.

(** [ThemeManager.load] *)
Definition load : Py W S (gmap str pyval) :=
  r <- try_except
         (fun '(s, env) =>
            if path_exists (world env) THEME_FILE then
              (data <- perform (JsonLoadFile THEME_FILE) ;;
               base <- lift_result (dict_update Theme.default data) ;;
               pure (Some base)) (s, env)
            else pure None (s, env))
         (fun _ => pure None) ;;
  match r with
  | Some base => pure base
  | None => pure Theme.default
  end.
End Methods.
End ThemeManager.

(** ** SSHTerminal *)

Module SSHTerminal.
Record t : Type := {
  transport : handle;
  channel : option handle;
  _running : bool
}.

Definition __init__ (tr : handle) : t :=
  {| transport := tr; channel := None; _running := false |}.

Definition set_channel (c : option handle) (self : t) : t :=
  {| transport := transport self; channel := c; _running := _running self |}.
Definition set_running (b : bool) (self : t) : t :=
  {| transport := transport self; channel := channel self; _running := b |}.

Section Methods.
Context {W : Type} `{Collab W}.

Definition open : Py W t bool :=
  self <- get_self ;;
  r <- try_except
         (ch <- perform (TransportOpenSession (transport self)) ;;
          modify (set_channel (Some ch)) ;;
          perform (ChannelGetPty ch) ;;
          perform (ChannelInvokeShell ch) ;;
          pure (Some ch))
         (fun _ => pure None) ;;
  match r with
  | None => pure false
  | Some ch =>
      modify (set_running true) ;;
      perform (ThreadStart ch) ;;
      pure true
  end.

Definition send (txt : str) : Py W t unit :=
  self <- get_self ;;
  match channel self with
  | Some ch => perform (ChannelSend ch (txt ++ newline))
  | None => pure tt
  end.

Definition close : Py W t unit :=
  modify (set_running false) ;;
  try_except
    (self <- get_self ;;
     match channel self with
     | Some ch => perform (ChannelClose ch)
     | None => raise (AttributeError (lit "'NoneType' object has no attribute 'close'"))
     end)
    (fun _ => pure tt).
End Methods.

(** *** The cleaning of [_reader]

    [re.sub(r"\x1b\[[0-9;?]*[A-Za-z]", "", data)] on the decoded text: the
    escape character, an opening bracket, any run of digits, semicolons
    and question marks, then one ASCII letter.  The run and the letter are
    disjoint classes, so the greedy run followed by a letter is the one
    way the pattern can match at a position. *)

Definition ESC : ascii := "027"%char.

Definition is_param (c : ascii) : bool :=
  let n := Z.of_nat (nat_of_ascii c) in
  ((48 <=? n) && (n <=? 57)) || (n =? 59) || (n =? 63).

Definition is_letter (c : ascii) : bool :=
  let n := Z.of_nat (nat_of_ascii c) in
  ((65 <=? n) && (n <=? 90)) || ((97 <=? n) && (n <=? 122)).

(** After [ESC \[]: the text behind the sequence when one ends here. *)
Fixpoint csi_end (s : str) : option str :=
  match s with
  | [] => None
  | c :: s' =>
      if is_param c then csi_end s'
      else if is_letter c then Some s'
      else None
  end.

(** A match of the pattern at the head of [s], as the text behind it. *)
Definition csi_match (s : str) : option str :=
  match s with
  | e :: b :: s' =>
      if bool_decide (e = ESC) && bool_decide (b = "["%char) then csi_end s'
      else None
  | _ => None
  end.

(** The substitution, left to right over non-overlapping matches; [n]
    bounds the number of steps. *)
Fixpoint sub_steps (n : nat) (s : str) : str :=
  match n with
  | O => s
  | S n' =>
      match s with
      | [] => []
      | c :: s' =>
          match csi_match s with
          | Some rest => sub_steps n' rest
          | None => c :: sub_steps n' s'
          end
      end
  end.

(** [clean] of [_reader]: one step per character is enough. *)
Definition clean (data : str) : str := sub_steps (List.length data) data.
End SSHTerminal.

(** ** ConnectionTab *)

(** An entry of a [QListWidget]: its text, its [Qt.UserRole] datum and
    whether its icon is the directory icon (the parent marker has neither
    datum nor icon). *)
Record Item : Type := {
  text : str;
  data : option str;
  icon : option bool
}.

(** [self.remote_list.addItem("..")] *)
Definition parent_item : Item :=
  {| text := lit ".."; data := None; icon := None |}.

(** [QListWidgetItem(name + ("/" if d else ""))] with datum and icon set. *)
Definition entry_item (name : str) (d1 d2 : bool) : Item :=
  {| text := name ++ (if d1 then lit "/" else lit "");
     data := Some name;
     icon := Some d2 |}.

Module ConnectionTab.
(** The fields the methods below read or write; [remote_list],
    [remote_label], [local_list], [local_label] and [term_in] are the
    contents of the widgets of those names. *)
Record t : Type := {
  cfg : gmap str pyval;
  remote_path : str;
  local_path : str;
  sftp : option handle;
  transport : option handle;
  ssh_terminal : option SSHTerminal.t;
  remote_list : list Item;
  remote_label : str;
  local_list : list Item;
  local_label : str;
  term_in : str
}.

Definition set_cfg (v : gmap str pyval) (s : t) : t :=
  {| cfg := v; remote_path := remote_path s; local_path := local_path s;
     sftp := sftp s; transport := transport s; ssh_terminal := ssh_terminal s;
     remote_list := remote_list s; remote_label := remote_label s;
     local_list := local_list s; local_label := local_label s;
     term_in := term_in s |}.
Definition set_remote_path (v : str) (s : t) : t :=
  {| cfg := cfg s; remote_path := v; local_path := local_path s;
     sftp := sftp s; transport := transport s; ssh_terminal := ssh_terminal s;
     remote_list := remote_list s; remote_label := remote_label s;
     local_list := local_list s; local_label := local_label s;
     term_in := term_in s |}.
Definition set_sftp (v : option handle) (s : t) : t :=
  {| cfg := cfg s; remote_path := remote_path s; local_path := local_path s;
     sftp := v; transport := transport s; ssh_terminal := ssh_terminal s;
     remote_list := remote_list s; remote_label := remote_label s;
     local_list := local_list s; local_label := local_label s;
     term_in := term_in s |}.
Definition set_transport (v : option handle) (s : t) : t :=
  {| cfg := cfg s; remote_path := remote_path s; local_path := local_path s;
     sftp := sftp s; transport := v; ssh_terminal := ssh_terminal s;
     remote_list := remote_list s; remote_label := remote_label s;
     local_list := local_list s; local_label := local_label s;
     term_in := term_in s |}.
Definition set_ssh_terminal (v : option SSHTerminal.t) (s : t) : t :=
  {| cfg := cfg s; remote_path := remote_path s; local_path := local_path s;
     sftp := sftp s; transport := transport s; ssh_terminal := v;
     remote_list := remote_list s; remote_label := remote_label s;
     local_list := local_list s; local_label := local_label s;
     term_in := term_in s |}.
Definition set_remote_list (v : list Item) (s : t) : t :=
  {| cfg := cfg s; remote_path := remote_path s; local_path := local_path s;
     sftp := sftp s; transport := transport s; ssh_terminal := ssh_terminal s;
     remote_list := v; remote_label := remote_label s;
     local_list := local_list s; local_label := local_label s;
     term_in := term_in s |}.
Definition set_remote_label (v : str) (s : t) : t :=
  {| cfg := cfg s; remote_path := remote_path s; local_path := local_path s;
     sftp := sftp s; transport := transport s; ssh_terminal := ssh_terminal s;
     remote_list := remote_list s; remote_label := v;
     local_list := local_list s; local_label := local_label s;
     term_in := term_in s |}.
Definition set_local_list (v : list Item) (s : t) : t :=
  {| cfg := cfg s; remote_path := remote_path s; local_path := local_path s;
     sftp := sftp s; transport := transport s; ssh_terminal := ssh_terminal s;
     remote_list := remote_list s; remote_label := remote_label s;
     local_list := v; local_label := local_label s;
     term_in := term_in s |}.
Definition set_local_label (v : str) (s : t) : t :=
  {| cfg := cfg s; remote_path := remote_path s; local_path := local_path s;
     sftp := sftp s; transport := transport s; ssh_terminal := ssh_terminal s;
     remote_list := remote_list s; remote_label := remote_label s;
     local_list := local_list s; local_label := v;
     term_in := term_in s |}.
Definition set_term_in (v : str) (s : t) : t :=
  {| cfg := cfg s; remote_path := remote_path s; local_path := local_path s;
     sftp := sftp s; transport := transport s; ssh_terminal := ssh_terminal s;
     remote_list := remote_list s; remote_label := remote_label s;
     local_list := local_list s; local_label := local_label s;
     term_in := v |}.

Section Methods.
Context {W : Type} `{Collab W}.

(** [self.sftp.<method>]: an [AttributeError] while [self.sftp] is
    [None]. *)
Definition the_sftp (method : string) : Py W t handle :=
  self <- get_self ;;
  match sftp self with
  | Some c => pure c
  | None =>
      raise (AttributeError
               (lit "'NoneType' object has no attribute '" ++ lit method ++ lit "'"))
  end.

(** [self.ssh_terminal.<method>(...)] *)
Definition on_terminal {A} (method : string) (m : Py W SSHTerminal.t A)
    : Py W t A :=
  self <- get_self ;;
  match ssh_terminal self with
  | Some term =>
      zoom (fun _ => term) (fun term' => set_ssh_terminal (Some term')) m
  | None =>
      raise (AttributeError
               (lit "'NoneType' object has no attribute '" ++ lit method ++ lit "'"))
  end.

(** The wiring of the terminal's output signal to the text widget, the
    last statement of the second [try], is display work and is left out. *)
Definition connect_all : Py W t unit :=
  try_except
    (self <- get_self ;;
     match sftp self with
     | Some c => perform (SFTPClose c)
     | None => pure tt
     end ;;
     match transport self with
     | Some tr => perform (TransportClose tr)
     | None => pure tt
     end)
    (fun _ => pure tt) ;;
  try_except
    (self <- get_self ;;
     server <- lift_result (dict_getitem (cfg self) (lit "server")) ;;
     port <- lift_result (py_int (dict_get (cfg self) (lit "port") (PInt 22))) ;;
     tr <- perform (TransportNew server port) ;;
     username <- lift_result (dict_getitem (cfg self) (lit "username")) ;;
     perform (TransportConnect tr username
                (dict_get (cfg self) (lit "password") PNone)) ;;
     modify (set_transport (Some tr)) ;;
     c <- perform (SFTPFromTransport tr) ;;
     modify (set_sftp (Some c)) ;;
     modify (set_ssh_terminal (Some (SSHTerminal.__init__ tr))) ;;
     on_terminal "open" SSHTerminal.open ;;
     pure tt)
    (fun e => emit (ECritical (lit "Connect Error") e)).

(* ---------- List ------------ *)

Definition list_remote_files : Py W t unit :=
  emit ERefreshRemote ;;
  modify (set_remote_list []) ;;
  try_except
    (modify (fun s => set_remote_list (remote_list s ++ [parent_item]) s) ;;
     c <- the_sftp "listdir_attr" ;;
     self <- get_self ;;
     attrs <- perform (SFTPListdirAttr c (remote_path self)) ;;
     for_each attrs (fun f =>
       d1 <- lift_result (py_stat.S_ISDIR c_types (st_mode f)) ;;
       d2 <- lift_result (py_stat.S_ISDIR c_types (st_mode f)) ;;
       modify (fun s =>
         set_remote_list (remote_list s ++ [entry_item (filename f) d1 d2]) s)) ;;
     modify (fun s => set_remote_label (lit "Remote: " ++ remote_path s) s))
    (fun e => emit (EPrint e)).

Definition list_local_files : Py W t unit :=
  emit ERefreshLocal ;;
  modify (set_local_list []) ;;
  try_except
    (modify (fun s => set_local_list (local_list s ++ [parent_item]) s) ;;
     self <- get_self ;;
     names <- perform (OsListdir (local_path self)) ;;
     for_each names (fun n => fun '(s, env) =>
       let p := os_path_join (local_path s) n in
       let d1 := path_isdir (world env) p in
       let d2 := path_isdir (world env) p in
       modify (fun s =>
         set_local_list (local_list s ++ [entry_item n d1 d2]) s) (s, env)) ;;
     modify (fun s => set_local_label (lit "Local: " ++ local_path s) s))
    (fun e => emit (EPrint e)).

Definition is_dir (path : str) : Py W t bool :=
  try_except
    (c <- the_sftp "stat" ;;
     a <- perform (SFTPStat c path) ;;
     lift_result (py_stat.S_ISDIR c_types (st_mode a)))
    (fun _ => pure false).

(* ---------- Double Click ------------ *)

(** [it.data(Qt.UserRole) or it.text()] *)
Definition item_name (it : Item) : str :=
  match data it with
  | Some (c :: n) => c :: n
  | _ => text it
  end.

(** [posixpath.dirname(r.rstrip("/")) or "/"], the new [remote_path]
    of the parent-marker branch. *)
Definition parent_of (r : str) : str :=
  PyStr.or_else (posixpath.dirname (PyStr.rstrip_chars (lit "/") r)) (lit "/").

Definition remote_double (it : Item) : Py W t unit :=
  let name := item_name it in
  if bool_decide (name = lit "..") then
    modify (fun s => set_remote_path (parent_of (remote_path s)) s) ;;
    list_remote_files
  else
    self <- get_self ;;
    let path := posixpath.join (remote_path self) name in
    d <- is_dir path ;;
    if d then
      modify (set_remote_path path) ;;
      list_remote_files
    else
      try_except
        (tmp <- perform (Mkstemp (lit "sftp_") (lit "_" ++ name)) ;;
         let '(fd, tmpfile) := tmp in
         perform (OsClose fd) ;;
         c <- the_sftp "get" ;;
         perform (SFTPGet c path tmpfile) ;;
         perform (OsStartfile tmpfile))
        (fun e => emit (ECritical (lit "Remote opening error") e)).

(* ---------- Actions ------------ *)

Definition delete_remote (it : Item) : Py W t unit :=
  self <- get_self ;;
  p <- lift_result (join_datum posixpath.join (remote_path self) (data it)) ;;
  try_except
    (c <- the_sftp "remove" ;; perform (SFTPRemove c p))
    (fun _ => c <- the_sftp "rmdir" ;; perform (SFTPRmdir c p)) ;;
  list_remote_files.

Definition upload_file (it : Item) : Py W t unit :=
  self <- get_self ;;
  src <- lift_result (join_datum os_path_join (local_path self) (data it)) ;;
  dst <- lift_result (join_datum posixpath.join (remote_path self) (data it)) ;;
  try_except
    (c <- the_sftp "put" ;;
     perform (SFTPPut c src dst) ;;
     list_remote_files)
    (fun e => emit (ECritical (lit "Upload Error") e)).

Definition delete_local (it : Item) : Py W t unit :=
  self <- get_self ;;
  p <- lift_result (join_datum os_path_join (local_path self) (data it)) ;;
  try_except
    (perform (OsRemove p))
    (fun _ => perform (OsRmdir p)) ;;
  list_local_files.

(* ---------- Terminal ------------ *)

Definition send_term : Py W t unit :=
  self <- get_self ;;
  let t := PyStr.strip (term_in self) in
  if bool_decide (t = []) then pure tt
  else
    (if PyStr.startswith t (lit "cd ") then
       let arg := PyStr.strip (PyStr.slice_from t 3) in
       modify (fun s =>
         set_remote_path
           (posixpath.normpath (posixpath.join (remote_path s) arg)) s) ;;
       list_remote_files
     else pure tt) ;;
    on_terminal "send" (SSHTerminal.send t) ;;
    modify (set_term_in []).

End Methods.

(** *** Methods that use the host's [os.path.dirname] and home directory *)

Definition set_local_path (v : str) (s : t) : t :=
  {| cfg := cfg s; remote_path := remote_path s; local_path := v;
     sftp := sftp s; transport := transport s; ssh_terminal := ssh_terminal s;
     remote_list := remote_list s; remote_label := remote_label s;
     local_list := local_list s; local_label := local_label s;
     term_in := term_in s |}.

Section Host.
Context {W : Type} `{Collab W}.
Variable os_path_dirname : str -> str.   (* os.path.dirname *)
Variable home : str.                     (* os.path.expanduser("~") *)

Definition local_double (it : Item) : Py W t unit :=
  let name := item_name it in
  if bool_decide (name = lit "..") then
    modify (fun s =>
      set_local_path (PyStr.or_else (os_path_dirname (local_path s)) (local_path s)) s) ;;
    list_local_files
  else
    self <- get_self ;;
    let path := os_path_join (local_path self) name in
    fun '(s, env) =>
      if path_isdir (world env) path then
        (modify (set_local_path path) ;; list_local_files) (s, env)
      else
        try_except
          (perform (OsStartfile path))
          (fun e => emit (ECritical (lit "Opening failed") e)) (s, env).

(** Python truth of a value. *)
Definition truthy (v : pyval) : bool :=
  match v with
  | PNone => false
  | PBool b => b
  | PInt n => negb (n =? 0)
  | PStr s => match s with [] => false | _ => true end
  | PList l => match l with [] => false | _ => true end
  | PDict d => negb (Nat.eqb (size d) 0)
  end.

(** The fields as [__init__] sets them before its last line.  The two
    cursors are [str] fields here: a profile whose "remote_path" or
    "local_path" holds another kind of value has no tab in this model. *)
Definition fields (cfg : gmap str pyval) : option t :=
  let local := dict_get cfg (lit "local_path") PNone in
  match dict_get cfg (lit "remote_path") (PStr (lit "/")),
        (if truthy local then local else PStr home) with
  | PStr r, PStr l =>
      Some {| cfg := cfg; remote_path := r; local_path := l;
              sftp := None; transport := None; ssh_terminal := None;
              remote_list := []; remote_label := lit "Remote: " ++ r;
              local_list := []; local_label := lit "Local: " ++ l;
              term_in := [] |}
  | _, _ => None
  end.

(** [ConnectionTab(cfg, theme_mgr)]: the fields, then
    [self.connect_all(); self.list_remote_files(); self.list_local_files()]. *)
Definition __init__ (cfg : gmap str pyval) (env : Env W)
    : option (result unit * (t * Env W)) :=
  match fields cfg with
  | Some tab => Some ((connect_all ;; list_remote_files ;; list_local_files) (tab, env))
  | None => None
  end.
End Host.
End ConnectionTab.

(** ** ConfigDialog *)

Module ConfigDialog.
(** The texts of the dialog's line edits. *)
Record t : Type := {
  server : str;
  port : str;
  username : str;
  password : str;
  keyfile : str;
  remote_path : str;
  local_path : str
}.

(** [s or None] *)
Definition str_or_none (s : str) : pyval :=
  match s with [] => PNone | _ => PStr s end.

Section Methods.
Context {W : Type} `{Collab W}.

Definition get_data (self : t) : result (gmap str pyval) :=
  match (match PyStr.strip (port self) with
         | [] => Ok 22
         | p => int_of_str p
         end) with
  | Raise e => Raise e
  | Ok port_number =>
      Ok (<[lit "server" := PStr (PyStr.strip (server self))]>
          (<[lit "port" := PInt port_number]>
          (<[lit "username" := PStr (PyStr.strip (username self))]>
          (<[lit "password" := PStr (password self)]>
          (<[lit "keyfile" := str_or_none (PyStr.strip (keyfile self))]>
          (<[lit "remote_path" :=
               PStr (PyStr.or_else (PyStr.strip (remote_path self)) (lit "/"))]>
          (<[lit "local_path" :=
               PStr (PyStr.or_else (PyStr.strip (local_path self)) (lit ""))]>
           ∅)))))))
  end.
End Methods.
End ConfigDialog.

(** ** AppWindow *)

Inductive Widget : Type :=
| WConnectionTab (tab : ConnectionTab.t)
| WCmdConsole.

Module AppWindow.
Record t : Type := {
  tabs : list Widget;
  saved_configs : list pyval
}.

Definition set_tabs (v : list Widget) (s : t) : t :=
  {| tabs := v; saved_configs := saved_configs s |}.

Section Methods.
Context {W : Type} `{Collab W}.

Definition load_saved_configs : Py W t (list pyval) :=
  fun '(s, env) =>
    if path_exists (world env) CONFIG_FILE then
      (r <- try_except
              (data <- perform (JsonLoadFile CONFIG_FILE) ;;
               pure (Some (match data with
                           | PList l => l
                           | _ => [data]
                           end)))
              (fun _ => pure None) ;;
       match r with
       | Some l => pure l
       | None => pure []
       end) (s, env)
    else pure [] (s, env).

(** [widget.ssh_terminal.close()] for the widget at [index]. *)
Definition close_terminal_of (index : nat) (tab : ConnectionTab.t)
    (term : SSHTerminal.t) : Py W t unit :=
  zoom (fun _ => term)
       (fun term' s =>
          set_tabs
            (<[index := WConnectionTab
                          (ConnectionTab.set_ssh_terminal (Some term') tab)]>
               (tabs s)) s)
       SSHTerminal.close.

Definition close_tab (index : nat) : Py W t unit :=
  self <- get_self ;;
  match tabs self !! index with
  | None => pure tt
  | Some widget =>
      try_except
        (match widget with
         | WConnectionTab tab =>
             match ConnectionTab.ssh_terminal tab with
             | Some term => close_terminal_of index tab term
             | None => pure tt
             end ;;
             match ConnectionTab.sftp tab with
             | Some c => perform (SFTPClose c)
             | None => pure tt
             end ;;
             match ConnectionTab.transport tab with
             | Some tr => perform (TransportClose tr)
             | None => pure tt
             end
         | WCmdConsole => pure tt
         end)
        (fun _ => pure tt) ;;
      modify (fun s => set_tabs (delete index (tabs s)) s)
  end.
End Methods.

(** *** Opening a connection from the dialog *)

Definition set_saved_configs (v : list pyval) (s : t) : t :=
  {| tabs := tabs s; saved_configs := v |}.

(** [type(v).__name__] *)
Definition type_name (v : pyval) : str :=
  match v with
  | PNone => lit "NoneType"
  | PBool _ => lit "bool"
  | PInt _ => lit "int"
  | PStr _ => lit "str"
  | PList _ => lit "list"
  | PDict _ => lit "dict"
  end.

(** ["Cloned_From_" + v]: only a string can be added to a string. *)
Definition cloned_from (v : pyval) : result str :=
  match v with
  | PStr s => Ok (lit "Cloned_From_" ++ s)
  | _ =>
      Raise (TypeError (lit "can only concatenate str (not " ++ "034"%char
                          :: type_name v ++ "034"%char :: lit ") to str"))
  end.

Section Opening.
Context {W : Type} `{Collab W}.
Variable home : str.                     (* os.path.expanduser("~") *)

(** [save_configs] *)
Definition save_configs : Py W t unit :=
  try_except
    (self <- get_self ;;
     perform (JsonDumpFile CONFIG_FILE (PList (saved_configs self))))
    (fun e => emit (EPrintMsg (lit "save configs error:") e)).

(** [add_connection_tab(cfg)]: the tab is built and appended; its title
    is display work.  There is no outcome where the tab has none (see
    [ConnectionTab.fields]). *)
Definition add_connection_tab (cfg : gmap str pyval) (st : t * Env W)
    : option (result unit * (t * Env W)) :=
  let '(s, env) := st in
  match ConnectionTab.__init__ home cfg env with
  | Some (Ok _, (tab, env')) =>
      Some (Ok tt, (set_tabs (tabs s ++ [WConnectionTab tab]) s, env'))
  | Some (Raise e, (_, env')) => Some (Raise e, (s, env'))
  | None => None
  end.

(** The profile as [open_new_conn_dialog] completes it: a local path
    that is not truthy becomes the folder [Cloned_From_<server>] under
    the home directory. *)
Definition with_local_default (cfg : gmap str pyval) : result (gmap str pyval) :=
  if ConnectionTab.truthy (dict_get cfg (lit "local_path") PNone) then Ok cfg
  else
    match cloned_from (dict_get cfg (lit "server") (PStr (lit "server"))) with
    | Ok folder => Ok (<[lit "local_path" := PStr (os_path_join home folder)]> cfg)
    | Raise e => Raise e
    end.

(** [open_new_conn_dialog]; [accepted] is the dialog as the user left it
    when [dlg.exec()] answers true, and [None] when it was cancelled. *)
Definition open_new_conn_dialog (accepted : option ConfigDialog.t) (st : t * Env W)
    : option (result unit * (t * Env W)) :=
  let '(s, env) := st in
  match accepted with
  | None => Some (Ok tt, (s, env))
  | Some dlg =>
      match ConfigDialog.get_data dlg with
      | Raise e => Some (Raise e, (s, env))
      | Ok data =>
          match with_local_default data with
          | Raise e => Some (Raise e, (s, env))
          | Ok cfg =>
              match (modify (fun s => set_saved_configs
                                        (saved_configs s ++ [PDict cfg]) s) ;;
                     save_configs) (s, env) with
              | (Ok _, st') => add_connection_tab cfg st'
              | (Raise e, st') => Some (Raise e, st')
              end
          end
      end
  end.
End Opening.
End AppWindow.

(** ** Sequences of navigation and shell-command operations *)

Inductive nav_op : Type :=
| DoubleClick (it : Item)      (* remote_double(it) *)
| ShellCommand (txt : str).    (* the text is typed, then send_term() *)

Section Runs.
Context {W : Type} `{Collab W}.

(** One operation; an exception it raises ends the handler, the object
    keeps what was changed before. *)
Definition run_op (op : nav_op) (st : ConnectionTab.t * Env W)
    : ConnectionTab.t * Env W :=
  let '(tab, env) := st in
  match op with
  | DoubleClick it => snd (ConnectionTab.remote_double it (tab, env))
  | ShellCommand txt =>
      snd (ConnectionTab.send_term (ConnectionTab.set_term_in txt tab, env))
  end.

(** The states after each operation of a sequence, in order. *)
Fixpoint run_ops (ops : list nav_op) (st : ConnectionTab.t * Env W)
    : list (ConnectionTab.t * Env W) :=
  match ops with
  | [] => []
  | op :: ops' => let st' := run_op op st in st' :: run_ops ops' st'
  end.
End Runs.

(** The number of remote listing refreshes recorded in a log. *)
Definition is_refresh (ev : event) : bool :=
  match ev with ERefreshRemote => true | _ => false end.

Definition refreshes (l : list event) : nat := List.length (List.filter is_refresh l).

(** The events of a listing of [p]: the collaborator call and a printed
    error. *)
Definition listing_event (p : str) (ev : event) : Prop :=
  (exists c, ev = ECall (SFTPListdirAttr c p)) \/ (exists e, ev = EPrint e).

(** A slash-rooted path. *)
Definition slash_rooted (p : str) : Prop := PyStr.startswith p posixpath.sep = true.

(** A path made of slashes only. *)
Definition all_slashes (p : str) : bool := forallb (fun c => bool_decide (c = slash)) p.

(** ** Entries of a listing, as reported and as shown *)

(** An entry the server reports with its mode bits, and one it reports
    without them. *)
Definition reported (file : str * Z) : SFTPAttributes :=
  {| filename := file.1; st_mode := Some file.2 |}.

Definition modeless (name : str) : SFTPAttributes :=
  {| filename := name; st_mode := None |}.

(** The item shown for a reported entry. *)
Definition remote_entry (file : str * Z) : Item :=
  let d := py_stat.S_IFMT file.2 =? py_stat.S_IFDIR in
  entry_item file.1 d d.

(** The item shown for the local name [n] under the cursor [lp]. *)
Definition local_entry `{Collab W} (w : W) (lp n : str) : Item :=
  let d := path_isdir w (os_path_join lp n) in
  entry_item n d d.

(** ** Paths as lists of components *)

(** A name: not empty and without a slash.  A component is a name other
    than the two dot names. *)
Definition name (c : str) : Prop := c <> [] /\ slash ∉ c.

Definition component (c : str) : Prop :=
  name c /\ c <> lit "." /\ c <> lit "..".

(** The absolute path with the components [cs]: the root for none. *)
Definition abs_path (cs : list str) : str := slash :: PyStr.join posixpath.sep cs.

(** One step of walking a path from the components [cs]: the single dot
    stays, the double dot drops the last component (and stays at the
    root), any other name descends. *)
Definition walk (cs : list str) (d : str) : list str :=
  if bool_decide (d = lit ".") then cs
  else if bool_decide (d = lit "..") then removelast cs
  else cs ++ [d].

(** ** Counting connection attempts *)

Definition is_connect (ev : event) : bool :=
  match ev with ECall (TransportConnect _ _ _) => true | _ => false end.

(** The number of authentication calls recorded in a log. *)
Definition connects (l : list event) : nat := List.length (List.filter is_connect l).

(** The number of local listing refreshes recorded in a log. *)
Definition is_local_refresh (ev : event) : bool :=
  match ev with ERefreshLocal => true | _ => false end.

Definition local_refreshes (l : list event) : nat :=
  List.length (List.filter is_local_refresh l).

(** ** A scripted collaborator

    A world for the worked examples: [raises] tells which calls fail, the
    other fields are what the successful calls return.  The host joins
    local paths the POSIX way. *)
Module Scripted.
Record t : Type := {
  raises : call -> bool;
  listing : list SFTPAttributes;
  stat_of : str -> SFTPAttributes;
  stored : pyval;
  present : str -> bool;
  directories : str -> bool
}.

Definition value (w : t) (c : call) : ret c :=
  match c as c' return ret c' with
  | TransportNew _ _ => 1%nat
  | TransportOpenSession _ => 3%nat
  | SFTPFromTransport _ => 2%nat
  | SFTPListdirAttr _ _ => listing w
  | SFTPStat _ p => stat_of w p
  | OsListdir _ => []
  | Mkstemp _ suffix => (5, lit "/tmp/sftp_0" ++ suffix)
  | JsonLoadFile _ => stored w
  | _ => tt
  end.

Definition failure : exn := CollaboratorError (lit "failure").

(** Decimal digits only. *)
Definition digit (c : ascii) : option Z :=
  let n := Z.of_nat (nat_of_ascii c) in
  if (48 <=? n) && (n <=? 57) then Some (n - 48) else None.

Fixpoint digits (acc : Z) (s : str) : result Z :=
  match s with
  | [] => Ok acc
  | c :: s' =>
      match digit c with
      | Some d => digits (10 * acc + d) s'
      | None => Raise (ValueError (lit "invalid literal for int()"))
      end
  end.

#[export] Instance collab : Collab t := {|
  answer c w := if raises w c then (Raise failure, w) else (Ok (value w c), w);
  path_exists w p := present w p;
  path_isdir w p := directories w p;
  os_path_join := posixpath.join;
  c_types := {| py_stat.ulong_limit := 4294967296; py_stat.mode_limit := 65536 |};
  int_of_str s :=
    match s with
    | [] => Raise (ValueError (lit "invalid literal for int()"))
    | _ => digits 0 s
    end;
  update_from_iterable _ _ := Raise (TypeError (lit "object is not iterable"));
  CONFIG_FILE := lit "sftp_config.json";
  THEME_FILE := lit "theme.json"
|}.

Definition regular (name : string) : SFTPAttributes :=
  {| filename := lit name; st_mode := Some 33188 |}.       (* 0o100644 *)
Definition directory (name : string) : SFTPAttributes :=
  {| filename := lit name; st_mode := Some 16877 |}.       (* 0o040755 *)

(** A server holding [a.txt] and the directory [d]; every path stats as
    a regular file except those ending in [d]. *)
Definition quiet : t := {|
  raises := fun _ => false;
  listing := [regular "a.txt"; directory "d"];
  stat_of := fun p => if PyStr.endswith p (lit "d") then directory "d" else regular "f";
  stored := PList [];
  present := fun _ => true;
  directories := fun _ => false
|}.

Definition with_raises (f : call -> bool) (w : t) : t :=
  {| raises := f; listing := listing w; stat_of := stat_of w;
     stored := stored w; present := present w; directories := directories w |}.

Definition with_stored (v : pyval) (w : t) : t :=
  {| raises := raises w; listing := listing w; stat_of := stat_of w;
     stored := v; present := present w; directories := directories w |}.

Definition with_present (f : str -> bool) (w : t) : t :=
  {| raises := raises w; listing := listing w; stat_of := stat_of w;
     stored := stored w; present := f; directories := directories w |}.

Definition env0 (w : t) : Env t := {| world := w; log := [] |}.

(** A connected tab at remote [r] and local [l], showing [shown]. *)
Definition tab_at (r l : string) (shown : list Item) : ConnectionTab.t := {|
  ConnectionTab.cfg := ∅;
  ConnectionTab.remote_path := lit r;
  ConnectionTab.local_path := lit l;
  ConnectionTab.sftp := Some 2%nat;
  ConnectionTab.transport := Some 1%nat;
  ConnectionTab.ssh_terminal :=
    Some {| SSHTerminal.transport := 1%nat;
            SSHTerminal.channel := Some 3%nat;
            SSHTerminal._running := true |};
  ConnectionTab.remote_list := shown;
  ConnectionTab.remote_label := lit "Remote: " ++ lit r;
  ConnectionTab.local_list := [];
  ConnectionTab.local_label := lit "Local: " ++ lit l;
  ConnectionTab.term_in := []
|}.

(** The view after a listing of [quiet]. *)
Definition shown : list Item :=
  [parent_item; entry_item (lit "a.txt") false false; entry_item (lit "d") true true].

(** The listing fails (the directory is gone, the link is down). *)
Definition listing_fails : t :=
  with_raises (fun c => match c with SFTPListdirAttr _ _ => true | _ => false end) quiet.

(** Neither a file nor an empty directory: both deletions fail, on the
    server and on the host. *)
Definition nonempty_directory : t :=
  with_raises
    (fun c => match c with
              | SFTPRemove _ _ | SFTPRmdir _ _ | OsRemove _ | OsRmdir _ => true
              | _ => false
              end) quiet.

(** The client's [close] fails. *)
Definition client_close_fails : t :=
  with_raises (fun c => match c with SFTPClose _ => true | _ => false end) quiet.

(** No file is stored; a stored file cannot be parsed. *)
Definition nothing_stored : t := with_present (fun _ => false) quiet.
Definition corrupt_storage : t :=
  with_raises (fun c => match c with JsonLoadFile _ => true | _ => false end) quiet.

(** The profile of the specification's example. *)
Definition profile : gmap str pyval :=
  <[lit "server" := PStr (lit "h")]>
  (<[lit "port" := PInt 22]>
  (<[lit "username" := PStr (lit "u")]>
  (<[lit "password" := PStr (lit "p")]>
  (<[lit "remote_path" := PStr (lit "/")]>
  (<[lit "local_path" := PStr (lit "/home/u")]> ∅))))).

(** The connected tab of the examples, at [/srv] and [/home/u]. *)
Definition srv_tab : ConnectionTab.t := tab_at "/srv" "/home/u" shown.

(** A window with one connected tab. *)
Definition one_tab : AppWindow.t :=
  {| AppWindow.tabs := [WConnectionTab srv_tab];
     AppWindow.saved_configs := [] |}.

Definition no_tabs : AppWindow.t :=
  {| AppWindow.tabs := []; AppWindow.saved_configs := [] |}.

(** A filled dialog with a key file chosen. *)
Definition dialog : ConfigDialog.t := {|
  ConfigDialog.server := lit "h";
  ConfigDialog.port := lit "22";
  ConfigDialog.username := lit "u";
  ConfigDialog.password := lit "p";
  ConfigDialog.keyfile := lit " /home/u/.ssh/id_rsa ";
  ConfigDialog.remote_path := lit "";
  ConfigDialog.local_path := lit ""
|}.

(** The tab with [txt] typed in the terminal line. *)
Definition typed (txt : string) (tab : ConnectionTab.t) : ConnectionTab.t :=
  ConnectionTab.set_term_in (lit txt) tab.

Definition with_listing (l : list SFTPAttributes) (w : t) : t :=
  {| raises := raises w; listing := l; stat_of := stat_of w;
     stored := stored w; present := present w; directories := directories w |}.

(** The server reports [b] without mode bits, between [a.txt] and [d]. *)
Definition partial_listing : t :=
  with_listing [regular "a.txt"; modeless (lit "b"); directory "d"] quiet.

(** The server refuses the authentication; the server refuses the
    pseudo-terminal. *)
Definition auth_refused : t :=
  with_raises (fun c => match c with TransportConnect _ _ _ => true | _ => false end) quiet.
Definition pty_refused : t :=
  with_raises (fun c => match c with ChannelGetPty _ => true | _ => false end) quiet.

(** A theme file that sets the font size and a key of its own. *)
Definition theme_file : gmap str pyval :=
  <[lit "font_size" := PInt 14]> (<[lit "accent" := PStr (lit "#ff00aa")]> ∅).

(** A tab of [cfg] that holds no handle, as [__init__] leaves it before
    it connects. *)
Definition fresh_tab (cfg : gmap str pyval) (r l : string) : ConnectionTab.t := {|
  ConnectionTab.cfg := cfg;
  ConnectionTab.remote_path := lit r;
  ConnectionTab.local_path := lit l;
  ConnectionTab.sftp := None;
  ConnectionTab.transport := None;
  ConnectionTab.ssh_terminal := None;
  ConnectionTab.remote_list := [];
  ConnectionTab.remote_label := lit "Remote: " ++ lit r;
  ConnectionTab.local_list := [];
  ConnectionTab.local_label := lit "Local: " ++ lit l;
  ConnectionTab.term_in := []
|}.

(** A terminal helper before [open]. *)
Definition closed_terminal : SSHTerminal.t :=
  {| SSHTerminal.transport := 1%nat;
     SSHTerminal.channel := None;
     SSHTerminal._running := false |}.

(** A window whose only tab is the command console. *)
Definition console_only : AppWindow.t :=
  {| AppWindow.tabs := [WCmdConsole]; AppWindow.saved_configs := [] |}.

(** The server reports [b] with a mode beyond 16 bits (a directory bit
    under a high bit), between [a.txt] and [d]. *)
Definition wide_mode_listing : t :=
  with_listing [regular "a.txt";
                {| filename := lit "b"; st_mode := Some 81920 |};   (* 0o240000 *)
                directory "d"] quiet.

(** The configuration file cannot be written. *)
Definition read_only_storage : t :=
  with_raises (fun c => match c with JsonDumpFile _ _ => true | _ => false end) quiet.
End Scripted.

(** * Properties *)

(** ** Strings and paths *)

Section StringFacts.
Implicit Types (s p : str) (c : ascii).

Lemma drop_while_split f s :
  exists k, s = k ++ PyStr.drop_while f s /\ forallb f k = true.
Proof.
  induction s as [|c s IH]; simpl.
  - exists []. auto.
  - destruct (f c) eqn:Hc.
    + destruct IH as (k & Hk & Hall). exists (c :: k). simpl.
      rewrite Hc, Hall. split; [congruence | reflexivity].
    + exists []. auto.
Qed.

(** [rstrip] cuts a run of stripped characters off the end. *)
Lemma rstrip_split chars s :
  exists k, s = PyStr.rstrip_chars chars s ++ k
            /\ forallb (PyStr.mem chars) k = true.
Proof.
  unfold PyStr.rstrip_chars.
  destruct (drop_while_split (PyStr.mem chars) (rev s)) as (k & Hk & Hall).
  exists (rev k). split.
  - rewrite <- rev_app_distr, <- Hk, rev_involutive. reflexivity.
  - rewrite forallb_forall in *. intros x Hx. apply Hall.
    apply in_rev. exact Hx.
Qed.

Lemma rstrip_snoc_in chars s c :
  PyStr.mem chars c = true ->
  PyStr.rstrip_chars chars (s ++ [c]) = PyStr.rstrip_chars chars s.
Proof.
  intros Hc. unfold PyStr.rstrip_chars. rewrite rev_app_distr. simpl.
  rewrite Hc. reflexivity.
Qed.

Lemma rstrip_snoc_out chars s c :
  PyStr.mem chars c = false ->
  PyStr.rstrip_chars chars (s ++ [c]) = s ++ [c].
Proof.
  intros Hc. unfold PyStr.rstrip_chars. rewrite rev_app_distr. simpl.
  rewrite Hc. simpl. rewrite rev_involutive. reflexivity.
Qed.

Lemma mem_slash c : PyStr.mem (lit "/") c = bool_decide (c = slash).
Proof.
  unfold PyStr.mem, lit. simpl.
  destruct (decide (c = slash)) as [->|Hne].
  - rewrite !bool_decide_eq_true_2; [reflexivity | reflexivity | left].
  - rewrite !bool_decide_eq_false_2; [reflexivity | exact Hne |].
    intros Hin. apply list_elem_of_singleton in Hin. contradiction.
Qed.

Lemma rstrip_slashes s k :
  PyStr.rstrip_chars (lit "/") (s ++ repeat slash k)
  = PyStr.rstrip_chars (lit "/") s.
Proof.
  induction k as [|k IH]; simpl.
  - rewrite app_nil_r. reflexivity.
  - rewrite repeat_cons, app_assoc, rstrip_snoc_in; [exact IH |].
    rewrite mem_slash. apply bool_decide_eq_true_2. reflexivity.
Qed.

Lemma all_slashes_repeat s :
  all_slashes s = true <-> s = repeat slash (List.length s).
Proof.
  induction s as [|c s IH]; simpl.
  - split; reflexivity.
  - rewrite andb_true_iff, bool_decide_eq_true, IH. split.
    + intros [-> <-]. reflexivity.
    + intros Heq. injection Heq as -> Hs. split; [reflexivity | exact Hs].
Qed.

Lemma all_slashes_mem k :
  forallb (PyStr.mem (lit "/")) k = all_slashes k.
Proof.
  unfold all_slashes. induction k as [|c k IH]; cbn [forallb]; [reflexivity|].
  rewrite mem_slash, IH. reflexivity.
Qed.

Lemma all_slashes_app a b :
  all_slashes (a ++ b) = all_slashes a && all_slashes b.
Proof. unfold all_slashes. apply forallb_app. Qed.

(** Only a run of slashes strips to nothing. *)
Lemma rstrip_nil_all_slashes s :
  PyStr.rstrip_chars (lit "/") s = [] -> all_slashes s = true.
Proof.
  intros Hnil. destruct (rstrip_split (lit "/") s) as (k & Hk & Hall).
  rewrite Hnil in Hk. simpl in Hk. subst k.
  rewrite <- all_slashes_mem. exact Hall.
Qed.

Lemma rstrip_all_slashes s :
  all_slashes s = true -> PyStr.rstrip_chars (lit "/") s = [].
Proof.
  intros Hall. apply all_slashes_repeat in Hall. rewrite Hall.
  apply (rstrip_slashes [] (List.length s)).
Qed.

(** What [rstrip] leaves does not end in a slash. *)
Lemma rstrip_last s : last (PyStr.rstrip_chars (lit "/") s) <> Some slash.
Proof.
  induction s as [|c s IH] using rev_ind; [discriminate|].
  destruct (PyStr.mem (lit "/") c) eqn:Hc.
  - rewrite rstrip_snoc_in by exact Hc. exact IH.
  - rewrite rstrip_snoc_out by exact Hc. rewrite last_snoc.
    intros [= ->]. rewrite mem_slash, bool_decide_eq_true_2 in Hc; [discriminate | reflexivity].
Qed.

Lemma rfind_from_app c a b i acc :
  PyStr.rfind_from c (a ++ b) i acc
  = PyStr.rfind_from c b (i + Z.of_nat (List.length a)) (PyStr.rfind_from c a i acc).
Proof.
  revert i acc. induction a as [|x a IH]; intros i acc; simpl.
  - f_equal. lia.
  - rewrite IH. f_equal. lia.
Qed.

Lemma rfind_from_absent c s i acc :
  c ∉ s -> PyStr.rfind_from c s i acc = acc.
Proof.
  revert i acc. induction s as [|x s IH]; intros i acc Hnot; simpl; [reflexivity|].
  rewrite IH.
  - rewrite bool_decide_eq_false_2; [reflexivity |].
    intros ->. apply Hnot. left.
  - intros Hin. apply Hnot. right. exact Hin.
Qed.

(** The last slash of [p/n] is the one before the slash-free [n]. *)
Lemma rfind_last_component p n :
  slash ∉ n -> PyStr.rfind (p ++ slash :: n) slash = Z.of_nat (List.length p).
Proof.
  intros Hn. unfold PyStr.rfind. rewrite rfind_from_app.
  cbn [PyStr.rfind_from]. rewrite bool_decide_eq_true_2 by reflexivity.
  rewrite rfind_from_absent by exact Hn. lia.
Qed.

Lemma startswith_sep p :
  PyStr.startswith p posixpath.sep = true <-> exists r, p = slash :: r.
Proof.
  unfold posixpath.sep. destruct p as [|c r]; simpl.
  - split; [discriminate | intros [r [=]]].
  - destruct r; rewrite ?andb_true_r, bool_decide_eq_true; (split;
      [intros ->; eauto | intros [r' [= -> _]]; reflexivity]).
Qed.

(** [dirname] answers with a prefix of its argument. *)
Lemma dirname_prefix p : exists k, p = posixpath.dirname p ++ k.
Proof.
  unfold posixpath.dirname, PyStr.slice_to.
  set (i := Z.to_nat (PyStr.rfind p slash + 1)).
  destruct (_ && _).
  - destruct (rstrip_split posixpath.sep (take i p)) as (k & Hk & _).
    exists (k ++ drop i p). rewrite app_assoc, <- Hk, take_drop. reflexivity.
  - exists (drop i p). rewrite take_drop. reflexivity.
Qed.

(** [dirname] of [p/n], [n] a slash-free last component. *)
Lemma dirname_last_component p n :
  slash ∉ n ->
  posixpath.dirname (p ++ slash :: n)
  = if all_slashes p then p ++ [slash] else PyStr.rstrip_chars (lit "/") p.
Proof.
  intros Hn. unfold posixpath.dirname, PyStr.slice_to.
  rewrite rfind_last_component by exact Hn.
  replace (Z.to_nat (Z.of_nat (List.length p) + 1)) with (List.length (p ++ [slash])).
  2:{ rewrite length_app. simpl. lia. }
  change (p ++ slash :: n) with (p ++ [slash] ++ n).
  rewrite app_assoc, take_app_length.
  rewrite (bool_decide_eq_false_2 (p ++ [slash] = [])).
  2:{ intros Heq. apply app_eq_nil in Heq. destruct Heq as [_ [=]]. }
  simpl negb. rewrite andb_true_l.
  destruct (all_slashes p) eqn:Hp.
  - rewrite bool_decide_eq_true_2; [reflexivity|].
    apply all_slashes_repeat. rewrite all_slashes_app, Hp. reflexivity.
  - rewrite bool_decide_eq_false_2.
    + simpl negb. change posixpath.sep with (lit "/").
      apply rstrip_snoc_in. rewrite mem_slash.
      apply bool_decide_eq_true_2. reflexivity.
    + intros Heq. apply all_slashes_repeat in Heq.
      rewrite all_slashes_app, Hp in Heq. discriminate.
Qed.

End StringFacts.

Section PathFacts.
Implicit Types (a b p r : str).

Lemma join_slash_rooted a b :
  slash_rooted a -> slash_rooted (posixpath.join a b).
Proof.
  unfold slash_rooted, posixpath.join. intros Ha.
  destruct (PyStr.startswith b posixpath.sep) eqn:Hb; [exact Hb|].
  apply startswith_sep in Ha as [r ->].
  destruct (_ || _); apply startswith_sep; simpl; eauto.
Qed.

Lemma normpath_slash_rooted p :
  slash_rooted p -> slash_rooted (posixpath.normpath p).
Proof.
  unfold slash_rooted, posixpath.normpath. intros Hp.
  rewrite Hp. apply startswith_sep in Hp as Hr. destruct Hr as [r ->].
  rewrite bool_decide_eq_false_2 by discriminate.
  apply startswith_sep.
  destruct (_ && _); simpl; eauto.
Qed.

Lemma parent_of_slash_rooted r :
  slash_rooted r -> slash_rooted (ConnectionTab.parent_of r).
Proof.
  unfold slash_rooted, ConnectionTab.parent_of. intros Hr.
  apply startswith_sep in Hr as [r' ->].
  destruct (rstrip_split (lit "/") (slash :: r')) as (k1 & Hk1 & _).
  destruct (dirname_prefix (PyStr.rstrip_chars (lit "/") (slash :: r'))) as (k2 & Hk2).
  destruct (posixpath.dirname _) as [|c d] eqn:Hd; [reflexivity|].
  rewrite Hk2 in Hk1. simpl in Hk1. injection Hk1 as <- _.
  apply startswith_sep. simpl. eauto.
Qed.

(** Above a run of slashes there is only the root. *)
Lemma parent_of_all_slashes r :
  all_slashes r = true -> ConnectionTab.parent_of r = lit "/".
Proof.
  intros Hr. unfold ConnectionTab.parent_of.
  rewrite rstrip_all_slashes by exact Hr. reflexivity.
Qed.

(** The parent of [p/n], whatever slashes trail [n]. *)
Lemma parent_of_last_component p n k :
  n <> [] -> slash ∉ n ->
  ConnectionTab.parent_of (p ++ [slash] ++ n ++ repeat slash k)
  = if all_slashes p then p ++ [slash] else PyStr.rstrip_chars (lit "/") p.
Proof.
  intros Hne Hn. unfold ConnectionTab.parent_of.
  rewrite !app_assoc, rstrip_slashes, <- app_assoc.
  destruct n as [|c n] using rev_ind; [congruence|]. clear IHn.
  rewrite !app_assoc, rstrip_snoc_out.
  2:{ rewrite mem_slash. apply bool_decide_eq_false_2. intros ->.
      apply Hn. apply elem_of_app. right. left. }
  rewrite <- !app_assoc. simpl.
  rewrite dirname_last_component by exact Hn.
  destruct (all_slashes p) eqn:Hp.
  - destruct p; reflexivity.
  - destruct (PyStr.rstrip_chars (lit "/") p) eqn:Hs.
    + apply rstrip_nil_all_slashes in Hs. congruence.
    + simpl. symmetry. exact Hs.
Qed.

(** The parent ends in a slash only when it is a root. *)
Lemma parent_of_trailing r :
  all_slashes (ConnectionTab.parent_of r) = true
  \/ last (ConnectionTab.parent_of r) <> Some slash.
Proof.
  unfold ConnectionTab.parent_of, posixpath.dirname.
  set (q := PyStr.rstrip_chars (lit "/") r).
  set (head := PyStr.slice_to q _).
  destruct (bool_decide (head = [])) eqn:Hnil.
  - apply bool_decide_eq_true in Hnil. rewrite Hnil. left. reflexivity.
  - destruct (bool_decide (head = repeat slash (List.length head))) eqn:Hrep; simpl.
    + apply bool_decide_eq_true in Hrep. apply all_slashes_repeat in Hrep.
      left. destruct head; [reflexivity | exact Hrep].
    + destruct (PyStr.rstrip_chars posixpath.sep head) eqn:Hs.
      * left. reflexivity.
      * right. simpl PyStr.or_else. rewrite <- Hs. apply rstrip_last.
Qed.

Lemma all_slashes_snoc r :
  all_slashes r = true -> slash :: r = r ++ [slash].
Proof.
  induction r as [|c r IH]; simpl; [reflexivity|].
  intros Hall. apply andb_true_iff in Hall as [Hc Hall].
  apply bool_decide_eq_true in Hc. subst c. rewrite <- IH by exact Hall.
  reflexivity.
Qed.

(** Every slash-rooted path is a run of slashes or has a last
    component. *)
Lemma slash_rooted_cases r :
  slash_rooted r ->
  all_slashes r = true
  \/ exists p n k, r = p ++ [slash] ++ n ++ repeat slash k /\ n <> [] /\ slash ∉ n.
Proof.
  intros Hr. apply startswith_sep in Hr as [r' ->].
  induction r' as [|c r' IH] using rev_ind.
  - left. reflexivity.
  - change (slash :: r' ++ [c]) with ((slash :: r') ++ [c]).
    destruct IH as [Hall | (p & n & k & Heq & Hne & Hn)].
    + destruct (decide (c = slash)) as [->|Hc].
      * left. rewrite all_slashes_app, Hall. reflexivity.
      * right. exists r', [c], 0%nat. split; [|split].
        -- cbn [repeat]. rewrite app_nil_r, app_assoc.
           rewrite <- (all_slashes_snoc r'); [reflexivity|].
           simpl in Hall. exact Hall.
        -- discriminate.
        -- intros Hin. apply list_elem_of_singleton in Hin. congruence.
    + right. rewrite Heq.
      destruct (decide (c = slash)) as [->|Hc].
      * exists p, n, (S k). cbn [repeat].
        rewrite repeat_cons, <- !app_assoc. auto.
      * destruct k as [|k].
        -- exists p, (n ++ [c]), 0%nat. cbn [repeat].
           rewrite !app_nil_r, <- !app_assoc. split; [reflexivity | split].
           ++ intros Hnil. apply app_eq_nil in Hnil as [_ [=]].
           ++ intros Hin. apply elem_of_app in Hin as [Hin|Hin]; [auto|].
              apply list_elem_of_singleton in Hin. congruence.
        -- exists (p ++ [slash] ++ n ++ repeat slash k), [c], 0%nat.
           cbn [repeat]. rewrite repeat_cons, app_nil_r, <- !app_assoc.
           split; [reflexivity | split].
           ++ discriminate.
           ++ intros Hin. apply list_elem_of_singleton in Hin. congruence.
Qed.

End PathFacts.

(** ** The listing methods *)

#[local] Arguments py_stat.S_ISDIR : simpl never.

Ltac py_unfold :=
  unfold bind, try_except, emit, modify, pure, raise, get_self, perform,
    lift_result, zoom,
    ConnectionTab.set_cfg, ConnectionTab.set_remote_path, ConnectionTab.set_sftp,
    ConnectionTab.set_transport, ConnectionTab.set_ssh_terminal,
    ConnectionTab.set_remote_list, ConnectionTab.set_remote_label,
    ConnectionTab.set_local_list, ConnectionTab.set_local_label,
    ConnectionTab.set_term_in, SSHTerminal.set_channel, SSHTerminal.set_running,
    AppWindow.set_tabs in *;
  cbn in *.

Ltac listing_events :=
  repeat (apply Forall_cons_2; [unfold listing_event; eauto|]); apply Forall_nil_2.

Ltac answered c w r w' Ha :=
  destruct (answer c w) as [r w'] eqn:Ha; cbn in *.

Section TabFacts.
Context {W : Type} `{Collab W}.
Implicit Types (tab s : ConnectionTab.t) (env : Env W).

(** The loop of [list_remote_files] only grows the shown list. *)
Lemma listing_loop attrs s items env :
  exists r items',
    for_each attrs (fun f =>
      d1 <- lift_result (py_stat.S_ISDIR c_types (st_mode f)) ;;
      d2 <- lift_result (py_stat.S_ISDIR c_types (st_mode f)) ;;
      modify (fun s =>
        ConnectionTab.set_remote_list
          (ConnectionTab.remote_list s ++ [entry_item (filename f) d1 d2]) s))
      (ConnectionTab.set_remote_list items s, env)
    = (r, (ConnectionTab.set_remote_list items' s, env)).
Proof.
  revert items. destruct s.
  induction attrs as [|f attrs IH]; intros items.
  - exists (Ok tt), items. reflexivity.
  - cbn [for_each]. unfold bind at 1.
    destruct (py_stat.S_ISDIR c_types (st_mode f)) as [d|e]; py_unfold.
    + apply IH.
    + eexists _, items. reflexivity.
Qed.

(** A listing request returns normally, changes only the shown list and
    the label, and is one refresh. *)
Lemma list_remote_files_shape tab env :
  exists items lbl w' evs,
    ConnectionTab.list_remote_files (tab, env)
    = (Ok tt, (ConnectionTab.set_remote_label lbl
                 (ConnectionTab.set_remote_list items tab),
               {| world := w'; log := log env ++ ERefreshRemote :: evs |}))
    /\ Forall (listing_event (ConnectionTab.remote_path tab)) evs.
Proof.
  unfold ConnectionTab.list_remote_files, ConnectionTab.the_sftp.
  destruct tab as [cfg rp lp [c|] tr term rl rlbl ll llbl tin], env as [w lg].
  - py_unfold.
    answered (SFTPListdirAttr c rp) w r w' Ha.
    destruct r as [attrs|e]; cbn.
    + match goal with
      | |- context [for_each attrs ?b (?s, ?e)] =>
          destruct (listing_loop attrs s [parent_item] e) as (r' & items' & Hloop);
          destruct (for_each attrs b (s, e)) as [r st'] eqn:Hrun
      end.
      assert (Heq : (r, st') = (r', (ConnectionTab.set_remote_list items'
                 {| ConnectionTab.cfg := cfg; ConnectionTab.remote_path := rp;
                    ConnectionTab.local_path := lp; ConnectionTab.sftp := Some c;
                    ConnectionTab.transport := tr; ConnectionTab.ssh_terminal := term;
                    ConnectionTab.remote_list := [parent_item];
                    ConnectionTab.remote_label := rlbl; ConnectionTab.local_list := ll;
                    ConnectionTab.local_label := llbl; ConnectionTab.term_in := tin |},
                 {| world := w';
                    log := (lg ++ [ERefreshRemote]) ++ [ECall (SFTPListdirAttr c rp)] |}))).
      { rewrite <- Hrun. exact Hloop. }
      injection Heq as -> ->. destruct r' as [[]|e]; cbn.
      * eexists items', _, w', _. rewrite <- app_assoc.
        split; [reflexivity | listing_events].
      * eexists items', rlbl, w', _. rewrite <- !app_assoc.
        split; [reflexivity | listing_events].
    + eexists [parent_item], rlbl, w', _.
      rewrite <- !app_assoc. split; [reflexivity | listing_events].
  - py_unfold. eexists [parent_item], rlbl, w, _.
    rewrite <- !app_assoc. split; [reflexivity | listing_events].
Qed.

Lemma listing_events_refreshes p evs :
  Forall (listing_event p) evs -> refreshes evs = 0%nat.
Proof.
  induction 1 as [|ev evs Hev _ IH]; [reflexivity|].
  unfold refreshes in *. cbn.
  destruct Hev as [[c ->]|[e ->]]; exact IH.
Qed.

(** [is_dir] only asks: the tab is as before and nothing propagates. *)
Lemma is_dir_shape path tab env :
  exists b w' evs,
    ConnectionTab.is_dir path (tab, env)
    = (Ok b, (tab, {| world := w'; log := log env ++ evs |}))
    /\ refreshes evs = 0%nat.
Proof.
  unfold ConnectionTab.is_dir, ConnectionTab.the_sftp.
  destruct tab as [cfg rp lp [c|] tr term rl rlbl ll llbl tin], env as [w lg];
    py_unfold.
  - answered (SFTPStat c path) w r w' Ha.
    destruct r as [a|e]; cbn.
    + destruct (py_stat.S_ISDIR c_types (st_mode a)); cbn;
        eexists _, w', _; split; reflexivity.
    + eexists _, w', _; split; reflexivity.
  - exists false, w, []. rewrite app_nil_r. split; reflexivity.
Qed.

Lemma refreshes_app l1 l2 : refreshes (l1 ++ l2) = (refreshes l1 + refreshes l2)%nat.
Proof. unfold refreshes. rewrite List.filter_app, length_app. reflexivity. Qed.
End TabFacts.

#[local] Arguments ConnectionTab.list_remote_files : simpl never.
#[local] Arguments ConnectionTab.list_local_files : simpl never.
#[local] Arguments ConnectionTab.is_dir : simpl never.
#[local] Arguments posixpath.join : simpl never.
#[local] Arguments posixpath.normpath : simpl never.
#[local] Arguments ConnectionTab.parent_of : simpl never.
#[local] Arguments PyStr.strip : simpl never.
#[local] Arguments refreshes : simpl never.

(** Replace a listing request or an [is_dir] question in the goal by its
    outcome. *)
Ltac run_listing items lbl w' evs Hevs :=
  match goal with
  | |- context [ConnectionTab.list_remote_files (?t, ?e)] =>
      let Hrun := fresh "Hrun" in
      let Hall := fresh "Hall" in
      destruct (list_remote_files_shape t e)
        as (items & lbl & w' & evs & Hrun & Hall);
      pose proof (listing_events_refreshes _ _ Hall) as Hevs;
      rewrite Hrun; clear Hrun; py_unfold
  end.

Ltac run_is_dir b w' evs Hevs :=
  match goal with
  | |- context [ConnectionTab.is_dir ?p (?t, ?e)] =>
      let Hrun := fresh "Hrun" in
      destruct (is_dir_shape p t e) as (b & w' & evs & Hrun & Hevs);
      rewrite Hrun; clear Hrun; py_unfold
  end.

(** ** Remote listing (C1) *)

Section Listing.
Context {W : Type} `{Collab W}.
Implicit Types (tab : ConnectionTab.t) (env : Env W).

(** C1, as the code has it: when [listdir_attr] fails, the error is
    printed and nothing propagates, but the view was cleared before the
    attempt, so it is left showing the parent marker alone; the label,
    [remote_path] and every other field keep their values. *)
Theorem list_remote_files_failure tab env c e w' :
  ConnectionTab.sftp tab = Some c ->
  answer (SFTPListdirAttr c (ConnectionTab.remote_path tab)) (world env)
    = (Raise e, w') ->
  ConnectionTab.list_remote_files (tab, env)
  = (Ok tt,
     (ConnectionTab.set_remote_list [parent_item] tab,
      {| world := w';
         log := log env ++ [ERefreshRemote;
                            ECall (SFTPListdirAttr c (ConnectionTab.remote_path tab));
                            EPrint e] |})).
Proof.
  intros Hc Ha.
  destruct tab as [cfg rp lp sf tr term rl rlbl ll llbl tin], env as [w lg].
  cbn in Hc, Ha. subst sf.
  unfold ConnectionTab.list_remote_files, ConnectionTab.the_sftp. py_unfold.
  rewrite Ha. cbn. rewrite <- !app_assoc. reflexivity.
Qed.
End Listing.

(** ** Navigation (C4, C9) *)

Section Navigation.
Context {W : Type} `{Collab W}.
Implicit Types (tab : ConnectionTab.t) (env : Env W).

(** A double click on the parent marker: the cursor moves to
    [parent_of], then the listing is requested once. *)
Lemma remote_double_parent_run it tab env :
  ConnectionTab.item_name it = lit ".." ->
  ConnectionTab.remote_double it (tab, env)
  = ConnectionTab.list_remote_files
      (ConnectionTab.set_remote_path
         (ConnectionTab.parent_of (ConnectionTab.remote_path tab)) tab, env).
Proof.
  intros Hname. unfold ConnectionTab.remote_double. rewrite Hname.
  rewrite bool_decide_eq_true_2 by reflexivity.
  destruct tab, env. reflexivity.
Qed.

(** Where a double click can leave the cursor. *)
Lemma remote_double_remote_path it tab env :
  let after := ConnectionTab.remote_path (ConnectionTab.remote_double it (tab, env)).2.1 in
  after = ConnectionTab.parent_of (ConnectionTab.remote_path tab)
  \/ after = posixpath.join (ConnectionTab.remote_path tab) (ConnectionTab.item_name it)
  \/ after = ConnectionTab.remote_path tab.
Proof.
  cbn zeta.
  destruct (decide (ConnectionTab.item_name it = lit "..")) as [Hname|Hname].
  - rewrite remote_double_parent_run by exact Hname.
    destruct tab as [cfg rp lp sf tr term rl rlbl ll llbl tin], env as [w lg].
    run_listing items lbl w' evs Hevs. left. reflexivity.
  - unfold ConnectionTab.remote_double.
    rewrite bool_decide_eq_false_2 by exact Hname.
    destruct tab as [cfg rp lp sf tr term rl rlbl ll llbl tin], env as [w lg].
    py_unfold. run_is_dir b w1 evs1 Hevs1. destruct b.
    + run_listing items lbl w' evs Hevs. right. left. reflexivity.
    + right. right. unfold ConnectionTab.the_sftp. py_unfold.
      match goal with
      | |- context [answer (Mkstemp ?a ?b) ?w0] =>
          destruct (answer (Mkstemp a b) w0) as [[[fd tmpfile]|e] w2]; cbn
      end; [|reflexivity].
      destruct (answer (OsClose fd) w2) as [[[]|e] w3]; cbn; [|reflexivity].
      destruct sf as [c|]; cbn; [|reflexivity].
      match goal with
      | |- context [answer (SFTPGet ?a ?b ?d) ?w0] =>
          destruct (answer (SFTPGet a b d) w0) as [[[]|e] w4]; cbn
      end; [|reflexivity].
      destruct (answer (OsStartfile tmpfile) w4) as [[[]|e] w5]; reflexivity.
Qed.
End Navigation.

(** ** Shell commands (C5) *)

Section Terminal.
Context {W : Type} `{Collab W}.
Implicit Types (tab : ConnectionTab.t) (env : Env W).

Lemma startswith_nil (s : str) : PyStr.startswith s [] = true.
Proof. destruct s; reflexivity. Qed.

(** Where a shell command can leave the cursor. *)
Lemma send_term_remote_path tab env :
  let after := ConnectionTab.remote_path (ConnectionTab.send_term (tab, env)).2.1 in
  after = ConnectionTab.remote_path tab
  \/ exists arg,
       after = posixpath.normpath (posixpath.join (ConnectionTab.remote_path tab) arg).
Proof.
  cbn zeta. unfold ConnectionTab.send_term, ConnectionTab.on_terminal, SSHTerminal.send.
  destruct tab as [cfg rp lp sf tr term rl rlbl ll llbl tin], env as [w lg].
  py_unfold.
  destruct (bool_decide (PyStr.strip tin = [])); cbn; [left; reflexivity|].
  destruct (PyStr.startswith (PyStr.strip tin) _); cbn.
  - right. eexists. run_listing items lbl w' evs Hevs.
    destruct term as [[tr' [ch|] rn]|]; cbn; try reflexivity.
    match goal with
    | |- context [answer ?c ?w0] => destruct (answer c w0) as [[[]|e] w2]; reflexivity
    end.
  - left. destruct term as [[tr' [ch|] rn]|]; cbn; try reflexivity.
    match goal with
    | |- context [answer ?c ?w0] => destruct (answer c w0) as [[[]|e] w2]; reflexivity
    end.
Qed.

End Terminal.

Section Invariant.
Context {W : Type} `{Collab W}.
Implicit Types (tab : ConnectionTab.t) (env : Env W).

(** C4: a double click on the parent marker sets [remote_path] to the
    parent of the old path taken without its trailing slashes: the root
    stays the root (as does any run of slashes), [p/n] followed by any
    number of slashes goes to [p] without its trailing slashes (to the
    run of slashes itself when [p] is only that), every slash-rooted
    path is of one of these two kinds, and the new path ends in a slash
    only when it is a root. *)
Theorem remote_double_parent it tab env :
  ConnectionTab.item_name it = lit ".." ->
  let R := ConnectionTab.remote_path tab in
  let after := ConnectionTab.remote_path (ConnectionTab.remote_double it (tab, env)).2.1 in
  after = ConnectionTab.parent_of R
  /\ (R = lit "/" -> after = lit "/")
  /\ (all_slashes R = true -> after = lit "/")
  /\ (forall p n k,
        R = p ++ [slash] ++ n ++ repeat slash k -> n <> [] -> slash ∉ n ->
        after = if all_slashes p then p ++ [slash]
                else PyStr.rstrip_chars (lit "/") p)
  /\ (slash_rooted R ->
      all_slashes R = true
      \/ exists p n k,
           R = p ++ [slash] ++ n ++ repeat slash k /\ n <> [] /\ slash ∉ n)
  /\ (all_slashes after = true \/ last after <> Some slash)
  /\ (ConnectionTab.remote_double it (tab, env)).1 = Ok tt.
Proof.
  intros Hname R after.
  assert (Hafter : after = ConnectionTab.parent_of R
                   /\ (ConnectionTab.remote_double it (tab, env)).1 = Ok tt).
  { subst after R. rewrite remote_double_parent_run by exact Hname.
    destruct tab as [cfg rp lp sf tr term rl rlbl ll llbl tin], env as [w lg].
    run_listing items lbl w' evs Hevs. split; reflexivity. }
  destruct Hafter as [Hafter Hok]. rewrite Hafter.
  split; [reflexivity|].
  split; [intros ->; reflexivity|].
  split; [apply parent_of_all_slashes|].
  split; [intros p n k -> Hne Hn; apply parent_of_last_component; assumption|].
  split; [apply slash_rooted_cases|].
  split; [apply parent_of_trailing | exact Hok].
Qed.

Lemma run_op_slash_rooted op tab env :
  slash_rooted (ConnectionTab.remote_path tab) ->
  slash_rooted (ConnectionTab.remote_path (run_op op (tab, env)).1).
Proof.
  intros Hroot. destruct op as [it|txt]; cbn [run_op].
  - destruct (remote_double_remote_path it tab env) as [Heq|[Heq|Heq]];
      cbn zeta in Heq; rewrite Heq.
    + apply parent_of_slash_rooted, Hroot.
    + apply join_slash_rooted, Hroot.
    + exact Hroot.
  - destruct (send_term_remote_path (ConnectionTab.set_term_in txt tab) env)
      as [Heq|[arg Heq]]; cbn zeta in Heq; rewrite Heq;
      destruct tab; cbn.
    + exact Hroot.
    + apply normpath_slash_rooted, join_slash_rooted, Hroot.
Qed.

(** C9: from a slash-rooted [remote_path], the path is slash-rooted
    after each operation of any sequence of double clicks (parent
    marker, directory to enter, file to open) and shell commands. *)
Theorem remote_path_stays_slash_rooted ops tab env :
  slash_rooted (ConnectionTab.remote_path tab) ->
  Forall (fun st => slash_rooted (ConnectionTab.remote_path st.1))
         (run_ops ops (tab, env)).
Proof.
  revert tab env. induction ops as [|op ops IH]; intros tab env Hroot.
  - apply Forall_nil_2.
  - cbn [run_ops].
    pose proof (run_op_slash_rooted op tab env Hroot) as Hstep.
    destruct (run_op op (tab, env)) as [tab' env'].
    apply Forall_cons_2; [exact Hstep | apply IH, Hstep].
Qed.
End Invariant.

(** ** Upload and delete (C6, C2) *)

Section Actions.
Context {W : Type} `{Collab W}.
Implicit Types (tab : ConnectionTab.t) (env : Env W).

(** C6: [upload_file] on the entry named [n] puts
    [os.path.join(local_path, n)] at [posixpath.join(remote_path, n)].
    When the put returns, the remote listing is requested exactly once
    and both cursors are as before; when it raises (or there is no
    client), the error is shown in the "Upload Error" box, no listing is
    requested and the tab is unchanged.  Nothing propagates. *)
Theorem upload_file_spec it n tab env :
  data it = Some n ->
  let src := os_path_join (ConnectionTab.local_path tab) n in
  let dst := posixpath.join (ConnectionTab.remote_path tab) n in
  (forall c w1,
      ConnectionTab.sftp tab = Some c ->
      answer (SFTPPut c src dst) (world env) = (Ok tt, w1) ->
      exists tab' env' evs,
        ConnectionTab.upload_file it (tab, env) = (Ok tt, (tab', env'))
        /\ ConnectionTab.remote_path tab' = ConnectionTab.remote_path tab
        /\ ConnectionTab.local_path tab' = ConnectionTab.local_path tab
        /\ log env' = log env ++ ECall (SFTPPut c src dst) :: ERefreshRemote :: evs
        /\ refreshes evs = 0%nat
        /\ refreshes (log env') = S (refreshes (log env)))
  /\ (forall c e w1,
      ConnectionTab.sftp tab = Some c ->
      answer (SFTPPut c src dst) (world env) = (Raise e, w1) ->
      ConnectionTab.upload_file it (tab, env)
      = (Ok tt,
         (tab, {| world := w1;
                  log := log env ++ [ECall (SFTPPut c src dst);
                                     ECritical (lit "Upload Error") e] |})))
  /\ (ConnectionTab.sftp tab = None ->
      exists e,
        ConnectionTab.upload_file it (tab, env)
        = (Ok tt,
           (tab, {| world := world env;
                    log := log env ++ [ECritical (lit "Upload Error") e] |}))).
Proof.
  intros Hn src dst. subst src dst.
  unfold ConnectionTab.upload_file, ConnectionTab.the_sftp, join_datum.
  rewrite Hn.
  destruct tab as [cfg rp lp sf tr term rl rlbl ll llbl tin], env as [w lg].
  split; [|split].
  - intros c w1 Hc Ha. cbn in Hc, Ha. subst sf. py_unfold. rewrite Ha. cbn.
    run_listing items lbl w' evs Hevs.
    eexists _, _, evs. split; [reflexivity|]. cbn.
    rewrite <- app_assoc. cbn.
    repeat (split; [first [reflexivity | exact Hevs]|]).
    change (ECall (SFTPPut c (os_path_join lp n) (posixpath.join rp n))
              :: ERefreshRemote :: evs)
      with ([ECall (SFTPPut c (os_path_join lp n) (posixpath.join rp n));
             ERefreshRemote] ++ evs).
    rewrite !refreshes_app, Hevs. unfold refreshes. cbn. lia.
  - intros c e w1 Hc Ha. cbn in Hc, Ha. subst sf. py_unfold. rewrite Ha. cbn.
    rewrite <- app_assoc. reflexivity.
  - intros Hc. cbn in Hc. subst sf. py_unfold. eexists. reflexivity.
Qed.

(** C2, as the code has it: the file deletion is attempted first and
    its failure is swallowed, the directory deletion being attempted
    then; when the first attempt that succeeds returns, the listing is
    requested; when the directory deletion fails too, its exception
    propagates to the caller, no listing is requested and the tab is
    as it was.  Remote and local deletion alike. *)
Theorem delete_spec it n tab env :
  data it = Some n ->
  (forall c, ConnectionTab.sftp tab = Some c ->
     let p := posixpath.join (ConnectionTab.remote_path tab) n in
     let '(r1, w1) := answer (SFTPRemove c p) (world env) in
     match r1 with
     | Ok _ =>
         ConnectionTab.delete_remote it (tab, env)
         = ConnectionTab.list_remote_files
             (tab, {| world := w1; log := log env ++ [ECall (SFTPRemove c p)] |})
     | Raise _ =>
         let '(r2, w2) := answer (SFTPRmdir c p) w1 in
         let env2 :=
           {| world := w2;
              log := log env ++ [ECall (SFTPRemove c p); ECall (SFTPRmdir c p)] |} in
         match r2 with
         | Ok _ =>
             ConnectionTab.delete_remote it (tab, env)
             = ConnectionTab.list_remote_files (tab, env2)
         | Raise e2 =>
             ConnectionTab.delete_remote it (tab, env) = (Raise e2, (tab, env2))
         end
     end)
  /\ (let p := os_path_join (ConnectionTab.local_path tab) n in
      let '(r1, w1) := answer (OsRemove p) (world env) in
      match r1 with
      | Ok _ =>
          ConnectionTab.delete_local it (tab, env)
          = ConnectionTab.list_local_files
              (tab, {| world := w1; log := log env ++ [ECall (OsRemove p)] |})
      | Raise _ =>
          let '(r2, w2) := answer (OsRmdir p) w1 in
          let env2 :=
            {| world := w2;
               log := log env ++ [ECall (OsRemove p); ECall (OsRmdir p)] |} in
          match r2 with
          | Ok _ =>
              ConnectionTab.delete_local it (tab, env)
              = ConnectionTab.list_local_files (tab, env2)
          | Raise e2 =>
              ConnectionTab.delete_local it (tab, env) = (Raise e2, (tab, env2))
          end
      end).
Proof.
  intros Hn.
  unfold ConnectionTab.delete_remote, ConnectionTab.delete_local,
    ConnectionTab.the_sftp, join_datum.
  rewrite Hn.
  destruct tab as [cfg rp lp sf tr term rl rlbl ll llbl tin], env as [w lg].
  split.
  - intros c Hc. cbn in Hc. subst sf. py_unfold.
    destruct (answer (SFTPRemove c (posixpath.join rp n)) w) as [[[]|e1] w1]; cbn.
    + reflexivity.
    + destruct (answer (SFTPRmdir c (posixpath.join rp n)) w1) as [[[]|e2] w2]; cbn;
        rewrite <- app_assoc; reflexivity.
  - py_unfold.
    destruct (answer (OsRemove (os_path_join lp n)) w) as [[[]|e1] w1]; cbn.
    + reflexivity.
    + destruct (answer (OsRmdir (os_path_join lp n)) w1) as [[[]|e2] w2]; cbn;
        rewrite <- app_assoc; reflexivity.
Qed.
End Actions.

(** ** Connecting (C7) *)

#[local] Arguments dict_getitem : simpl never.
#[local] Arguments dict_get : simpl never.
#[local] Arguments py_int : simpl never.

Ltac split_answers :=
  repeat match goal with
         | |- context [answer ?c ?w] =>
             let r := fresh "r" in
             let w' := fresh "w" in
             destruct (answer c w) as [r w']; destruct r; cbn
         end.

Section Connect.
Context {W : Type} `{Collab W}.
Implicit Types (tab : ConnectionTab.t) (env : Env W).

Lemma connect_all_reads cfg1 cfg2 tab env :
  dict_getitem cfg1 (lit "server") = dict_getitem cfg2 (lit "server") ->
  dict_get cfg1 (lit "port") (PInt 22) = dict_get cfg2 (lit "port") (PInt 22) ->
  dict_getitem cfg1 (lit "username") = dict_getitem cfg2 (lit "username") ->
  dict_get cfg1 (lit "password") PNone = dict_get cfg2 (lit "password") PNone ->
  ConnectionTab.connect_all (ConnectionTab.set_cfg cfg1 tab, env)
  = let '(r, (tab', env')) :=
      ConnectionTab.connect_all (ConnectionTab.set_cfg cfg2 tab, env) in
    (r, (ConnectionTab.set_cfg cfg1 tab', env')).
Proof.
  intros Hserver Hport Huser Hpass.
  unfold ConnectionTab.connect_all, ConnectionTab.on_terminal, SSHTerminal.open,
    SSHTerminal.__init__.
  destruct tab as [cfg rp lp sf tr term rl rlbl ll llbl tin], env as [w lg].
  py_unfold.
  destruct sf as [c|], tr as [t|]; cbn; split_answers;
    rewrite ?Hserver, ?Hport, ?Huser, ?Hpass;
    destruct (dict_getitem cfg2 _) as [server|e1]; cbn; try reflexivity;
    destruct (py_int _) as [port|e2]; cbn; try reflexivity;
    split_answers; try reflexivity;
    destruct (dict_getitem cfg2 _) as [user|e3]; cbn; try reflexivity;
    split_answers; reflexivity.
Qed.

(** Every authentication call is made with the profile's username and
    password. *)
Lemma connect_all_auth tab env tr u p :
  ECall (TransportConnect tr u p) ∈ log (ConnectionTab.connect_all (tab, env)).2.2 ->
  ECall (TransportConnect tr u p) ∈ log env
  \/ (dict_getitem (ConnectionTab.cfg tab) (lit "username") = Ok u
      /\ p = dict_get (ConnectionTab.cfg tab) (lit "password") PNone).
Proof.
  unfold ConnectionTab.connect_all, ConnectionTab.on_terminal, SSHTerminal.open,
    SSHTerminal.__init__.
  destruct tab as [cfg rp lp sf t term rl rlbl ll llbl tin], env as [w lg].
  py_unfold.
  destruct sf as [c|], t as [t|]; cbn; split_answers;
    destruct (dict_getitem cfg _) as [server|e1]; cbn;
    try (destruct (py_int _) as [port|e2]; cbn;
         try (split_answers;
              try (destruct (dict_getitem cfg _) as [user|e3] eqn:Huser; cbn;
                   try split_answers)));
    rewrite <- ?app_assoc; cbn; intros Hin;
    (apply elem_of_app in Hin as [Hin|Hin]; [left; exact Hin|]); right;
    repeat (apply elem_of_cons in Hin as [Hin|Hin];
            [first [discriminate Hin
                   | injection Hin as _ Hu Hp; rewrite Hu, Hp; split; reflexivity]
            |]);
    apply elem_of_nil in Hin; contradiction.
Qed.

Ltac authenticated :=
  split; [reflexivity|];
  split; [first [intros Hsf Htr; discriminate | intros; split; reflexivity]|];
  intros ? ? ? ? ? Hs Hp Hnew Hu;
  rewrite Hs; cbn; rewrite Hp; cbn; rewrite Hnew; cbn; rewrite Hu; cbn;
  split_answers; rewrite <- ?app_assoc; cbn;
  eexists; split; reflexivity.

(** With the profile readable and the transport made, the authentication
    call follows at once, with the profile's username and password, and
    it is the only one.  [w0] and [pre] are the world and the events
    after the old handles were closed. *)
Lemma connect_all_authenticates tab env :
  exists w0 pre,
    connects pre = 0%nat
    /\ (ConnectionTab.sftp tab = None -> ConnectionTab.transport tab = None ->
        w0 = world env /\ pre = [])
    /\ forall server port tr w1 user,
         dict_getitem (ConnectionTab.cfg tab) (lit "server") = Ok server ->
         py_int (dict_get (ConnectionTab.cfg tab) (lit "port") (PInt 22)) = Ok port ->
         answer (TransportNew server port) w0 = (Ok tr, w1) ->
         dict_getitem (ConnectionTab.cfg tab) (lit "username") = Ok user ->
         exists evs,
           log (ConnectionTab.connect_all (tab, env)).2.2
           = log env ++ pre
               ++ ECall (TransportNew server port)
               :: ECall (TransportConnect tr user
                           (dict_get (ConnectionTab.cfg tab) (lit "password") PNone))
               :: evs
           /\ connects evs = 0%nat.
Proof.
  unfold ConnectionTab.connect_all, ConnectionTab.on_terminal, SSHTerminal.open,
    SSHTerminal.__init__.
  destruct tab as [cfg rp lp sf t term rl rlbl ll llbl tin], env as [w lg].
  py_unfold.
  destruct sf as [c|], t as [t|]; cbn.
  - destruct (answer (SFTPClose c) w) as [[a|e] wa]; cbn.
    + destruct (answer (TransportClose t) wa) as [[a'|e] wb]; cbn;
        exists wb, [ECall (SFTPClose c); ECall (TransportClose t)]; authenticated.
    + exists wa, [ECall (SFTPClose c)]. authenticated.
  - destruct (answer (SFTPClose c) w) as [[a|e] wa]; cbn;
      exists wa, [ECall (SFTPClose c)]; authenticated.
  - destruct (answer (TransportClose t) w) as [[a|e] wa]; cbn;
      exists wa, [ECall (TransportClose t)]; authenticated.
  - exists w, []. authenticated.
Qed.

(** C7: the keyfile of a profile plays no part in connecting.  With any
    value stored under "keyfile", [connect_all] makes the same calls and
    gets the same outcome; every authentication call it makes carries
    the profile's "username" and its "password" (or [None]), and with
    the profile readable and the transport made that call is made, once;
    and the dialog does store the key field under "keyfile". *)
Theorem connect_all_ignores_keyfile tab env k :
  let with_key :=
    ConnectionTab.set_cfg (<[lit "keyfile" := k]> (ConnectionTab.cfg tab)) in
  ConnectionTab.connect_all (with_key tab, env)
  = (let '(r, (tab', env')) := ConnectionTab.connect_all (tab, env) in
     (r, (with_key tab', env')))
  /\ (forall tr u p,
       ECall (TransportConnect tr u p)
         ∈ log (ConnectionTab.connect_all (with_key tab, env)).2.2 ->
       ECall (TransportConnect tr u p) ∈ log env
       \/ (dict_getitem (ConnectionTab.cfg tab) (lit "username") = Ok u
           /\ p = dict_get (ConnectionTab.cfg tab) (lit "password") PNone))
  /\ (forall dlg d,
       ConfigDialog.get_data dlg = Ok d ->
       d !! lit "keyfile"
       = Some (ConfigDialog.str_or_none (PyStr.strip (ConfigDialog.keyfile dlg))))
  /\ (exists w0 pre,
        connects pre = 0%nat
        /\ (ConnectionTab.sftp tab = None -> ConnectionTab.transport tab = None ->
            w0 = world env /\ pre = [])
        /\ forall server port tr w1 user,
             dict_getitem (ConnectionTab.cfg tab) (lit "server") = Ok server ->
             py_int (dict_get (ConnectionTab.cfg tab) (lit "port") (PInt 22)) = Ok port ->
             answer (TransportNew server port) w0 = (Ok tr, w1) ->
             dict_getitem (ConnectionTab.cfg tab) (lit "username") = Ok user ->
             exists evs,
               log (ConnectionTab.connect_all (with_key tab, env)).2.2
               = log env ++ pre
                   ++ ECall (TransportNew server port)
                   :: ECall (TransportConnect tr user
                               (dict_get (ConnectionTab.cfg tab) (lit "password") PNone))
                   :: evs
               /\ connects evs = 0%nat).
Proof.
  intros with_key.
  assert (Hreads : forall key, key <> lit "keyfile" ->
            <[lit "keyfile" := k]> (ConnectionTab.cfg tab) !! key
            = ConnectionTab.cfg tab !! key).
  { intros key Hkey. apply lookup_insert_ne. congruence. }
  assert (Hitem : forall key, key <> lit "keyfile" ->
            dict_getitem (<[lit "keyfile" := k]> (ConnectionTab.cfg tab)) key
            = dict_getitem (ConnectionTab.cfg tab) key).
  { intros key Hkey. unfold dict_getitem. rewrite Hreads by exact Hkey. reflexivity. }
  assert (Hget : forall key v, key <> lit "keyfile" ->
            dict_get (<[lit "keyfile" := k]> (ConnectionTab.cfg tab)) key v
            = dict_get (ConnectionTab.cfg tab) key v).
  { intros key v Hkey. unfold dict_get. rewrite Hreads by exact Hkey. reflexivity. }
  assert (Hsame : ConnectionTab.set_cfg (ConnectionTab.cfg tab) tab = tab)
    by (destruct tab; reflexivity).
  assert (Hrun : ConnectionTab.connect_all (with_key tab, env)
                 = (let '(r, (tab', env')) := ConnectionTab.connect_all (tab, env) in
                    (r, (with_key tab', env')))).
  { subst with_key.
    rewrite (connect_all_reads _ (ConnectionTab.cfg tab)), Hsame;
      first [reflexivity | apply Hitem; discriminate | apply Hget; discriminate]. }
  split; [exact Hrun|]. split; [|split].
  - intros tr u p Hin. apply connect_all_auth in Hin.
    destruct Hin as [Hin|[Hu Hp]]; [left; exact Hin | right].
    subst with_key. destruct tab. cbn in *.
    rewrite Hitem in Hu by discriminate. rewrite Hget in Hp by discriminate.
    split; assumption.
  - intros dlg d. unfold ConfigDialog.get_data.
    destruct (match PyStr.strip (ConfigDialog.port dlg) with
              | [] => Ok 22 | _ => _ end) as [port|e]; [|discriminate].
    intros [= <-].
    repeat (rewrite lookup_insert_ne by discriminate).
    apply lookup_insert_eq.
  - destruct (connect_all_authenticates tab env) as (w0 & pre & Hpre & Hfresh & Hauth).
    exists w0, pre. split; [exact Hpre|]. split; [exact Hfresh|].
    intros server port tr w1 user Hs Hp Hnew Hu.
    destruct (Hauth server port tr w1 user Hs Hp Hnew Hu) as (evs & Hlog & Hevs).
    exists evs. split; [|exact Hevs].
    rewrite Hrun.
    destruct (ConnectionTab.connect_all (tab, env)) as [r [tab' env']].
    exact Hlog.
Qed.
End Connect.

(** ** Persistence (C8, C10) *)

#[local] Arguments Theme.default : simpl never.
#[local] Arguments dict_update : simpl never.

Section Persistence.
Context {W : Type} `{Collab W}.
Implicit Types (app : AppWindow.t) (env : Env W).

(** C8: a missing or unreadable profile file gives the empty list and a
    missing or unreadable theme file gives the default theme; neither
    load raises, whatever the storage holds. *)
Theorem loads_degrade {S : Type} (s : S) app env :
  ((path_exists (world env) CONFIG_FILE = false
    \/ exists e w', answer (JsonLoadFile CONFIG_FILE) (world env) = (Raise e, w')) ->
   (AppWindow.load_saved_configs (app, env)).1 = Ok [])
  /\ ((path_exists (world env) THEME_FILE = false
       \/ exists e w', answer (JsonLoadFile THEME_FILE) (world env) = (Raise e, w')) ->
      (ThemeManager.load (s, env)).1 = Ok Theme.default)
  /\ (exists l, (AppWindow.load_saved_configs (app, env)).1 = Ok l)
  /\ (exists th, (ThemeManager.load (s, env)).1 = Ok th).
Proof.
  unfold AppWindow.load_saved_configs, ThemeManager.load.
  destruct env as [w lg]. py_unfold.
  split; [|split; [|split]].
  - intros [Hmiss | (e & w' & Hbad)].
    + rewrite Hmiss. reflexivity.
    + destruct (path_exists w CONFIG_FILE); [|reflexivity].
      rewrite Hbad. reflexivity.
  - intros [Hmiss | (e & w' & Hbad)].
    + rewrite Hmiss. reflexivity.
    + destruct (path_exists w THEME_FILE); [|reflexivity].
      rewrite Hbad. reflexivity.
  - destruct (path_exists w CONFIG_FILE); cbn; [|eexists; reflexivity].
    destruct (answer (JsonLoadFile CONFIG_FILE) w) as [[data|e] w']; cbn;
      eexists; reflexivity.
  - destruct (path_exists w THEME_FILE); cbn; [|eexists; reflexivity].
    destruct (answer (JsonLoadFile THEME_FILE) w) as [[data|e] w']; cbn;
      [|eexists; reflexivity].
    destruct (dict_update _ data); cbn; eexists; reflexivity.
Qed.

(** C10: stored data that is not a list is returned as the one-element
    list holding it. *)
Theorem load_saved_configs_wraps app env data w' :
  path_exists (world env) CONFIG_FILE = true ->
  answer (JsonLoadFile CONFIG_FILE) (world env) = (Ok data, w') ->
  (forall l, data <> PList l) ->
  (AppWindow.load_saved_configs (app, env)).1 = Ok [data].
Proof.
  intros Hex Hload Hnot.
  unfold AppWindow.load_saved_configs. destruct env as [w lg].
  py_unfold. rewrite Hex, Hload. cbn.
  destruct data; try reflexivity. exfalso. eapply Hnot. reflexivity.
Qed.
End Persistence.

(** ** Closing a tab (C3) *)

Section Teardown.
Context {W : Type} `{Collab W}.
Implicit Types (app : AppWindow.t) (env : Env W).

Lemma delete_insert_same {A} (l : list A) i x :
  delete i (<[i := x]> l) = delete i l.
Proof.
  revert i. induction l as [|y l IH]; intros [|i]; cbn; try reflexivity.
  f_equal. apply IH.
Qed.

(** C3, as the code has it: closing a connected tab always attempts the
    channel close and then the client close (a failure of the channel
    close is swallowed inside [SSHTerminal.close]); the transport close
    is attempted when the client close returned, and is skipped when
    the client close raised.  Nothing propagates and the tab is removed
    in every case. *)
Theorem close_tab_spec index app env tab term ch c tr :
  AppWindow.tabs app !! index = Some (WConnectionTab tab) ->
  ConnectionTab.ssh_terminal tab = Some term ->
  SSHTerminal.channel term = Some ch ->
  ConnectionTab.sftp tab = Some c ->
  ConnectionTab.transport tab = Some tr ->
  let closed := AppWindow.set_tabs (delete index (AppWindow.tabs app)) app in
  let '(r1, w1) := answer (ChannelClose ch) (world env) in
  let '(r2, w2) := answer (SFTPClose c) w1 in
  match r2 with
  | Ok _ =>
      let '(r3, w3) := answer (TransportClose tr) w2 in
      AppWindow.close_tab index (app, env)
      = (Ok tt,
         (closed,
          {| world := w3;
             log := log env ++ [ECall (ChannelClose ch); ECall (SFTPClose c);
                                ECall (TransportClose tr)] |}))
  | Raise _ =>
      AppWindow.close_tab index (app, env)
      = (Ok tt,
         (closed,
          {| world := w2;
             log := log env ++ [ECall (ChannelClose ch); ECall (SFTPClose c)] |}))
  end.
Proof.
  intros Htab Hterm Hch Hc Htr closed. subst closed.
  unfold AppWindow.close_tab, AppWindow.close_terminal_of, SSHTerminal.close.
  destruct app as [tabs cfgs], env as [w lg].
  destruct tab as [cfg rp lp sf t term0 rl rlbl ll llbl tin].
  cbn in Htab, Hterm, Hc, Htr. subst sf t term0.
  destruct term as [t0 ch0 rn]. cbn in Hch. subst ch0.
  py_unfold. rewrite Htab. cbn.
  destruct (answer (ChannelClose ch) w) as [[[]|e1] w1]; cbn;
    (destruct (answer (SFTPClose c) w1) as [[[]|e2] w2]; cbn;
     [destruct (answer (TransportClose tr) w2) as [[[]|e3] w3]; cbn|]);
    rewrite delete_insert_same, <- ?app_assoc; reflexivity.
Qed.
End Teardown.

(** ** Worked examples on the scripted collaborator *)

Section Worked.
Import Scripted.

Example join_abs : posixpath.join (lit "/a") (lit "sub") = lit "/a/sub".
Proof. reflexivity. Qed.
Example join_root : posixpath.join (lit "/") (lit "sub") = lit "/sub".
Proof. reflexivity. Qed.
Example join_reset : posixpath.join (lit "/a") (lit "/etc") = lit "/etc".
Proof. reflexivity. Qed.
Example dirname_ab : posixpath.dirname (lit "/a/b") = lit "/a".
Proof. reflexivity. Qed.
Example dirname_a : posixpath.dirname (lit "/a") = lit "/".
Proof. reflexivity. Qed.
Example dirname_slashes : posixpath.dirname (lit "/a//b") = lit "/a".
Proof. reflexivity. Qed.
Example dirname_rel : posixpath.dirname (lit "a") = lit "".
Proof. reflexivity. Qed.
Example normpath_dots :
  posixpath.normpath (lit "/a/./b/../../c/") = lit "/c".
Proof. reflexivity. Qed.
Example normpath_above_root : posixpath.normpath (lit "/../x") = lit "/x".
Proof. reflexivity. Qed.
Example normpath_two_slashes : posixpath.normpath (lit "//a") = lit "//a".
Proof. reflexivity. Qed.
Example normpath_three_slashes : posixpath.normpath (lit "///a") = lit "/a".
Proof. reflexivity. Qed.
Example normpath_rel : posixpath.normpath (lit "a/../..") = lit "..".
Proof. reflexivity. Qed.
Example strip_cd : PyStr.strip (lit "  cd sub ") = lit "cd sub".
Proof. reflexivity. Qed.
Example parent_of_root : ConnectionTab.parent_of (lit "/") = lit "/".
Proof. reflexivity. Qed.
Example parent_of_trailing_slash : ConnectionTab.parent_of (lit "/srv/x/") = lit "/srv".
Proof. reflexivity. Qed.
Example listing_of_quiet :
  ConnectionTab.remote_list
    (ConnectionTab.list_remote_files (tab_at "/srv" "/home/u" [], env0 quiet)).2.1
  = shown.
Proof. reflexivity. Qed.

(** C1: with [a.txt] and [d/] on show, a listing that fails leaves the
    parent marker alone. *)
Lemma list_remote_files_failure_witness :
  ConnectionTab.sftp srv_tab = Some 2%nat
  /\ answer (SFTPListdirAttr 2%nat (lit "/srv")) listing_fails
     = (Raise failure, listing_fails)
  /\ ConnectionTab.list_remote_files (srv_tab, env0 listing_fails)
     = (Ok tt,
        (ConnectionTab.set_remote_list [parent_item] srv_tab,
         {| world := listing_fails;
            log := [ERefreshRemote; ECall (SFTPListdirAttr 2%nat (lit "/srv"));
                    EPrint failure] |})).
Proof.
  split; [reflexivity | split; [reflexivity |]].
  apply (list_remote_files_failure srv_tab (env0 listing_fails) 2%nat failure
           listing_fails); reflexivity.
Defined.

(** C1 fails as stated: the listing operation raises and the view no
    longer shows what it showed before. *)
Lemma list_remote_files_failure_loses_view :
  (answer (SFTPListdirAttr 2%nat (ConnectionTab.remote_path srv_tab)) listing_fails).1
  = Raise failure
  /\ ConnectionTab.remote_list srv_tab = shown
  /\ ConnectionTab.remote_list
       (ConnectionTab.list_remote_files (srv_tab, env0 listing_fails)).2.1
     = [parent_item]
  /\ ConnectionTab.remote_list
       (ConnectionTab.list_remote_files (srv_tab, env0 listing_fails)).2.1
     <> ConnectionTab.remote_list srv_tab.
Proof.
  repeat split; try (vm_compute; reflexivity).
  vm_compute. discriminate.
Qed.

(** C2: deleting the non-empty directory [d]: both attempts are made,
    the second one's exception reaches the caller, the tab is as it
    was. *)
Lemma delete_spec_witness :
  data (entry_item (lit "d") true true) = Some (lit "d")
  /\ ConnectionTab.sftp srv_tab = Some 2%nat
  /\ ConnectionTab.delete_remote (entry_item (lit "d") true true)
       (srv_tab, env0 nonempty_directory)
     = (Raise failure,
        (srv_tab,
         {| world := nonempty_directory;
            log := [ECall (SFTPRemove 2%nat (lit "/srv/d"));
                    ECall (SFTPRmdir 2%nat (lit "/srv/d"))] |}))
  /\ ConnectionTab.delete_local (entry_item (lit "d") true true)
       (srv_tab, env0 nonempty_directory)
     = (Raise failure,
        (srv_tab,
         {| world := nonempty_directory;
            log := [ECall (OsRemove (lit "/home/u/d"));
                    ECall (OsRmdir (lit "/home/u/d"))] |})).
Proof.
  split; [reflexivity | split; [reflexivity |]].
  pose proof (delete_spec (entry_item (lit "d") true true) (lit "d") srv_tab
                (env0 nonempty_directory) eq_refl) as [Hremote Hlocal].
  split; [exact (Hremote 2%nat eq_refl) | exact Hlocal].
Defined.

(** C2 fails as stated: the failure of the directory deletion is not
    swallowed, on the server or on the host. *)
Lemma delete_nonempty_directory_raises :
  (ConnectionTab.delete_remote (entry_item (lit "d") true true)
     (srv_tab, env0 nonempty_directory)).1 = Raise failure
  /\ (ConnectionTab.delete_local (entry_item (lit "d") true true)
        (srv_tab, env0 nonempty_directory)).1 = Raise failure.
Proof. split; vm_compute; reflexivity. Qed.

(** C3: on the quiet server all three closes are attempted, in order. *)
Lemma close_tab_spec_witness :
  AppWindow.tabs one_tab !! 0%nat = Some (WConnectionTab srv_tab)
  /\ AppWindow.close_tab 0 (one_tab, env0 quiet)
     = (Ok tt,
        (no_tabs,
         {| world := quiet;
            log := [ECall (ChannelClose 3%nat); ECall (SFTPClose 2%nat);
                    ECall (TransportClose 1%nat)] |})).
Proof.
  split; [reflexivity |].
  exact (close_tab_spec 0 one_tab (env0 quiet) srv_tab _ 3%nat 2%nat 1%nat
           eq_refl eq_refl eq_refl eq_refl eq_refl).
Defined.

(** C3 fails as stated: when the client's close raises, the transport's
    close is not attempted. *)
Lemma close_tab_skips_transport :
  ConnectionTab.transport srv_tab = Some 1%nat
  /\ (answer (SFTPClose 2%nat) client_close_fails).1 = Raise failure
  /\ log (AppWindow.close_tab 0 (one_tab, env0 client_close_fails)).2.2
     = [ECall (ChannelClose 3%nat); ECall (SFTPClose 2%nat)]
  /\ ECall (TransportClose 1%nat)
     ∉ log (AppWindow.close_tab 0 (one_tab, env0 client_close_fails)).2.2.
Proof.
  repeat split; try (vm_compute; reflexivity).
  vm_compute. intros Hin.
  repeat (apply elem_of_cons in Hin as [Hin|Hin]; [discriminate Hin|]).
  apply elem_of_nil in Hin. exact Hin.
Qed.

(** C4: from [/srv/x/] the parent marker leads to [/srv]; from the root
    it leads to the root. *)
Lemma remote_double_parent_witness :
  ConnectionTab.item_name parent_item = lit ".."
  /\ ConnectionTab.remote_path
       (ConnectionTab.remote_double parent_item
          (tab_at "/srv/x/" "/home/u" shown, env0 quiet)).2.1
     = lit "/srv"
  /\ ConnectionTab.remote_path
       (ConnectionTab.remote_double parent_item
          (tab_at "/" "/home/u" shown, env0 quiet)).2.1
     = lit "/".
Proof.
  split; [reflexivity |]. split.
  - exact (proj1 (remote_double_parent parent_item (tab_at "/srv/x/" "/home/u" shown)
                    (env0 quiet) eq_refl)).
  - exact (proj1 (proj2 (remote_double_parent parent_item (tab_at "/" "/home/u" shown)
                           (env0 quiet) eq_refl)) eq_refl).
Defined.

(** C6: the specification's example, on a host that joins the POSIX
    way. *)
Lemma upload_file_spec_witness :
  data (entry_item (lit "file.txt") false false) = Some (lit "file.txt")
  /\ exists tab' env' evs,
       ConnectionTab.upload_file (entry_item (lit "file.txt") false false)
         (srv_tab, env0 quiet)
       = (Ok tt, (tab', env'))
       /\ ConnectionTab.remote_path tab' = lit "/srv"
       /\ ConnectionTab.local_path tab' = lit "/home/u"
       /\ log env'
          = ECall (SFTPPut 2%nat (lit "/home/u/file.txt") (lit "/srv/file.txt"))
              :: ERefreshRemote :: evs
       /\ refreshes evs = 0%nat
       /\ refreshes (log env') = 1%nat.
Proof.
  split; [reflexivity |].
  exact (proj1 (upload_file_spec (entry_item (lit "file.txt") false false)
                  (lit "file.txt") srv_tab (env0 quiet) eq_refl)
           2%nat quiet eq_refl eq_refl).
Defined.

(** C7: the dialog stores the trimmed key path under "keyfile", and a
    first connection with that profile authenticates with the user name
    [u] and the password [p], once, as it does without the key. *)
Lemma connect_all_ignores_keyfile_witness :
  ConfigDialog.get_data dialog
  = Ok (<[lit "keyfile" := PStr (lit "/home/u/.ssh/id_rsa")]>
          (<[lit "local_path" := PStr (lit "")]> profile))
  /\ (<[lit "keyfile" := PStr (lit "/home/u/.ssh/id_rsa")]>
        (<[lit "local_path" := PStr (lit "")]> profile)) !! lit "keyfile"
     = Some (PStr (lit "/home/u/.ssh/id_rsa"))
  /\ (exists evs,
        log (ConnectionTab.connect_all
               (ConnectionTab.set_cfg
                  (<[lit "keyfile" := PStr (lit "/home/u/.ssh/id_rsa")]> profile)
                  (fresh_tab profile "/" "/home/u"),
                env0 quiet)).2.2
        = ECall (TransportNew (PStr (lit "h")) 22)
            :: ECall (TransportConnect 1%nat (PStr (lit "u")) (PStr (lit "p"))) :: evs
        /\ connects evs = 0%nat)
  /\ (ECall (TransportConnect 1%nat (PStr (lit "u")) (PStr (lit "p"))) ∈ log (env0 quiet)
      \/ (dict_getitem profile (lit "username") = Ok (PStr (lit "u"))
          /\ PStr (lit "p") = dict_get profile (lit "password") PNone))
  /\ ConnectionTab.connect_all
       (ConnectionTab.set_cfg
          (<[lit "keyfile" := PStr (lit "/home/u/.ssh/id_rsa")]> profile)
          (fresh_tab profile "/" "/home/u"),
        env0 quiet)
     = (let '(r, (tab', env')) :=
          ConnectionTab.connect_all (fresh_tab profile "/" "/home/u", env0 quiet) in
        (r, (ConnectionTab.set_cfg
               (<[lit "keyfile" := PStr (lit "/home/u/.ssh/id_rsa")]> profile) tab',
             env'))).
Proof.
  assert (Hdata : ConfigDialog.get_data dialog
                  = Ok (<[lit "keyfile" := PStr (lit "/home/u/.ssh/id_rsa")]>
                          (<[lit "local_path" := PStr (lit "")]> profile)))
    by (vm_compute; reflexivity).
  pose proof (connect_all_ignores_keyfile (fresh_tab profile "/" "/home/u") (env0 quiet)
                (PStr (lit "/home/u/.ssh/id_rsa")))
    as (Hrun & Hin & Hkey & w0 & pre & _ & Hfresh & Hauth).
  destruct (Hfresh eq_refl eq_refl) as [-> ->].
  pose proof (Hauth (PStr (lit "h")) 22 1%nat quiet (PStr (lit "u"))
                eq_refl eq_refl eq_refl eq_refl) as (evs & Hlog & Hevs).
  split; [exact Hdata |].
  split; [exact (Hkey dialog _ Hdata) |].
  split; [exists evs; split; [exact Hlog | exact Hevs] |].
  split; [| exact Hrun].
  apply (Hin 1%nat (PStr (lit "u")) (PStr (lit "p"))).
  rewrite Hlog. apply list_elem_of_further, list_elem_of_here.
Defined.

(** C8: nothing stored, and storage that cannot be parsed. *)
Lemma loads_degrade_witness :
  path_exists nothing_stored CONFIG_FILE = false
  /\ (AppWindow.load_saved_configs (no_tabs, env0 nothing_stored)).1 = Ok []
  /\ (ThemeManager.load (tt, env0 nothing_stored)).1 = Ok Theme.default
  /\ (AppWindow.load_saved_configs (no_tabs, env0 corrupt_storage)).1 = Ok []
  /\ (ThemeManager.load (tt, env0 corrupt_storage)).1 = Ok Theme.default.
Proof.
  split; [reflexivity |].
  pose proof (loads_degrade tt no_tabs (env0 nothing_stored)) as (Hc & Ht & _).
  pose proof (loads_degrade tt no_tabs (env0 corrupt_storage)) as (Hc' & Ht' & _).
  split; [apply Hc; left; reflexivity |].
  split; [apply Ht; left; reflexivity |].
  split; [apply Hc' | apply Ht']; right; exists failure, corrupt_storage; reflexivity.
Defined.

(** C9: a command climbing above the root, the parent marker, a
    directory and a file. *)
Lemma remote_path_stays_slash_rooted_witness :
  slash_rooted (lit "/a")
  /\ Forall (fun st => slash_rooted (ConnectionTab.remote_path st.1))
       (run_ops [ShellCommand (lit "cd sub/../../.."); DoubleClick parent_item;
                 DoubleClick (entry_item (lit "d") true true);
                 DoubleClick (entry_item (lit "a.txt") false false)]
          (tab_at "/a" "/home/u" shown, env0 quiet)).
Proof.
  split; [reflexivity |].
  apply (remote_path_stays_slash_rooted _ (tab_at "/a" "/home/u" shown) (env0 quiet)).
  reflexivity.
Defined.

(** C10: a single stored profile comes back as a list of one. *)
Lemma load_saved_configs_wraps_witness :
  path_exists (with_stored (PDict profile) quiet) CONFIG_FILE = true
  /\ (AppWindow.load_saved_configs
        (no_tabs, env0 (with_stored (PDict profile) quiet))).1
     = Ok [PDict profile].
Proof.
  split; [reflexivity |].
  apply (load_saved_configs_wraps no_tabs (env0 (with_stored (PDict profile) quiet))
           (PDict profile) (with_stored (PDict profile) quiet));
    [reflexivity | reflexivity | discriminate].
Defined.
End Worked.

(** * Further properties *)

(** ** What a listing shows *)

Section ModeBits.
Implicit Types (h : py_stat.host) (m : Z).

Lemma S_ISDIR_in_range h m :
  py_stat.in_mode_t h m ->
  py_stat.S_ISDIR h (Some m) = Ok (py_stat.S_IFMT m =? py_stat.S_IFDIR).
Proof.
  intros (H0 & Hu & Hm). unfold py_stat.S_ISDIR, py_stat.as_mode_t.
  destruct (Z.ltb_spec m 0); [lia|].
  destruct (Z.leb_spec (py_stat.ulong_limit h) m); [lia|].
  destruct (Z.leb_spec (py_stat.mode_limit h) m); [lia|].
  reflexivity.
Qed.

Lemma S_ISDIR_out_of_range h m :
  ~ py_stat.in_mode_t h m ->
  exists msg, py_stat.S_ISDIR h (Some m) = Raise (OverflowError msg).
Proof.
  intros Hout. unfold py_stat.S_ISDIR, py_stat.as_mode_t.
  destruct (Z.ltb_spec m 0); [eauto|].
  destruct (Z.leb_spec (py_stat.ulong_limit h) m); [eauto|].
  destruct (Z.leb_spec (py_stat.mode_limit h) m); [eauto|].
  exfalso. apply Hout. repeat split; lia.
Qed.

Lemma S_ISDIR_answers h mode b :
  py_stat.S_ISDIR h mode = Ok b ->
  exists m, mode = Some m /\ py_stat.in_mode_t h m
            /\ b = (py_stat.S_IFMT m =? py_stat.S_IFDIR).
Proof.
  unfold py_stat.S_ISDIR, py_stat.as_mode_t. destruct mode as [m|]; [|discriminate].
  destruct (Z.ltb_spec m 0); [discriminate|].
  destruct (Z.leb_spec (py_stat.ulong_limit h) m); [discriminate|].
  destruct (Z.leb_spec (py_stat.mode_limit h) m); [discriminate|].
  intros [= <-]. exists m. repeat split; lia.
Qed.
End ModeBits.

Section ListingViews.
Context {W : Type} `{Collab W}.
Implicit Types (tab s : ConnectionTab.t) (env : Env W).

Lemma for_each_app {S A} (l1 l2 : list A) (body : A -> Py W S unit) st :
  for_each (l1 ++ l2) body st
  = match for_each l1 body st with
    | (Ok _, st') => for_each l2 body st'
    | (Raise e, st') => (Raise e, st')
    end.
Proof.
  revert st. induction l1 as [|x l1 IH]; intros st; cbn [for_each app].
  - reflexivity.
  - unfold bind. destruct (body x st) as [[[]|e] st']; [apply IH | reflexivity].
Qed.

(** The loop of [list_remote_files] over entries whose modes the host's
    [mode_t] holds, and what it does when it comes to an entry on which
    [S_ISDIR] raises. *)
Lemma listing_loop_modes files more s items env :
  Forall (fun file => py_stat.in_mode_t c_types file.2) files ->
  for_each (map reported files ++ more) (fun f =>
    d1 <- lift_result (py_stat.S_ISDIR c_types (st_mode f)) ;;
    d2 <- lift_result (py_stat.S_ISDIR c_types (st_mode f)) ;;
    modify (fun s =>
      ConnectionTab.set_remote_list
        (ConnectionTab.remote_list s ++ [entry_item (filename f) d1 d2]) s))
    (ConnectionTab.set_remote_list items s, env)
  = match more with
    | [] =>
        (Ok tt, (ConnectionTab.set_remote_list (items ++ map remote_entry files) s, env))
    | f :: _ =>
        match py_stat.S_ISDIR c_types (st_mode f) with
        | Raise e =>
            (Raise e,
             (ConnectionTab.set_remote_list (items ++ map remote_entry files) s, env))
        | Ok _ =>
            for_each more (fun f =>
              d1 <- lift_result (py_stat.S_ISDIR c_types (st_mode f)) ;;
              d2 <- lift_result (py_stat.S_ISDIR c_types (st_mode f)) ;;
              modify (fun s =>
                ConnectionTab.set_remote_list
                  (ConnectionTab.remote_list s ++ [entry_item (filename f) d1 d2]) s))
              (ConnectionTab.set_remote_list (items ++ map remote_entry files) s, env)
        end
    end.
Proof.
  intros Hfiles. revert items. destruct s.
  induction Hfiles as [|[n m] files Hm _ IH]; intros items.
  - cbn [map app]. rewrite app_nil_r.
    destruct more as [|f more]; [reflexivity|].
    destruct (py_stat.S_ISDIR c_types (st_mode f)) eqn:Hf; [reflexivity|].
    cbn [for_each]. unfold bind at 1. rewrite Hf. reflexivity.
  - cbn [map for_each app]. unfold bind at 1.
    change (st_mode (reported (n, m))) with (Some m).
    rewrite (S_ISDIR_in_range c_types m Hm). py_unfold.
    specialize (IH (items ++ [remote_entry (n, m)])).
    py_unfold. rewrite <- app_assoc in IH. exact IH.
Qed.

(** X1: when [listdir_attr] answers and every entry carries mode bits
    that the host's [mode_t] holds, the view is the parent marker
    followed by one item per entry, in the server's order: the text is
    the name, with a slash added for a directory, the datum is the bare
    name; the label names the listed path and nothing is printed. *)
Theorem list_remote_files_complete tab env c files w' :
  ConnectionTab.sftp tab = Some c ->
  Forall (fun file => py_stat.in_mode_t c_types file.2) files ->
  answer (SFTPListdirAttr c (ConnectionTab.remote_path tab)) (world env)
    = (Ok (map reported files), w') ->
  ConnectionTab.list_remote_files (tab, env)
  = (Ok tt,
     (ConnectionTab.set_remote_label
        (lit "Remote: " ++ ConnectionTab.remote_path tab)
        (ConnectionTab.set_remote_list (parent_item :: map remote_entry files) tab),
      {| world := w';
         log := log env ++ [ERefreshRemote;
                            ECall (SFTPListdirAttr c (ConnectionTab.remote_path tab))] |}))
  /\ List.length (parent_item :: map remote_entry files) = S (List.length files)
  /\ map data (map remote_entry files) = map (fun file => Some file.1) files.
Proof.
  intros Hc Hfiles Ha. split; [|split].
  - unfold ConnectionTab.list_remote_files, ConnectionTab.the_sftp.
    destruct tab as [cfg rp lp sf tr term rl rlbl ll llbl tin], env as [w lg].
    cbn in Hc, Ha. subst sf. py_unfold. rewrite Ha. cbn.
    match goal with
    | |- context [for_each _ ?b (?s, ?e)] =>
        pose proof (listing_loop_modes files [] s [parent_item] e Hfiles) as Hloop;
        destruct (for_each (map reported files) b (s, e)) as [r st'] eqn:Hrun
    end.
    rewrite app_nil_r in Hloop.
    assert (Heq : (r, st') = (Ok tt, (ConnectionTab.set_remote_list
               ([parent_item] ++ map remote_entry files)
               {| ConnectionTab.cfg := cfg; ConnectionTab.remote_path := rp;
                  ConnectionTab.local_path := lp; ConnectionTab.sftp := Some c;
                  ConnectionTab.transport := tr; ConnectionTab.ssh_terminal := term;
                  ConnectionTab.remote_list := [parent_item];
                  ConnectionTab.remote_label := rlbl; ConnectionTab.local_list := ll;
                  ConnectionTab.local_label := llbl; ConnectionTab.term_in := tin |},
               {| world := w';
                  log := (lg ++ [ERefreshRemote]) ++ [ECall (SFTPListdirAttr c rp)] |}))).
    { rewrite <- Hrun. exact Hloop. }
    injection Heq as -> ->. cbn. rewrite <- app_assoc. reflexivity.
  - cbn. rewrite length_map. reflexivity.
  - rewrite map_map. reflexivity.
Qed.

(** X2: an entry on which [S_ISDIR] raises ends the listing there: one
    reported without mode bits (a [TypeError]) or with a mode that the
    host's [mode_t] does not hold (an [OverflowError]).  The view keeps
    the parent marker and the entries before it, the entries behind it
    are not shown, the error is printed, the label is not updated, and
    nothing propagates. *)
Theorem list_remote_files_modeless tab env c files bad rest w' :
  ConnectionTab.sftp tab = Some c ->
  Forall (fun file => py_stat.in_mode_t c_types file.2) files ->
  answer (SFTPListdirAttr c (ConnectionTab.remote_path tab)) (world env)
    = (Ok (map reported files ++ bad :: rest), w') ->
  (st_mode bad = None
   \/ exists m, st_mode bad = Some m /\ ~ py_stat.in_mode_t c_types m) ->
  exists e,
    ConnectionTab.list_remote_files (tab, env)
    = (Ok tt,
       (ConnectionTab.set_remote_list (parent_item :: map remote_entry files) tab,
        {| world := w';
           log := log env ++ [ERefreshRemote;
                              ECall (SFTPListdirAttr c (ConnectionTab.remote_path tab));
                              EPrint e] |}))
    /\ match st_mode bad with
       | None => e = TypeError (lit "an integer is required")
       | Some _ => exists msg, e = OverflowError msg
       end.
Proof.
  intros Hc Hfiles Ha Hbad.
  assert (Hraise : exists e,
            py_stat.S_ISDIR c_types (st_mode bad) = Raise e
            /\ match st_mode bad with
               | None => e = TypeError (lit "an integer is required")
               | Some _ => exists msg, e = OverflowError msg
               end).
  { destruct Hbad as [Hnone|(m & Hsome & Hout)].
    - rewrite Hnone. eexists. split; reflexivity.
    - rewrite Hsome. destruct (S_ISDIR_out_of_range _ _ Hout) as [msg Hmsg].
      rewrite Hmsg. eauto. }
  destruct Hraise as (e & Hraise & Hkind). exists e. split; [|exact Hkind].
  unfold ConnectionTab.list_remote_files, ConnectionTab.the_sftp.
  destruct tab as [cfg rp lp sf tr term rl rlbl ll llbl tin], env as [w lg].
  cbn in Hc, Ha. subst sf. py_unfold. rewrite Ha. cbn.
  match goal with
  | |- context [for_each _ ?b (?s, ?e0)] =>
      pose proof (listing_loop_modes files (bad :: rest) s [parent_item] e0 Hfiles)
        as Hloop;
      destruct (for_each (map reported files ++ bad :: rest) b (s, e0))
        as [r st'] eqn:Hrun
  end.
  cbv beta iota in Hloop. rewrite Hraise in Hloop.
  assert (Heq : (r, st') = (Raise e,
             (ConnectionTab.set_remote_list
               ([parent_item] ++ map remote_entry files)
               {| ConnectionTab.cfg := cfg; ConnectionTab.remote_path := rp;
                  ConnectionTab.local_path := lp; ConnectionTab.sftp := Some c;
                  ConnectionTab.transport := tr; ConnectionTab.ssh_terminal := term;
                  ConnectionTab.remote_list := [parent_item];
                  ConnectionTab.remote_label := rlbl; ConnectionTab.local_list := ll;
                  ConnectionTab.local_label := llbl; ConnectionTab.term_in := tin |},
               {| world := w';
                  log := (lg ++ [ERefreshRemote]) ++ [ECall (SFTPListdirAttr c rp)] |}))).
  { rewrite <- Hrun. exact Hloop. }
  injection Heq as -> ->. cbn. rewrite <- !app_assoc. reflexivity.
Qed.

Lemma listing_loop_prefix attrs s items env :
  exists r more,
    for_each attrs (fun f =>
      d1 <- lift_result (py_stat.S_ISDIR c_types (st_mode f)) ;;
      d2 <- lift_result (py_stat.S_ISDIR c_types (st_mode f)) ;;
      modify (fun s =>
        ConnectionTab.set_remote_list
          (ConnectionTab.remote_list s ++ [entry_item (filename f) d1 d2]) s))
      (ConnectionTab.set_remote_list items s, env)
    = (r, (ConnectionTab.set_remote_list (items ++ more) s, env)).
Proof.
  revert items. destruct s.
  induction attrs as [|f attrs IH]; intros items.
  - exists (Ok tt), []. rewrite app_nil_r. reflexivity.
  - cbn [for_each]. unfold bind at 1.
    destruct (py_stat.S_ISDIR c_types (st_mode f)) as [d|e]; py_unfold.
    + destruct (IH (items ++ [entry_item (filename f) d d])) as (r & more & Hrun).
      exists r, (entry_item (filename f) d d :: more).
      py_unfold. rewrite <- app_assoc in Hrun. exact Hrun.
    + eexists _, []. rewrite app_nil_r. reflexivity.
Qed.

(** A refresh in full: normal return, the parent marker first, the label
    kept or set to the listed path, and the events of one listing. *)
Lemma list_remote_files_run tab env :
  exists more lbl w' evs,
    ConnectionTab.list_remote_files (tab, env)
    = (Ok tt,
       (ConnectionTab.set_remote_label lbl
          (ConnectionTab.set_remote_list (parent_item :: more) tab),
        {| world := w'; log := log env ++ ERefreshRemote :: evs |}))
    /\ Forall (listing_event (ConnectionTab.remote_path tab)) evs
    /\ (lbl = ConnectionTab.remote_label tab
        \/ lbl = lit "Remote: " ++ ConnectionTab.remote_path tab).
Proof.
  unfold ConnectionTab.list_remote_files, ConnectionTab.the_sftp.
  destruct tab as [cfg rp lp [c|] tr term rl rlbl ll llbl tin], env as [w lg];
    py_unfold.
  - destruct (answer (SFTPListdirAttr c rp) w) as [[attrs|e] w']; cbn.
    + match goal with
      | |- context [for_each attrs ?b (?s, ?e)] =>
          destruct (listing_loop_prefix attrs s [parent_item] e)
            as (r' & more & Hloop);
          destruct (for_each attrs b (s, e)) as [r st'] eqn:Hrun
      end.
      assert (Heq : (r, st') = (r', (ConnectionTab.set_remote_list
                 ([parent_item] ++ more)
                 {| ConnectionTab.cfg := cfg; ConnectionTab.remote_path := rp;
                    ConnectionTab.local_path := lp; ConnectionTab.sftp := Some c;
                    ConnectionTab.transport := tr; ConnectionTab.ssh_terminal := term;
                    ConnectionTab.remote_list := [parent_item];
                    ConnectionTab.remote_label := rlbl; ConnectionTab.local_list := ll;
                    ConnectionTab.local_label := llbl; ConnectionTab.term_in := tin |},
                 {| world := w';
                    log := (lg ++ [ERefreshRemote]) ++ [ECall (SFTPListdirAttr c rp)] |}))).
      { rewrite <- Hrun. exact Hloop. }
      injection Heq as -> ->. destruct r' as [[]|e]; cbn; rewrite <- ?app_assoc.
      * eexists more, _, w', _.
        split; [reflexivity | split; [listing_events | right; reflexivity]].
      * eexists more, rlbl, w', _.
        split; [reflexivity | split; [listing_events | left; reflexivity]].
    + rewrite <- ?app_assoc. eexists [], rlbl, w', _.
      split; [reflexivity | split; [listing_events | left; reflexivity]].
  - rewrite <- ?app_assoc. eexists [], rlbl, w, _.
    split; [reflexivity | split; [listing_events | left; reflexivity]].
Qed.

(** X3: whatever the server does, a refresh returns normally, shows the
    parent marker first, leaves the label as it was or sets it to the
    listed path, changes no other field, and what it shows does not
    depend on what was shown before. *)
Theorem list_remote_files_always tab env :
  (exists more lbl env',
     ConnectionTab.list_remote_files (tab, env)
     = (Ok tt,
        (ConnectionTab.set_remote_label lbl
           (ConnectionTab.set_remote_list (parent_item :: more) tab), env'))
     /\ (lbl = ConnectionTab.remote_label tab
         \/ lbl = lit "Remote: " ++ ConnectionTab.remote_path tab))
  /\ (forall items,
       ConnectionTab.list_remote_files (ConnectionTab.set_remote_list items tab, env)
       = ConnectionTab.list_remote_files (tab, env)).
Proof.
  split.
  - destruct (list_remote_files_run tab env) as (more & lbl & w' & evs & Hrun & _ & Hlbl).
    eexists more, lbl, _. split; [exact Hrun | exact Hlbl].
  - intros items. destruct tab, env. reflexivity.
Qed.

(** The loop of [list_local_files]: it cannot fail. *)
Lemma local_loop names s items env :
  for_each names (fun n => fun '(s, env) =>
    let p := os_path_join (ConnectionTab.local_path s) n in
    let d1 := path_isdir (world env) p in
    let d2 := path_isdir (world env) p in
    modify (fun s =>
      ConnectionTab.set_local_list
        (ConnectionTab.local_list s ++ [entry_item n d1 d2]) s) (s, env))
    (ConnectionTab.set_local_list items s, env)
  = (Ok tt,
     (ConnectionTab.set_local_list
        (items ++ map (local_entry (world env) (ConnectionTab.local_path s)) names) s,
      env)).
Proof.
  revert items.
  destruct s as [cfg rp lp sf tr term rl rlbl ll llbl tin], env as [w lg].
  induction names as [|n names IH]; intros items.
  - cbn. rewrite app_nil_r. reflexivity.
  - cbn [map for_each]. unfold bind at 1. py_unfold.
    specialize (IH (items ++ [local_entry w lp n])).
    unfold local_entry in *. py_unfold. rewrite <- app_assoc in IH. exact IH.
Qed.

(** X4: the local listing shows the parent marker and then one item per
    name [os.listdir] returned, a slash added where the host says the
    joined path is a directory, and sets the label; when [os.listdir]
    raises, the error is printed, the view holds the parent marker alone
    and the label is not updated.  Nothing propagates either way. *)
Theorem list_local_files_spec tab env :
  let lp := ConnectionTab.local_path tab in
  let '(r, w') := answer (OsListdir lp) (world env) in
  match r with
  | Ok names =>
      ConnectionTab.list_local_files (tab, env)
      = (Ok tt,
         (ConnectionTab.set_local_label (lit "Local: " ++ lp)
            (ConnectionTab.set_local_list
               (parent_item :: map (local_entry w' lp) names) tab),
          {| world := w'; log := log env ++ [ERefreshLocal; ECall (OsListdir lp)] |}))
      /\ List.length (parent_item :: map (local_entry w' lp) names)
         = S (List.length names)
  | Raise e =>
      ConnectionTab.list_local_files (tab, env)
      = (Ok tt,
         (ConnectionTab.set_local_list [parent_item] tab,
          {| world := w';
             log := log env ++ [ERefreshLocal; ECall (OsListdir lp); EPrint e] |}))
  end.
Proof.
  cbn zeta. unfold ConnectionTab.list_local_files.
  destruct tab as [cfg rp lp sf tr term rl rlbl ll llbl tin], env as [w lg].
  py_unfold.
  destruct (answer (OsListdir lp) w) as [[names|e] w']; cbn.
  - split; [|rewrite length_map; reflexivity].
    match goal with
    | |- context [for_each names ?b (?s, ?e)] =>
        pose proof (local_loop names s [parent_item] e) as Hloop;
        destruct (for_each names b (s, e)) as [r st'] eqn:Hrun
    end.
    assert (Heq : (r, st') = (Ok tt, (ConnectionTab.set_local_list
               ([parent_item] ++ map (local_entry w' lp) names)
               {| ConnectionTab.cfg := cfg; ConnectionTab.remote_path := rp;
                  ConnectionTab.local_path := lp; ConnectionTab.sftp := sf;
                  ConnectionTab.transport := tr; ConnectionTab.ssh_terminal := term;
                  ConnectionTab.remote_list := rl;
                  ConnectionTab.remote_label := rlbl;
                  ConnectionTab.local_list := [parent_item];
                  ConnectionTab.local_label := llbl; ConnectionTab.term_in := tin |},
               {| world := w';
                  log := (lg ++ [ERefreshLocal]) ++ [ECall (OsListdir lp)] |}))).
    { rewrite <- Hrun. exact Hloop. }
    injection Heq as -> ->. cbn. rewrite <- app_assoc. reflexivity.
  - rewrite <- !app_assoc. reflexivity.
Qed.
(** A local refresh in full: normal return, the parent marker first, and
    one local refresh with the events of the directory read behind it. *)
Lemma list_local_files_run tab env :
  exists more lbl w' evs,
    ConnectionTab.list_local_files (tab, env)
    = (Ok tt,
       (ConnectionTab.set_local_label lbl
          (ConnectionTab.set_local_list (parent_item :: more) tab),
        {| world := w'; log := log env ++ ERefreshLocal :: evs |}))
    /\ refreshes evs = 0%nat /\ local_refreshes evs = 0%nat /\ connects evs = 0%nat.
Proof.
  unfold ConnectionTab.list_local_files.
  destruct tab as [cfg rp lp sf tr term rl rlbl ll llbl tin], env as [w lg].
  py_unfold.
  destruct (answer (OsListdir lp) w) as [[names|e] w']; cbn.
  - match goal with
    | |- context [for_each names ?b (?s, ?e)] =>
        pose proof (local_loop names s [parent_item] e) as Hloop;
        destruct (for_each names b (s, e)) as [r st'] eqn:Hrun
    end.
    assert (Heq : (r, st') = (Ok tt, (ConnectionTab.set_local_list
               ([parent_item] ++ map (local_entry w' lp) names)
               {| ConnectionTab.cfg := cfg; ConnectionTab.remote_path := rp;
                  ConnectionTab.local_path := lp; ConnectionTab.sftp := sf;
                  ConnectionTab.transport := tr; ConnectionTab.ssh_terminal := term;
                  ConnectionTab.remote_list := rl;
                  ConnectionTab.remote_label := rlbl;
                  ConnectionTab.local_list := [parent_item];
                  ConnectionTab.local_label := llbl; ConnectionTab.term_in := tin |},
               {| world := w';
                  log := (lg ++ [ERefreshLocal]) ++ [ECall (OsListdir lp)] |}))).
    { rewrite <- Hrun. exact Hloop. }
    injection Heq as -> ->. cbn. rewrite <- ?app_assoc.
    eexists _, _, w', _. split; [reflexivity|]. repeat split.
  - rewrite <- ?app_assoc. eexists [], llbl, w', _. split; [reflexivity|]. repeat split.
Qed.

Lemma local_refreshes_app l1 l2 :
  local_refreshes (l1 ++ l2) = (local_refreshes l1 + local_refreshes l2)%nat.
Proof. unfold local_refreshes. rewrite List.filter_app, length_app. reflexivity. Qed.

Lemma connects_app l1 l2 : connects (l1 ++ l2) = (connects l1 + connects l2)%nat.
Proof. unfold connects. rewrite List.filter_app, length_app. reflexivity. Qed.

Lemma listing_events_quiet p evs :
  Forall (listing_event p) evs -> local_refreshes evs = 0%nat /\ connects evs = 0%nat.
Proof.
  induction 1 as [|ev evs Hev _ IH]; [split; reflexivity|].
  unfold local_refreshes, connects in *. cbn.
  destruct Hev as [[c ->]|[e ->]]; exact IH.
Qed.
End ListingViews.

(** ** Lexical resolution on component lists *)

Section Components.
Implicit Types (c d n : str) (cs ds : list str).

Lemma join_cons c cs :
  cs <> [] -> PyStr.join posixpath.sep (c :: cs)
              = c ++ posixpath.sep ++ PyStr.join posixpath.sep cs.
Proof. destruct cs; [congruence | reflexivity]. Qed.

Lemma join_snoc cs n :
  cs <> [] -> PyStr.join posixpath.sep (cs ++ [n])
              = PyStr.join posixpath.sep cs ++ posixpath.sep ++ n.
Proof.
  induction cs as [|c cs IH]; [congruence|]. intros _.
  destruct cs as [|c' cs]; [reflexivity|].
  change ((c :: c' :: cs) ++ [n]) with (c :: ((c' :: cs) ++ [n])).
  rewrite join_cons by (intros Hnil; apply app_eq_nil in Hnil as [[=] _]).
  rewrite IH by discriminate.
  rewrite (join_cons c (c' :: cs)) by discriminate.
  rewrite <- !app_assoc. reflexivity.
Qed.

Lemma abs_path_snoc cs n :
  abs_path (cs ++ [n])
  = abs_path cs ++ (if bool_decide (cs = []) then [] else posixpath.sep) ++ n.
Proof.
  unfold abs_path. destruct cs as [|c cs].
  - reflexivity.
  - rewrite bool_decide_eq_false_2 by discriminate.
    rewrite join_snoc by discriminate. reflexivity.
Qed.

Lemma last_app_nonempty (a b : str) : b <> [] -> last (a ++ b) = last b.
Proof.
  intros Hb. destruct b as [|x b] using rev_ind; [congruence|].
  rewrite app_assoc, !last_snoc. reflexivity.
Qed.

Lemma name_last n : name n -> last n <> Some slash.
Proof.
  intros [Hne Hn]. destruct n as [|x n] using rev_ind; [congruence|].
  rewrite last_snoc. intros [= ->]. apply Hn, elem_of_app. right. left.
Qed.

Lemma name_head n : name n -> exists x r, n = x :: r /\ x <> slash.
Proof.
  intros [Hne Hn]. destruct n as [|x r]; [congruence|].
  exists x, r. split; [reflexivity|]. intros ->. apply Hn. left.
Qed.

(** A path with components does not end in a slash. *)
Lemma abs_path_last cs :
  cs <> [] -> Forall name cs -> last (abs_path cs) <> Some slash.
Proof.
  intros Hne Hall. destruct cs as [|n cs] using rev_ind; [congruence|]. clear IHcs.
  apply Forall_app in Hall as [_ Hn]. apply Forall_cons in Hn as [Hn _].
  rewrite abs_path_snoc, app_assoc, last_app_nonempty by apply Hn.
  apply name_last, Hn.
Qed.

Lemma endswith_sep (a : str) :
  PyStr.endswith a posixpath.sep = true <-> last a = Some slash.
Proof.
  unfold PyStr.endswith, posixpath.sep. cbn [rev app].
  destruct a as [|x a] using rev_ind.
  - cbn. split; discriminate.
  - rewrite rev_app_distr, last_snoc. cbn.
    destruct (rev a); rewrite ?andb_true_r, bool_decide_eq_true; split; congruence.
Qed.

(** Joining a name onto a path of names adds it as the last component. *)
Lemma join_abs_path cs n :
  Forall name cs -> name n ->
  posixpath.join (abs_path cs) n = abs_path (cs ++ [n]).
Proof.
  intros Hcs Hn. unfold posixpath.join.
  destruct (name_head n Hn) as (x & r & -> & Hx).
  assert (Hstart : PyStr.startswith (x :: r) posixpath.sep = false).
  { destruct (PyStr.startswith (x :: r) posixpath.sep) eqn:Hs; [|reflexivity].
    apply startswith_sep in Hs as [r' [= -> _]]. congruence. }
  rewrite Hstart, abs_path_snoc.
  rewrite (bool_decide_eq_false_2 (abs_path cs = [])) by discriminate.
  cbn [orb]. destruct cs as [|c cs].
  - reflexivity.
  - rewrite (bool_decide_eq_false_2 (c :: cs = [])) by discriminate.
    destruct (PyStr.endswith (abs_path (c :: cs)) posixpath.sep) eqn:He; [|reflexivity].
    apply endswith_sep in He. exfalso.
    eapply abs_path_last; [|exact Hcs|exact He]. discriminate.
Qed.

Lemma split_name n : slash ∉ n -> PyStr.split n slash = [n].
Proof.
  induction n as [|x n IH]; intros Hn; [reflexivity|].
  cbn [PyStr.split]. rewrite bool_decide_eq_false_2.
  - rewrite IH; [reflexivity|]. intros Hin. apply Hn. right. exact Hin.
  - intros ->. apply Hn. left.
Qed.

Lemma split_name_sep n (s : str) :
  slash ∉ n -> PyStr.split (n ++ slash :: s) slash = n :: PyStr.split s slash.
Proof.
  induction n as [|x n IH]; intros Hn.
  - cbn [app PyStr.split]. rewrite bool_decide_eq_true_2; reflexivity.
  - cbn [app PyStr.split]. rewrite bool_decide_eq_false_2.
    + rewrite IH; [reflexivity|]. intros Hin. apply Hn. right. exact Hin.
    + intros ->. apply Hn. left.
Qed.

(** Splitting the joined components gives them back. *)
Lemma split_join cs :
  cs <> [] -> Forall name cs ->
  PyStr.split (PyStr.join posixpath.sep cs) slash = cs.
Proof.
  induction cs as [|c cs IH]; [congruence|]. intros _ Hall.
  apply Forall_cons in Hall as [[_ Hc] Hcs].
  destruct cs as [|c' cs].
  - apply split_name, Hc.
  - cbn [PyStr.join]. unfold posixpath.sep at 1. cbn [app].
    rewrite split_name_sep by exact Hc. f_equal.
    apply IH; [discriminate | exact Hcs].
Qed.

(** [normpath_step] under one leading slash, on a stack of components,
    is [walk]. *)
Lemma normpath_step_walk cs d :
  Forall component cs -> name d ->
  posixpath.normpath_step 1 cs d = walk cs d /\ Forall component (walk cs d).
Proof.
  intros Hcs [Hne Hd]. unfold posixpath.normpath_step, walk.
  rewrite (bool_decide_eq_false_2 (d = [])) by exact Hne. cbn [orb].
  destruct (bool_decide (d = lit ".")) eqn:Hdot; [split; [reflexivity | exact Hcs]|].
  apply bool_decide_eq_false in Hdot.
  destruct (bool_decide (d = lit "..")) eqn:Hdd; cbn [negb orb].
  - rewrite (bool_decide_eq_false_2 (1%nat = 0%nat)) by discriminate. cbn [andb orb].
    assert (Hlast : bool_decide (last cs = Some (lit "..")) = false).
    { apply bool_decide_eq_false_2. intros Hl.
      destruct cs as [|c cs] using rev_ind; [discriminate|].
      rewrite last_snoc in Hl.
      apply Forall_app in Hcs as [_ Hc]. apply Forall_cons in Hc as [[_ [_ Hc]] _].
      apply Hc. congruence. }
    rewrite Hlast, andb_false_r.
    split.
    + destruct cs; reflexivity.
    + destruct cs as [|c cs] using rev_ind; [exact Hcs|].
      rewrite removelast_last. apply Forall_app in Hcs as [Hcs _]. exact Hcs.
  - apply bool_decide_eq_false in Hdd. split; [reflexivity|].
    apply Forall_app. split; [exact Hcs|].
    apply Forall_cons. split; [|apply Forall_nil_2].
    repeat split; assumption.
Qed.

Lemma normpath_fold_walk ds cs :
  Forall component cs -> Forall name ds ->
  fold_left (posixpath.normpath_step 1) ds cs = fold_left walk ds cs
  /\ Forall component (fold_left walk ds cs).
Proof.
  revert cs. induction ds as [|d ds IH]; intros cs Hcs Hds; cbn [fold_left].
  - split; [reflexivity | exact Hcs].
  - apply Forall_cons in Hds as [Hd Hds].
    destruct (normpath_step_walk cs d Hcs Hd) as [-> Hwalk].
    apply IH; assumption.
Qed.

Lemma component_names cs : Forall component cs -> Forall name cs.
Proof. induction 1 as [|c cs [Hc _] _ IH]; constructor; assumption. Qed.

Lemma startswith_cons (x y : ascii) (s q : str) :
  PyStr.startswith (x :: s) (y :: q) = bool_decide (x = y) && PyStr.startswith s q.
Proof. reflexivity. Qed.

(** [normpath] of an absolute path given by its names walks them from
    the root. *)
Lemma normpath_abs_path ds :
  Forall name ds ->
  posixpath.normpath (abs_path ds) = abs_path (fold_left walk ds []).
Proof.
  intros Hds. unfold posixpath.normpath.
  rewrite (bool_decide_eq_false_2 (abs_path ds = [])) by discriminate.
  assert (Hone : PyStr.startswith (abs_path ds) posixpath.sep = true)
    by (apply startswith_sep; unfold abs_path; eauto).
  assert (Htwo : PyStr.startswith (abs_path ds) (posixpath.sep ++ posixpath.sep) = false).
  { destruct (PyStr.startswith (abs_path ds) (posixpath.sep ++ posixpath.sep)) eqn:Hs;
      [exfalso | reflexivity].
    unfold abs_path, posixpath.sep in Hs. cbn [app] in Hs.
    rewrite startswith_cons in Hs. apply andb_true_iff in Hs as [_ Hs].
    destruct ds as [|d ds]; [discriminate Hs|].
    apply Forall_cons in Hds as [Hd _].
    destruct (name_head d Hd) as (x & r & -> & Hx).
    destruct ds as [|d2 ds]; cbn [PyStr.join app] in Hs;
      rewrite startswith_cons in Hs;
      apply andb_true_iff in Hs as [Hs _]; apply bool_decide_eq_true in Hs;
      congruence. }
  rewrite Hone, Htwo. cbn [andb].
  assert (Hsplit : fold_left (posixpath.normpath_step 1)
                     (PyStr.split (abs_path ds) slash) []
                   = fold_left walk ds []).
  { unfold abs_path. cbn [PyStr.split].
    rewrite bool_decide_eq_true_2 by reflexivity.
    destruct ds as [|d ds].
    - reflexivity.
    - rewrite split_join by (discriminate || exact Hds).
      cbn [fold_left]. change (posixpath.normpath_step 1 [] []) with (@nil str).
      apply (normpath_fold_walk (d :: ds) []); [apply Forall_nil_2 | exact Hds]. }
  rewrite Hsplit. reflexivity.
Qed.
End Components.

Section ComponentPaths.
Implicit Types (c d n : str) (cs ds : list str).

Lemma join_app cs ds :
  cs <> [] -> ds <> [] ->
  PyStr.join posixpath.sep (cs ++ ds)
  = PyStr.join posixpath.sep cs ++ posixpath.sep ++ PyStr.join posixpath.sep ds.
Proof.
  intros Hcs Hds. induction cs as [|c cs IH]; [congruence|].
  destruct cs as [|c' cs].
  - cbn [app]. apply join_cons, Hds.
  - change ((c :: c' :: cs) ++ ds) with (c :: ((c' :: cs) ++ ds)).
    rewrite join_cons by (intros Hnil; apply app_eq_nil in Hnil as [[=] _]).
    rewrite IH by discriminate.
    rewrite (join_cons c (c' :: cs)) by discriminate.
    rewrite <- !app_assoc. reflexivity.
Qed.

Lemma join_names_head ds :
  ds <> [] -> Forall name ds ->
  exists x r, PyStr.join posixpath.sep ds = x :: r /\ x <> slash.
Proof.
  intros Hne Hds. destruct ds as [|d ds]; [congruence|].
  apply Forall_cons in Hds as [Hd _].
  destruct (name_head d Hd) as (x & r & -> & Hx).
  destruct ds; cbn [PyStr.join app]; eauto.
Qed.

(** Joining a relative path, given by its names, onto an absolute one
    appends the names. *)
Lemma join_abs_path_names cs ds :
  Forall name cs -> ds <> [] -> Forall name ds ->
  posixpath.join (abs_path cs) (PyStr.join posixpath.sep ds) = abs_path (cs ++ ds).
Proof.
  intros Hcs Hne Hds. unfold posixpath.join.
  destruct (join_names_head ds Hne Hds) as (x & r & Hj & Hx).
  assert (Hstart : PyStr.startswith (PyStr.join posixpath.sep ds) posixpath.sep = false).
  { destruct (PyStr.startswith _ posixpath.sep) eqn:Hs; [|reflexivity].
    apply startswith_sep in Hs as [r' Hs]. rewrite Hj in Hs. congruence. }
  rewrite Hstart.
  rewrite (bool_decide_eq_false_2 (abs_path cs = [])) by discriminate.
  cbn [orb]. destruct cs as [|c cs].
  - reflexivity.
  - destruct (PyStr.endswith (abs_path (c :: cs)) posixpath.sep) eqn:He.
    + apply endswith_sep in He. exfalso.
      eapply abs_path_last; [|exact Hcs|exact He]. discriminate.
    + unfold abs_path. rewrite join_app by (discriminate || exact Hne). reflexivity.
Qed.

Lemma walk_components cs acc :
  Forall component cs -> fold_left walk cs acc = acc ++ cs.
Proof.
  revert acc. induction cs as [|c cs IH]; intros acc Hcs; cbn [fold_left].
  - rewrite app_nil_r. reflexivity.
  - apply Forall_cons in Hcs as [(_ & Hdot & Hdd) Hcs].
    unfold walk at 2. rewrite !bool_decide_eq_false_2 by assumption.
    rewrite IH by exact Hcs. rewrite <- app_assoc. reflexivity.
Qed.

(** Resolving names against a normalised absolute path walks them from
    its components. *)
Lemma resolve_walks cs ds :
  Forall component cs -> ds <> [] -> Forall name ds ->
  posixpath.normpath (posixpath.join (abs_path cs) (PyStr.join posixpath.sep ds))
  = abs_path (fold_left walk ds cs)
  /\ Forall component (fold_left walk ds cs).
Proof.
  intros Hcs Hne Hds.
  pose proof (component_names cs Hcs) as Hnames.
  rewrite join_abs_path_names by assumption.
  rewrite normpath_abs_path by (apply Forall_app; split; assumption).
  rewrite fold_left_app, (walk_components cs []) by exact Hcs. cbn [app].
  split; [reflexivity|].
  apply (normpath_fold_walk ds cs); assumption.
Qed.

Lemma rstrip_keeps (s : str) :
  last s <> Some slash -> PyStr.rstrip_chars (lit "/") s = s.
Proof.
  destruct s as [|x s] using rev_ind; [reflexivity|]. intros Hlast.
  rewrite last_snoc in Hlast. apply rstrip_snoc_out.
  rewrite mem_slash. apply bool_decide_eq_false_2. congruence.
Qed.

(** The parent of a path of names drops its last name. *)
Lemma parent_of_abs_path cs :
  Forall name cs -> ConnectionTab.parent_of (abs_path cs) = abs_path (removelast cs).
Proof.
  intros Hcs. destruct cs as [|n cs] using rev_ind; [reflexivity|]. clear IHcs.
  rewrite removelast_last.
  apply Forall_app in Hcs as [Hcs Hn]. apply Forall_cons in Hn as [[Hne Hn] _].
  rewrite abs_path_snoc. destruct cs as [|c cs].
  - rewrite bool_decide_eq_true_2 by reflexivity.
    pose proof (parent_of_last_component [] n 0 Hne Hn) as Hp.
    cbn [repeat app] in Hp. rewrite app_nil_r in Hp. exact Hp.
  - rewrite bool_decide_eq_false_2 by discriminate.
    pose proof (parent_of_last_component (abs_path (c :: cs)) n 0 Hne Hn) as Hp.
    cbn [repeat] in Hp. rewrite app_nil_r in Hp. unfold posixpath.sep.
    rewrite Hp.
    assert (Hlast : last (abs_path (c :: cs)) <> Some slash)
      by (apply abs_path_last; [discriminate | exact Hcs]).
    destruct (all_slashes (abs_path (c :: cs))) eqn:Hall.
    + exfalso. apply Hlast.
      apply all_slashes_repeat in Hall. rewrite Hall.
      assert (Hlen : exists k, List.length (abs_path (c :: cs)) = S k)
        by (unfold abs_path; cbn [List.length]; eauto).
      destruct Hlen as [k ->]. cbn [repeat].
      rewrite repeat_cons, last_snoc. reflexivity.
    + apply rstrip_keeps, Hlast.
Qed.
End ComponentPaths.

(** ** Moving the cursor *)

Section Cursor.
Context {W : Type} `{Collab W}.
Implicit Types (tab : ConnectionTab.t) (env : Env W).

(** The cursor after [send_term], whatever becomes of the send. *)
Lemma send_term_cursor tab env :
  ConnectionTab.remote_path (ConnectionTab.send_term (tab, env)).2.1
  = let t := PyStr.strip (ConnectionTab.term_in tab) in
    if PyStr.startswith t (lit "cd ") then
      posixpath.normpath
        (posixpath.join (ConnectionTab.remote_path tab)
           (PyStr.strip (PyStr.slice_from t 3)))
    else ConnectionTab.remote_path tab.
Proof.
  cbn zeta. unfold ConnectionTab.send_term, ConnectionTab.on_terminal, SSHTerminal.send.
  destruct tab as [cfg rp lp sf tr term rl rlbl ll llbl tin], env as [w lg].
  py_unfold.
  destruct (bool_decide (PyStr.strip tin = [])) eqn:Hnil; cbn.
  - apply bool_decide_eq_true in Hnil. rewrite Hnil. reflexivity.
  - destruct (PyStr.startswith (PyStr.strip tin) _); cbn.
    + run_listing items lbl w' evs Hevs.
      destruct term as [[tr' [ch|] rn]|]; cbn; try reflexivity.
      match goal with
      | |- context [answer ?c ?w0] => destruct (answer c w0) as [[[]|e] w2]; reflexivity
      end.
    + destruct term as [[tr' [ch|] rn]|]; cbn; try reflexivity.
      match goal with
      | |- context [answer ?c ?w0] => destruct (answer c w0) as [[[]|e] w2]; reflexivity
      end.
Qed.


(** X5: on a normalised absolute cursor, [cd] with a relative argument
    walks the argument's names from the cursor's components: a single
    dot stays, a double dot drops the last component and stays at the
    root, another name descends.  The new cursor is normalised again.  It
    is set whether or not the text can then be sent. *)
Theorem cd_walks_components tab env cs ds rest :
  ConnectionTab.remote_path tab = abs_path cs ->
  Forall component cs ->
  PyStr.strip (ConnectionTab.term_in tab) = lit "cd " ++ rest ->
  PyStr.strip rest = PyStr.join posixpath.sep ds ->
  ds <> [] -> Forall name ds ->
  ConnectionTab.remote_path (ConnectionTab.send_term (tab, env)).2.1
  = abs_path (fold_left walk ds cs)
  /\ Forall component (fold_left walk ds cs).
Proof.
  intros Hpath Hcs Hstrip Hrest Hne Hds.
  rewrite send_term_cursor. cbn zeta. rewrite Hstrip.
  change (PyStr.startswith (lit "cd " ++ rest) (lit "cd ")) with (PyStr.startswith rest []).
  rewrite startswith_nil.
  change (PyStr.slice_from (lit "cd " ++ rest) 3) with rest.
  rewrite Hrest, Hpath. apply resolve_walks; assumption.
Qed.

(** X6: on a normalised absolute cursor the two ways up agree: the
    command [cd ..] and a double click on the parent marker both leave
    the cursor at the path without its last component, the root staying
    the root. *)
Theorem cd_up_is_parent_marker tab env env' cs it :
  ConnectionTab.remote_path tab = abs_path cs ->
  Forall component cs ->
  PyStr.strip (ConnectionTab.term_in tab) = lit "cd .." ->
  ConnectionTab.item_name it = lit ".." ->
  ConnectionTab.remote_path (ConnectionTab.send_term (tab, env)).2.1
  = abs_path (removelast cs)
  /\ ConnectionTab.remote_path (ConnectionTab.remote_double it (tab, env')).2.1
     = abs_path (removelast cs).
Proof.
  intros Hpath Hcs Hstrip Hname. split.
  - assert (Hdd : Forall name [lit ".."]).
    { apply Forall_cons_2; [|apply Forall_nil_2]. split; [discriminate|].
      intros Hin. apply elem_of_cons in Hin as [Hin|Hin]; [discriminate Hin|].
      apply elem_of_cons in Hin as [Hin|Hin]; [discriminate Hin|].
      apply elem_of_nil in Hin. exact Hin. }
    rewrite send_term_cursor. cbn zeta. rewrite Hstrip, Hpath.
    change (PyStr.startswith (lit "cd ..") (lit "cd ")) with true. cbn match.
    change (PyStr.strip (PyStr.slice_from (lit "cd ..") 3)) with (PyStr.strip (lit "..")).
    change (PyStr.strip (lit "..")) with (PyStr.join posixpath.sep [lit ".."]).
    destruct (resolve_walks cs [lit ".."] Hcs) as [Hafter _];
      [discriminate | exact Hdd |].
    exact Hafter.
  - rewrite remote_double_parent_run by exact Hname.
    destruct tab as [cfg rp lp sf tr term rl rlbl ll llbl tin], env' as [w lg].
    cbn in Hpath. subst rp.
    run_listing items lbl w' evs Hevs.
    apply parent_of_abs_path, component_names, Hcs.
Qed.
End Cursor.

(** ** Double clicks *)

Section DoubleClicks.
Context {W : Type} `{Collab W}.
Implicit Types (tab : ConnectionTab.t) (env : Env W).

(** [is_dir] when the stat answers with mode bits that [mode_t] holds. *)
Lemma is_dir_answered path tab env c a m w1 :
  ConnectionTab.sftp tab = Some c ->
  answer (SFTPStat c path) (world env) = (Ok a, w1) ->
  st_mode a = Some m ->
  py_stat.in_mode_t c_types m ->
  ConnectionTab.is_dir path (tab, env)
  = (Ok (py_stat.S_IFMT m =? py_stat.S_IFDIR),
     (tab, {| world := w1; log := log env ++ [ECall (SFTPStat c path)] |})).
Proof.
  intros Hc Ha Hm Hin. unfold ConnectionTab.is_dir, ConnectionTab.the_sftp.
  destruct tab as [cfg rp lp sf tr term rl rlbl ll llbl tin], env as [w lg].
  cbn in Hc, Ha. subst sf. py_unfold. rewrite Ha. cbn.
  rewrite Hm, (S_ISDIR_in_range _ _ Hin). reflexivity.
Qed.

(** X7: [is_dir] says yes exactly when there is a client, its [stat]
    answers, and the answer carries mode bits that the host's [mode_t]
    holds and that are those of a directory; in every other case (no
    client, a failing [stat], no mode bits, a mode out of range, another
    kind of file) it says no.  It never raises and leaves the tab as it
    is. *)
Theorem is_dir_true_iff path tab env :
  exists b env',
    ConnectionTab.is_dir path (tab, env) = (Ok b, (tab, env'))
    /\ (b = true <->
        exists c a m w1,
          ConnectionTab.sftp tab = Some c
          /\ answer (SFTPStat c path) (world env) = (Ok a, w1)
          /\ st_mode a = Some m
          /\ py_stat.in_mode_t c_types m
          /\ py_stat.S_IFMT m = py_stat.S_IFDIR).
Proof.
  unfold ConnectionTab.is_dir, ConnectionTab.the_sftp.
  destruct tab as [cfg rp lp [c|] tr term rl rlbl ll llbl tin], env as [w lg];
    py_unfold.
  - destruct (answer (SFTPStat c path) w) as [[a|e] w1] eqn:Ha; cbn.
    + destruct (py_stat.S_ISDIR c_types (st_mode a)) as [d|e] eqn:Hd; cbn.
      * eexists _, _. split; [reflexivity|].
        apply S_ISDIR_answers in Hd as (m & Hm & Hin & ->).
        rewrite Z.eqb_eq. split.
        -- intros Hdir. exists c, a, m, w1. auto.
        -- intros (c' & a' & m' & w' & [= <-] & Ha' & Hm' & _ & Hdir).
           rewrite Ha in Ha'. injection Ha' as <- <-.
           rewrite Hm in Hm'. injection Hm' as <-. exact Hdir.
      * eexists _, _. split; [reflexivity|]. split; [discriminate|].
        intros (c' & a' & m' & w' & [= <-] & Ha' & Hm' & Hin & _).
        rewrite Ha in Ha'. injection Ha' as <- <-.
        rewrite Hm', (S_ISDIR_in_range _ _ Hin) in Hd. discriminate Hd.
    + eexists _, _. split; [reflexivity|]. split; [discriminate|].
      intros (c' & a' & m' & w' & [= <-] & Ha' & _).
      rewrite Ha in Ha'. discriminate Ha'.
  - eexists _, _. split; [reflexivity|]. split; [discriminate|].
    intros (c' & a' & m' & w' & Hc & _). discriminate Hc.
Qed.

(** A double click on an entry the server says is a directory. *)
Lemma remote_double_enters it tab env c a m w1 :
  ConnectionTab.item_name it <> lit ".." ->
  ConnectionTab.sftp tab = Some c ->
  answer (SFTPStat c (posixpath.join (ConnectionTab.remote_path tab)
                        (ConnectionTab.item_name it))) (world env) = (Ok a, w1) ->
  st_mode a = Some m ->
  py_stat.in_mode_t c_types m ->
  py_stat.S_IFMT m = py_stat.S_IFDIR ->
  ConnectionTab.remote_double it (tab, env)
  = ConnectionTab.list_remote_files
      (ConnectionTab.set_remote_path
         (posixpath.join (ConnectionTab.remote_path tab) (ConnectionTab.item_name it)) tab,
       {| world := w1;
          log := log env ++ [ECall (SFTPStat c (posixpath.join
                                (ConnectionTab.remote_path tab)
                                (ConnectionTab.item_name it)))] |}).
Proof.
  intros Hname Hc Ha Hm Hin Hdir. unfold ConnectionTab.remote_double.
  rewrite bool_decide_eq_false_2 by exact Hname.
  unfold bind at 1. unfold get_self at 1.
  unfold bind at 1.
  rewrite (is_dir_answered _ tab env c a m w1 Hc Ha Hm Hin).
  apply Z.eqb_eq in Hdir. rewrite Hdir.
  destruct tab. reflexivity.
Qed.

(** X8: entering a directory and going back up returns to where one
    was.  From a cursor made of names, a double click on an entry that
    the server reports as a directory, with a mode that the host's
    [mode_t] holds, moves the cursor to that entry, and a double click on
    the parent marker then moves it back. *)
Theorem enter_then_up_returns it n tab env cs c a m w1 :
  data it = Some n ->
  component n ->
  ConnectionTab.remote_path tab = abs_path cs ->
  Forall name cs ->
  ConnectionTab.sftp tab = Some c ->
  answer (SFTPStat c (abs_path (cs ++ [n]))) (world env) = (Ok a, w1) ->
  st_mode a = Some m ->
  py_stat.in_mode_t c_types m ->
  py_stat.S_IFMT m = py_stat.S_IFDIR ->
  ConnectionTab.remote_path (ConnectionTab.remote_double it (tab, env)).2.1
  = abs_path (cs ++ [n])
  /\ ConnectionTab.remote_path
       (ConnectionTab.remote_double parent_item
          (ConnectionTab.remote_double it (tab, env)).2).2.1
     = abs_path cs.
Proof.
  intros Hdata [Hn [Hdot Hdd]] Hpath Hcs Hc Ha Hm Hin Hdir.
  assert (Hname : ConnectionTab.item_name it = n).
  { unfold ConnectionTab.item_name. rewrite Hdata.
    destruct n; [destruct Hn; congruence | reflexivity]. }
  assert (Hjoin : posixpath.join (ConnectionTab.remote_path tab)
                    (ConnectionTab.item_name it) = abs_path (cs ++ [n])).
  { rewrite Hname, Hpath. apply join_abs_path; assumption. }
  rewrite (remote_double_enters it tab env c a m w1);
    [| rewrite Hname; exact Hdd | exact Hc | rewrite Hjoin; exact Ha | exact Hm
     | exact Hin | exact Hdir].
  rewrite Hjoin.
  destruct tab as [cfg rp lp sf tr term rl rlbl ll llbl tin], env as [w lg].
  run_listing items lbl w' evs Hevs. split; [reflexivity|].
  rewrite remote_double_parent_run by reflexivity.
  run_listing items2 lbl2 w2 evs2 Hevs2.
  rewrite parent_of_abs_path.
  - rewrite removelast_last. reflexivity.
  - apply Forall_app. split; [exact Hcs|].
    apply Forall_cons_2; [exact Hn | apply Forall_nil_2].
Qed.
End DoubleClicks.

Section OpeningFiles.
Context {W : Type} `{Collab W}.
Implicit Types (tab : ConnectionTab.t) (env : Env W).

(** X9: a double click on an entry that is_dir does not take for a
    directory downloads and opens it: a temporary file named with the
    prefix [sftp_] and the suffix [_<name>] is made, its descriptor
    closed, the remote file fetched into it, and the host asked to open
    it, in this order.  The first step that fails ends the attempt with
    the "Remote opening error" box.  The tab is unchanged, no listing is
    requested and nothing propagates in any case. *)
Theorem remote_double_opens_file it tab env c w1 evs1 :
  ConnectionTab.item_name it <> lit ".." ->
  ConnectionTab.sftp tab = Some c ->
  let path := posixpath.join (ConnectionTab.remote_path tab) (ConnectionTab.item_name it) in
  ConnectionTab.is_dir path (tab, env)
    = (Ok false, (tab, {| world := w1; log := log env ++ evs1 |})) ->
  let box := ECritical (lit "Remote opening error") in
  let mk := Mkstemp (lit "sftp_") (lit "_" ++ ConnectionTab.item_name it) in
  let done w evs :=
    ConnectionTab.remote_double it (tab, env)
    = (Ok tt, (tab, {| world := w; log := log env ++ evs1 ++ evs |})) in
  let '(r2, w2) := answer mk w1 in
  match r2 with
  | Raise e => done w2 [ECall mk; box e]
  | Ok (fd, tmpfile) =>
      let '(r3, w3) := answer (OsClose fd) w2 in
      match r3 with
      | Raise e => done w3 [ECall mk; ECall (OsClose fd); box e]
      | Ok _ =>
          let '(r4, w4) := answer (SFTPGet c path tmpfile) w3 in
          match r4 with
          | Raise e =>
              done w4 [ECall mk; ECall (OsClose fd); ECall (SFTPGet c path tmpfile); box e]
          | Ok _ =>
              let '(r5, w5) := answer (OsStartfile tmpfile) w4 in
              match r5 with
              | Raise e =>
                  done w5 [ECall mk; ECall (OsClose fd); ECall (SFTPGet c path tmpfile);
                           ECall (OsStartfile tmpfile); box e]
              | Ok _ =>
                  done w5 [ECall mk; ECall (OsClose fd); ECall (SFTPGet c path tmpfile);
                           ECall (OsStartfile tmpfile)]
              end
          end
      end
  end.
Proof.
  intros Hname Hc path Hdir box mk done. subst path box mk done.
  unfold ConnectionTab.remote_double.
  rewrite bool_decide_eq_false_2 by exact Hname.
  destruct tab as [cfg rp lp sf tr term rl rlbl ll llbl tin], env as [w lg].
  cbn in Hc. subst sf. unfold ConnectionTab.the_sftp. py_unfold.
  rewrite Hdir. cbn.
  match goal with
  | |- context [answer (Mkstemp ?x ?y) w1] =>
      destruct (answer (Mkstemp x y) w1) as [[[fd tmpfile]|e] w2]; cbn
  end; [|rewrite <- !app_assoc; reflexivity].
  destruct (answer (OsClose fd) w2) as [[[]|e] w3]; cbn;
    [|rewrite <- !app_assoc; reflexivity].
  match goal with
  | |- context [answer (SFTPGet ?x ?y ?z) w3] =>
      destruct (answer (SFTPGet x y z) w3) as [[[]|e] w4]; cbn
  end; [|rewrite <- !app_assoc; reflexivity].
  destruct (answer (OsStartfile tmpfile) w4) as [[[]|e] w5]; cbn;
    rewrite <- !app_assoc; reflexivity.
Qed.

(** X10: whatever is clicked and whatever the collaborators do, a double
    click on the remote list returns normally, requests the listing at
    most once, and leaves the profile, the local side, the handles and
    the terminal line as they were. *)
Theorem remote_double_never_raises it tab env :
  exists tab' env' evs,
    ConnectionTab.remote_double it (tab, env) = (Ok tt, (tab', env'))
    /\ log env' = log env ++ evs
    /\ (refreshes evs <= 1)%nat
    /\ ConnectionTab.cfg tab' = ConnectionTab.cfg tab
    /\ ConnectionTab.local_path tab' = ConnectionTab.local_path tab
    /\ ConnectionTab.local_list tab' = ConnectionTab.local_list tab
    /\ ConnectionTab.sftp tab' = ConnectionTab.sftp tab
    /\ ConnectionTab.transport tab' = ConnectionTab.transport tab
    /\ ConnectionTab.ssh_terminal tab' = ConnectionTab.ssh_terminal tab
    /\ ConnectionTab.term_in tab' = ConnectionTab.term_in tab.
Proof.
  destruct (decide (ConnectionTab.item_name it = lit "..")) as [Hname|Hname].
  - rewrite remote_double_parent_run by exact Hname.
    destruct tab as [cfg rp lp sf tr term rl rlbl ll llbl tin], env as [w lg].
    run_listing items lbl w' evs Hevs.
    eexists _, _, (ERefreshRemote :: evs). split; [reflexivity|].
    cbn. repeat (split; [reflexivity|]).
    split; [|repeat split].
    change (ERefreshRemote :: evs) with ([ERefreshRemote] ++ evs).
    rewrite refreshes_app, Hevs. unfold refreshes. cbn. lia.
  - unfold ConnectionTab.remote_double.
    rewrite bool_decide_eq_false_2 by exact Hname.
    destruct tab as [cfg rp lp sf tr term rl rlbl ll llbl tin], env as [w lg].
    py_unfold. run_is_dir b w1 evs1 Hevs1. destruct b.
    + run_listing items lbl w' evs Hevs.
      eexists _, _, (evs1 ++ ERefreshRemote :: evs). split; [reflexivity|].
      cbn. rewrite <- app_assoc. split; [reflexivity|].
      split; [|repeat split].
      change (ERefreshRemote :: evs) with ([ERefreshRemote] ++ evs).
      rewrite !refreshes_app, Hevs, Hevs1. unfold refreshes. cbn. lia.
    + unfold ConnectionTab.the_sftp. py_unfold.
      assert (Hdone : forall w' more,
                refreshes more = 0%nat ->
                exists tab' env' evs,
                  (Ok tt,
                   ({| ConnectionTab.cfg := cfg; ConnectionTab.remote_path := rp;
                       ConnectionTab.local_path := lp; ConnectionTab.sftp := sf;
                       ConnectionTab.transport := tr; ConnectionTab.ssh_terminal := term;
                       ConnectionTab.remote_list := rl; ConnectionTab.remote_label := rlbl;
                       ConnectionTab.local_list := ll; ConnectionTab.local_label := llbl;
                       ConnectionTab.term_in := tin |},
                    {| world := w'; log := (lg ++ evs1) ++ more |}))
                  = (Ok tt, (tab', env'))
                  /\ log env' = lg ++ evs
                  /\ (refreshes evs <= 1)%nat
                  /\ ConnectionTab.cfg tab' = cfg
                  /\ ConnectionTab.local_path tab' = lp
                  /\ ConnectionTab.local_list tab' = ll
                  /\ ConnectionTab.sftp tab' = sf
                  /\ ConnectionTab.transport tab' = tr
                  /\ ConnectionTab.ssh_terminal tab' = term
                  /\ ConnectionTab.term_in tab' = tin).
      { intros w' more Hmore. eexists _, _, (evs1 ++ more).
        split; [reflexivity|]. cbn. rewrite <- app_assoc.
        split; [reflexivity|]. split; [|repeat split].
        rewrite refreshes_app, Hevs1, Hmore. lia. }
      match goal with
      | |- context [answer (Mkstemp ?x ?y) w1] =>
          destruct (answer (Mkstemp x y) w1) as [[[fd tmpfile]|e] w2]; cbn
      end; [|rewrite <- ?app_assoc; rewrite app_assoc; apply Hdone; reflexivity].
      destruct (answer (OsClose fd) w2) as [[[]|e] w3]; cbn;
        [|rewrite <- ?app_assoc; rewrite app_assoc; apply Hdone; reflexivity].
      destruct sf as [c|]; cbn;
        [|rewrite <- ?app_assoc; rewrite app_assoc; apply Hdone; reflexivity].
      match goal with
      | |- context [answer (SFTPGet ?x ?y ?z) w3] =>
          destruct (answer (SFTPGet x y z) w3) as [[[]|e] w4]; cbn
      end; [|rewrite <- ?app_assoc; rewrite app_assoc; apply Hdone; reflexivity].
      destruct (answer (OsStartfile tmpfile) w4) as [[[]|e] w5]; cbn;
        rewrite <- ?app_assoc; rewrite app_assoc; apply Hdone; reflexivity.
Qed.
End OpeningFiles.

(** ** The terminal line *)

Section TerminalLine.
Context {W : Type} `{Collab W}.
Implicit Types (tab : ConnectionTab.t) (env : Env W).



(** X11: a line of blanks, or an empty one, does nothing at all: nothing
    is sent, the cursor and the line stay, and nothing is raised even on
    a tab without a terminal.  Any other line on a tab without a terminal
    raises [AttributeError] and stays in the field.  If it was no [cd],
    nothing else has happened.  If it was a [cd], the cursor has moved
    before the raise (on a normalised absolute cursor, to the path the
    argument's names walk to) and the listing of the new cursor was
    requested. *)
Theorem send_term_edge_cases tab env :
  (PyStr.strip (ConnectionTab.term_in tab) = [] ->
   ConnectionTab.send_term (tab, env) = (Ok tt, (tab, env)))
  /\ (PyStr.strip (ConnectionTab.term_in tab) <> [] ->
      ConnectionTab.ssh_terminal tab = None ->
      exists msg tab' env' evs,
        ConnectionTab.send_term (tab, env) = (Raise (AttributeError msg), (tab', env'))
        /\ ConnectionTab.term_in tab' = ConnectionTab.term_in tab
        /\ log env' = log env ++ evs
        /\ refreshes evs
           = (if PyStr.startswith (PyStr.strip (ConnectionTab.term_in tab)) (lit "cd ")
              then 1 else 0)%nat
        /\ (PyStr.startswith (PyStr.strip (ConnectionTab.term_in tab)) (lit "cd ") = false ->
            tab' = tab /\ evs = [])
        /\ (forall rest,
              PyStr.strip (ConnectionTab.term_in tab) = lit "cd " ++ rest ->
              (exists evs',
                 evs = ERefreshRemote :: evs'
                 /\ Forall (listing_event (ConnectionTab.remote_path tab')) evs')
              /\ (forall cs ds,
                    ConnectionTab.remote_path tab = abs_path cs ->
                    Forall component cs ->
                    PyStr.strip rest = PyStr.join posixpath.sep ds ->
                    ds <> [] -> Forall name ds ->
                    ConnectionTab.remote_path tab' = abs_path (fold_left walk ds cs)))).
Proof.
  unfold ConnectionTab.send_term, ConnectionTab.on_terminal, SSHTerminal.send.
  destruct tab as [cfg rp lp sf tr term rl rlbl ll llbl tin], env as [w lg].
  py_unfold. split.
  - intros ->. reflexivity.
  - intros Hne ->. rewrite bool_decide_eq_false_2 by exact Hne. cbn.
    destruct (PyStr.startswith (PyStr.strip tin) _) eqn:Hcd; cbn.
    + run_listing items lbl w' evs Hevs.
      eexists _, _, _, (ERefreshRemote :: evs). repeat (split; [reflexivity|]).
      split; [|split; [discriminate|]].
      * change (ERefreshRemote :: evs) with ([ERefreshRemote] ++ evs).
        rewrite refreshes_app, Hevs. reflexivity.
      * intros rest Hrest. split; [exists evs; split; [reflexivity | exact Hall]|].
        intros cs ds -> Hcs Hds Hnil Hnames. rewrite Hrest.
        cbn [ConnectionTab.remote_path].
        change (PyStr.slice_from _ 3) with rest.
        rewrite Hds. apply resolve_walks; assumption.
    + eexists _, _, _, []. rewrite app_nil_r. repeat (split; [reflexivity|]).
      split; [intros _; split; reflexivity|].
      intros rest Hrest. rewrite Hrest in Hcd.
      assert (Hyes : PyStr.startswith (lit "cd " ++ rest) (lit "cd ") = true)
        by (change (PyStr.startswith rest [] = true); apply startswith_nil).
      exfalso. enough (Habs : true = false) by discriminate Habs.
      rewrite <- Hcd. symmetry. exact Hyes.
Qed.


End TerminalLine.

(** ** Connecting, again *)

Section Connecting.
Context {W : Type} `{Collab W}.
Implicit Types (tab : ConnectionTab.t) (env : Env W).

(** The shape of every run of [connect_all]. *)
Lemma connect_all_shape tab env :
  exists sf tr term w' evs,
    ConnectionTab.connect_all (tab, env)
    = (Ok tt,
       (ConnectionTab.set_ssh_terminal term
          (ConnectionTab.set_sftp sf (ConnectionTab.set_transport tr tab)),
        {| world := w'; log := log env ++ evs |}))
    /\ refreshes evs = 0%nat
    /\ local_refreshes evs = 0%nat
    /\ (connects evs <= 1)%nat.
Proof.
  unfold ConnectionTab.connect_all, ConnectionTab.on_terminal, SSHTerminal.open,
    SSHTerminal.__init__.
  destruct tab as [cfg rp lp sf t term rl rlbl ll llbl tin], env as [w lg].
  py_unfold.
  destruct sf as [c|], t as [t|]; cbn; split_answers;
    destruct (dict_getitem cfg _) as [server|e1]; cbn;
    try (destruct (py_int _) as [port|e2]; cbn;
         try (split_answers;
              try (destruct (dict_getitem cfg _) as [user|e3]; cbn;
                   try split_answers)));
    rewrite <- ?app_assoc; cbn;
    eexists _, _, _, _, _; (split; [reflexivity|]);
    unfold refreshes, local_refreshes, connects; cbn; repeat split; lia.
Qed.

(** X14: [connect_all] never raises, whatever the profile holds and
    whatever fails: every error ends in the "Connect Error" box or is
    swallowed.  It changes nothing but the three handles, requests no
    listing, and authenticates at most once: there is no retry. *)
Theorem connect_all_never_raises tab env :
  exists tab' env' evs,
    ConnectionTab.connect_all (tab, env) = (Ok tt, (tab', env'))
    /\ log env' = log env ++ evs
    /\ refreshes evs = 0%nat
    /\ (connects evs <= 1)%nat
    /\ ConnectionTab.cfg tab' = ConnectionTab.cfg tab
    /\ ConnectionTab.remote_path tab' = ConnectionTab.remote_path tab
    /\ ConnectionTab.local_path tab' = ConnectionTab.local_path tab
    /\ ConnectionTab.remote_list tab' = ConnectionTab.remote_list tab
    /\ ConnectionTab.local_list tab' = ConnectionTab.local_list tab
    /\ ConnectionTab.term_in tab' = ConnectionTab.term_in tab.
Proof.
  destruct (connect_all_shape tab env) as (sf & tr & term & w' & evs & Hrun & Hr & _ & Hc).
  rewrite Hrun. eexists _, _, evs. split; [reflexivity|].
  destruct tab. cbn. repeat split; assumption.
Qed.

(** X15: a first connection whose authentication is refused: the box
    shows the error, the tab keeps no handle at all (so the listing that
    follows finds no client), and the transport that was opened for the
    attempt is not closed. *)
Theorem connect_all_refused tab env server port tr w1 user e w2 :
  ConnectionTab.sftp tab = None ->
  ConnectionTab.transport tab = None ->
  dict_getitem (ConnectionTab.cfg tab) (lit "server") = Ok server ->
  py_int (dict_get (ConnectionTab.cfg tab) (lit "port") (PInt 22)) = Ok port ->
  answer (TransportNew server port) (world env) = (Ok tr, w1) ->
  dict_getitem (ConnectionTab.cfg tab) (lit "username") = Ok user ->
  answer (TransportConnect tr user
            (dict_get (ConnectionTab.cfg tab) (lit "password") PNone)) w1
    = (Raise e, w2) ->
  ConnectionTab.connect_all (tab, env)
  = (Ok tt,
     (tab,
      {| world := w2;
         log := log env
                ++ [ECall (TransportNew server port);
                    ECall (TransportConnect tr user
                             (dict_get (ConnectionTab.cfg tab) (lit "password") PNone));
                    ECritical (lit "Connect Error") e] |})).
Proof.
  intros Hsf Htr Hserver Hport Hnew Huser Hauth.
  unfold ConnectionTab.connect_all.
  destruct tab as [cfg rp lp sf t term rl rlbl ll llbl tin], env as [w lg].
  cbn in Hsf, Htr, Hserver, Hport, Hnew, Huser, Hauth. subst sf t.
  py_unfold. rewrite Hserver. cbn. rewrite Hport. cbn. rewrite Hnew. cbn.
  rewrite Huser. cbn. rewrite Hauth. cbn. rewrite <- !app_assoc. reflexivity.
Qed.

(** X16: a profile without a "server" or without a "username" cannot be
    connected: the [KeyError] is shown in the box, and in the first case
    no transport is even opened.  A missing "port" is no error: 22 is
    used. *)
Theorem connect_all_missing_keys tab env :
  ConnectionTab.sftp tab = None ->
  ConnectionTab.transport tab = None ->
  (ConnectionTab.cfg tab !! lit "server" = None ->
   ConnectionTab.connect_all (tab, env)
   = (Ok tt,
      (tab, {| world := world env;
               log := log env ++ [ECritical (lit "Connect Error")
                                    (KeyError (lit "server"))] |})))
  /\ (forall server tr w1,
        ConnectionTab.cfg tab !! lit "server" = Some server ->
        ConnectionTab.cfg tab !! lit "port" = None ->
        ConnectionTab.cfg tab !! lit "username" = None ->
        answer (TransportNew server 22) (world env) = (Ok tr, w1) ->
        ConnectionTab.connect_all (tab, env)
        = (Ok tt,
           (tab, {| world := w1;
                    log := log env ++ [ECall (TransportNew server 22);
                                       ECritical (lit "Connect Error")
                                         (KeyError (lit "username"))] |}))).
Proof.
  intros Hsf Htr.
  unfold ConnectionTab.connect_all, dict_getitem, dict_get, py_int.
  destruct tab as [cfg rp lp sf t term rl rlbl ll llbl tin], env as [w lg].
  cbn in Hsf, Htr. subst sf t. split.
  - intros Hserver. cbn in Hserver. py_unfold.
    change (cfg !! lit "server") with
      (cfg !! ["s"; "e"; "r"; "v"; "e"; "r"]%char) in Hserver.
    rewrite Hserver. reflexivity.
  - intros server tr w1 Hserver Hport Huser Hnew. cbn in Hserver, Hport, Huser, Hnew.
    py_unfold.
    change (cfg !! lit "server") with
      (cfg !! ["s"; "e"; "r"; "v"; "e"; "r"]%char) in Hserver.
    change (cfg !! lit "port") with (cfg !! ["p"; "o"; "r"; "t"]%char) in Hport.
    change (cfg !! lit "username") with
      (cfg !! ["u"; "s"; "e"; "r"; "n"; "a"; "m"; "e"]%char) in Huser.
    rewrite Hserver. cbn. rewrite Hport. cbn. rewrite Hnew. cbn.
    rewrite Huser. cbn. rewrite <- !app_assoc. reflexivity.
Qed.
End Connecting.

(** ** Closing tabs, again *)

Section Closing.
Context {W : Type} `{Collab W}.
Implicit Types (app : AppWindow.t) (env : Env W).

Lemma delete_out_of_range {A} (l : list A) i :
  l !! i = None -> delete i l = l.
Proof.
  revert i. induction l as [|x l IH]; intros [|i] Hi; cbn in *;
    try reflexivity; try discriminate.
  f_equal. apply IH, Hi.
Qed.

Lemma delete_in_range {A} (l : list A) i x :
  l !! i = Some x -> S (List.length (delete i l)) = List.length l.
Proof.
  revert i. induction l as [|y l IH]; intros [|i] Hi; cbn in *;
    try discriminate; try reflexivity.
  f_equal. apply IH, Hi.
Qed.

(** X17: [close_tab] never raises and requests no listing.  With an
    index that names no tab it does nothing; otherwise it removes that
    tab and no other (the rest keep their order), whatever the closes do.
    A console tab is removed without a collaborator being called.  The
    saved profiles are the same afterwards. *)
Theorem close_tab_always index app env :
  exists env' evs,
    AppWindow.close_tab index (app, env)
    = (Ok tt, (AppWindow.set_tabs (delete index (AppWindow.tabs app)) app, env'))
    /\ log env' = log env ++ evs
    /\ refreshes evs = 0%nat
    /\ match AppWindow.tabs app !! index with
       | None =>
           env' = env /\ delete index (AppWindow.tabs app) = AppWindow.tabs app
       | Some widget =>
           S (List.length (delete index (AppWindow.tabs app)))
           = List.length (AppWindow.tabs app)
           /\ (widget = WCmdConsole -> env' = env)
       end.
Proof.
  unfold AppWindow.close_tab, AppWindow.close_terminal_of, SSHTerminal.close.
  destruct app as [tabs cfgs], env as [w lg]. py_unfold.
  destruct (tabs !! index) as [widget|] eqn:Hw; cbn.
  - pose proof (delete_in_range tabs index widget Hw) as Hlen.
    destruct widget as [[cfg rp lp sf tr term rl rlbl ll llbl tin]|]; cbn.
    + destruct term as [[t0 [ch|] rn]|], sf as [c|], tr as [t|]; cbn;
        split_answers; rewrite ?delete_insert_same, <- ?app_assoc; cbn;
        first [ eexists _, _; split; [reflexivity|];
                split; [reflexivity|]; split; [reflexivity|];
                split; [exact Hlen | discriminate]
              | eexists _, []; split; [reflexivity|];
                split; [cbn; rewrite app_nil_r; reflexivity|]; split; [reflexivity|];
                split; [exact Hlen | discriminate] ].
    + eexists _, []. split; [reflexivity|]. cbn. rewrite app_nil_r.
      repeat split. exact Hlen.
  - rewrite (delete_out_of_range tabs index Hw).
    eexists _, []. split; [reflexivity|]. cbn. rewrite app_nil_r.
    repeat split.
Qed.
End Closing.

(** ** The shell channel *)

Section Shell.
Context {W : Type} `{Collab W}.
Implicit Types (term : SSHTerminal.t) (env : Env W).

(** X18: when the session opens but the pseudo-terminal is refused,
    [open] answers [False] and starts no reader, yet the channel stays
    set: a later [send] still writes to it.  [_running] is as before. *)
Theorem open_keeps_refused_channel term env ch w1 e w2 txt :
  answer (TransportOpenSession (SSHTerminal.transport term)) (world env) = (Ok ch, w1) ->
  answer (ChannelGetPty ch) w1 = (Raise e, w2) ->
  let term' := SSHTerminal.set_channel (Some ch) term in
  let env' :=
    {| world := w2;
       log := log env ++ [ECall (TransportOpenSession (SSHTerminal.transport term));
                          ECall (ChannelGetPty ch)] |} in
  SSHTerminal.open (term, env) = (Ok false, (term', env'))
  /\ SSHTerminal._running term' = SSHTerminal._running term
  /\ SSHTerminal.send txt (term', env')
     = ((answer (ChannelSend ch (txt ++ newline)) w2).1,
        (term',
         {| world := (answer (ChannelSend ch (txt ++ newline)) w2).2;
            log := log env' ++ [ECall (ChannelSend ch (txt ++ newline))] |})).
Proof.
  intros Hopen Hpty. cbn zeta.
  unfold SSHTerminal.open, SSHTerminal.send.
  destruct term as [tr ch0 rn], env as [w lg]. cbn in Hopen.
  py_unfold. rewrite Hopen. cbn. rewrite Hpty. cbn.
  rewrite <- app_assoc. split; [reflexivity|]. split; [reflexivity|].
  destruct (answer (ChannelSend ch (txt ++ newline)) w2) as [r w3]. reflexivity.
Qed.

(** X19: [close] never raises, with or without a channel and whatever
    the channel's close does; afterwards [_running] is false and the
    channel is the one that was there. *)
Theorem close_never_raises term env :
  exists env' evs,
    SSHTerminal.close (term, env)
    = (Ok tt, (SSHTerminal.set_running false term, env'))
    /\ log env' = log env ++ evs
    /\ match SSHTerminal.channel term with
       | Some ch => evs = [ECall (ChannelClose ch)]
       | None => evs = []
       end.
Proof.
  unfold SSHTerminal.close.
  destruct term as [tr [ch|] rn], env as [w lg]; py_unfold.
  - destruct (answer (ChannelClose ch) w) as [[[]|e] w1]; cbn;
      eexists _, _; repeat split.
  - eexists _, []. cbn. rewrite app_nil_r. repeat split.
Qed.
End Shell.

(** ** Themes and profiles *)

Section Profiles.
Context {W : Type} `{Collab W}.

(** X20: a theme file holding an object is laid over the defaults: a
    field the file gives has the file's value, a field it does not give
    keeps its default, so the five default fields are always there; keys
    the dataclass does not know are kept too. *)
Theorem theme_load_merges {S : Type} (s : S) (env : Env W) d w' :
  path_exists (world env) THEME_FILE = true ->
  answer (JsonLoadFile THEME_FILE) (world env) = (Ok (PDict d), w') ->
  (ThemeManager.load (s, env)).1 = Ok (d ∪ Theme.default)
  /\ (forall k, (d ∪ Theme.default) !! k
                = match d !! k with Some v => Some v | None => Theme.default !! k end)
  /\ (forall k, is_Some (Theme.default !! k) -> is_Some ((d ∪ Theme.default) !! k)).
Proof.
  intros Hex Hload. split; [|split].
  - unfold ThemeManager.load. destruct env as [w lg]. cbn in Hex, Hload.
    py_unfold. rewrite Hex, Hload. reflexivity.
  - intros k. rewrite lookup_union. destruct (d !! k), (Theme.default !! k); reflexivity.
  - intros k [v Hv]. rewrite lookup_union.
    destruct (d !! k); rewrite Hv; eauto.
Qed.

(** X21: every profile the dialog produces has what [connect_all]
    reads: the trimmed server and user name, a port that [int] accepts
    (22 for a blank field), and the password as typed, which for an empty
    field is the empty string and not [None]; its remote path is never
    empty.  The dialog fails only on a port field that is not blank and
    that [int] rejects. *)
Theorem get_data_profile (dlg : ConfigDialog.t) :
  (forall cfg,
     ConfigDialog.get_data dlg = Ok cfg ->
     dict_getitem cfg (lit "server") = Ok (PStr (PyStr.strip (ConfigDialog.server dlg)))
     /\ dict_getitem cfg (lit "username")
        = Ok (PStr (PyStr.strip (ConfigDialog.username dlg)))
     /\ dict_get cfg (lit "password") PNone = PStr (ConfigDialog.password dlg)
     /\ (exists n, py_int (dict_get cfg (lit "port") (PInt 22)) = Ok n
                   /\ (PyStr.strip (ConfigDialog.port dlg) = [] -> n = 22))
     /\ (exists r, cfg !! lit "remote_path" = Some (PStr r) /\ r <> []))
  /\ (forall e,
        ConfigDialog.get_data dlg = Raise e <->
        PyStr.strip (ConfigDialog.port dlg) <> []
        /\ int_of_str (PyStr.strip (ConfigDialog.port dlg)) = Raise e).
Proof.
  unfold ConfigDialog.get_data, dict_getitem, dict_get, py_int. split.
  - intros cfg.
    destruct (match PyStr.strip (ConfigDialog.port dlg) with
              | [] => Ok 22 | _ => _ end) as [port|e] eqn:Hport; [|discriminate].
    intros [= <-].
    repeat first [rewrite lookup_insert_eq | rewrite lookup_insert_ne by discriminate].
    split; [reflexivity|]. split; [reflexivity|]. split; [reflexivity|]. split.
    + exists port. split; [reflexivity|].
      intros Hblank. rewrite Hblank in Hport. congruence.
    + eexists. split; [reflexivity|].
      unfold PyStr.or_else. destruct (PyStr.strip (ConfigDialog.remote_path dlg));
        discriminate.
  - intros e. destruct (PyStr.strip (ConfigDialog.port dlg)) as [|x p] eqn:Hp.
    + split; [discriminate | intros [Hne _]; congruence].
    + destruct (int_of_str (x :: p)) as [n|e'].
      * split; [discriminate | intros [_ He]; discriminate He].
      * split.
        -- intros [= ->]. split; [discriminate | reflexivity].
        -- intros [_ [= ->]]. reflexivity.
Qed.
End Profiles.

(** ** Actions on the parent marker *)

Section ParentMarker.
Context {W : Type} `{Collab W}.

(** X22: delete and upload act on the datum of the clicked item, and
    the parent marker has none: on it each of them raises a [TypeError]
    before any collaborator is called, so nothing is deleted, nothing is
    uploaded and no listing is requested. *)
Theorem parent_marker_actions_raise it (tab : ConnectionTab.t) (env : Env W) :
  data it = None ->
  exists msg,
    ConnectionTab.delete_remote it (tab, env) = (Raise (TypeError msg), (tab, env))
    /\ ConnectionTab.delete_local it (tab, env) = (Raise (TypeError msg), (tab, env))
    /\ ConnectionTab.upload_file it (tab, env) = (Raise (TypeError msg), (tab, env)).
Proof.
  intros Hdata.
  unfold ConnectionTab.delete_remote, ConnectionTab.delete_local,
    ConnectionTab.upload_file, join_datum.
  rewrite Hdata. destruct tab, env. eexists. repeat split.
Qed.
End ParentMarker.

(** ** The cleaning of terminal output *)

Section Cleaning.
Import SSHTerminal.
Implicit Types (s a b ps : str) (c l : ascii).

Lemma csi_end_suffix s rest :
  csi_end s = Some rest -> exists pre, s = pre ++ rest /\ pre <> [].
Proof.
  induction s as [|c s IH]; cbn; [discriminate|].
  destruct (is_param c).
  - intros Hs. destruct (IH Hs) as (pre & -> & _). exists (c :: pre). split; [reflexivity|discriminate].
  - destruct (is_letter c); [|discriminate]. intros [= ->].
    exists [c]. split; [reflexivity|discriminate].
Qed.

Lemma csi_match_suffix s rest :
  csi_match s = Some rest -> exists pre, s = pre ++ rest /\ pre <> [].
Proof.
  unfold csi_match. destruct s as [|e [|b s]]; try discriminate.
  destruct (_ && _); [|discriminate]. intros Hs.
  destruct (csi_end_suffix s rest Hs) as (pre & -> & _).
  exists (e :: b :: pre). split; [reflexivity|discriminate].
Qed.

Lemma csi_match_shorter s rest :
  csi_match s = Some rest -> (List.length rest < List.length s)%nat.
Proof.
  intros Hs. destruct (csi_match_suffix s rest Hs) as (pre & -> & Hpre).
  rewrite length_app. destruct pre; [congruence|]. cbn. lia.
Qed.

(** Steps beyond one per character change nothing. *)
Lemma sub_steps_enough n m s :
  (List.length s <= n)%nat -> (List.length s <= m)%nat ->
  sub_steps n s = sub_steps m s.
Proof.
  revert m s. induction n as [|n IH]; intros m s Hn Hm.
  - destruct s; [|cbn in Hn; lia]. destruct m; reflexivity.
  - destruct s as [|c s]; [destruct m; reflexivity|].
    destruct m as [|m]; [cbn in Hm; lia|].
    cbn [sub_steps]. destruct (csi_match (c :: s)) as [rest|] eqn:Hmatch.
    + apply csi_match_shorter in Hmatch. cbn in *. apply IH; lia.
    + f_equal. cbn in *. apply IH; lia.
Qed.

Lemma clean_nil : clean [] = [].
Proof. reflexivity. Qed.

Lemma clean_match s rest : csi_match s = Some rest -> clean s = clean rest.
Proof.
  intros Hs. pose proof (csi_match_shorter s rest Hs) as Hlen.
  unfold clean. destruct s as [|c s]; [discriminate|].
  cbn [List.length sub_steps]. rewrite Hs.
  apply sub_steps_enough; cbn in *; lia.
Qed.

Lemma clean_keep c s : csi_match (c :: s) = None -> clean (c :: s) = c :: clean s.
Proof.
  intros Hs. unfold clean. cbn [List.length sub_steps]. rewrite Hs. reflexivity.
Qed.

Lemma csi_match_escape c s rest : csi_match (c :: s) = Some rest -> c = ESC.
Proof.
  unfold csi_match. destruct s as [|b s]; [discriminate|].
  destruct (bool_decide (c = ESC)) eqn:Hc; [|discriminate].
  intros _. apply bool_decide_eq_true in Hc. exact Hc.
Qed.

Lemma clean_plain_prefix a b : ESC ∉ a -> clean (a ++ b) = a ++ clean b.
Proof.
  induction a as [|c a IH]; intros Ha; [reflexivity|].
  cbn [app]. rewrite clean_keep.
  - rewrite IH; [reflexivity|]. intros Hin. apply Ha. right. exact Hin.
  - destruct (csi_match (c :: a ++ b)) as [rest|] eqn:Hm; [|reflexivity].
    apply csi_match_escape in Hm. subst c. exfalso. apply Ha. left.
Qed.

Lemma letter_not_param l : is_letter l = true -> is_param l = false.
Proof.
  destruct l as [[] [] [] [] [] [] [] []]; vm_compute; congruence.
Qed.

Lemma csi_end_params ps s :
  Forall (fun c => is_param c = true) ps -> csi_end (ps ++ s) = csi_end s.
Proof.
  induction 1 as [|c ps Hc _ IH]; [reflexivity|].
  cbn [app csi_end]. rewrite Hc. exact IH.
Qed.

(** X23: text without the escape character passes unchanged; a control
    sequence (escape, bracket, parameters, one letter) is cut out, with
    the text before it kept and the text behind it cleaned in turn; a
    sequence whose parameters are followed by something that is no
    letter is not a match, and its escape and bracket stay in the
    text. *)
Theorem clean_removes_sequences a ps b :
  ESC ∉ a ->
  Forall (fun c => is_param c = true) ps ->
  clean a = a
  /\ (forall l, is_letter l = true ->
        clean (a ++ ESC :: "["%char :: ps ++ l :: b) = a ++ clean b)
  /\ (forall c, is_param c = false -> is_letter c = false ->
        clean (a ++ ESC :: "["%char :: ps ++ c :: b)
        = a ++ ESC :: "["%char :: clean (ps ++ c :: b)).
Proof.
  intros Ha Hps. split; [|split].
  - rewrite <- (app_nil_r a) at 1. rewrite clean_plain_prefix by exact Ha.
    rewrite clean_nil, app_nil_r. reflexivity.
  - intros l Hl. rewrite clean_plain_prefix by exact Ha. f_equal.
    apply clean_match. unfold csi_match.
    rewrite !bool_decide_eq_true_2 by reflexivity. cbn [andb].
    rewrite csi_end_params by exact Hps. cbn [csi_end].
    rewrite (letter_not_param l Hl), Hl. reflexivity.
  - intros c Hparam Hletter. rewrite clean_plain_prefix by exact Ha. f_equal.
    rewrite clean_keep.
    + f_equal. apply clean_keep. unfold csi_match.
      destruct (ps ++ c :: b) as [|x t]; [reflexivity|].
      rewrite (bool_decide_eq_false_2 ("["%char = ESC)) by discriminate. reflexivity.
    + unfold csi_match. rewrite !bool_decide_eq_true_2 by reflexivity. cbn [andb].
      rewrite csi_end_params by exact Hps. cbn [csi_end].
      rewrite Hparam, Hletter. reflexivity.
Qed.

(** X24: cleaning only drops characters: what is left is the input
    with some characters removed, in the same order, so it is never
    longer than the input. *)
Theorem clean_sublist s :
  clean s `sublist_of` s /\ (List.length (clean s) <= List.length s)%nat.
Proof.
  assert (Hsub : clean s `sublist_of` s).
  { remember (List.length s) as n eqn:Hn.
    revert s Hn. induction n as [n IH] using lt_wf_ind. intros s ->.
    destruct s as [|c s]; [reflexivity|].
    destruct (csi_match (c :: s)) as [rest|] eqn:Hm.
    - rewrite (clean_match _ _ Hm).
      pose proof (csi_match_shorter _ _ Hm) as Hlen.
      destruct (csi_match_suffix _ _ Hm) as (pre & Heq & _). rewrite Heq.
      apply sublist_inserts_l. eapply IH; [exact Hlen | reflexivity].
    - rewrite (clean_keep _ _ Hm). apply sublist_skip.
      eapply IH; [|reflexivity]. cbn. lia. }
  split; [exact Hsub | apply sublist_length, Hsub].
Qed.

Lemma param_not_escape c : is_param c = true -> c <> ESC.
Proof. intros Hc ->. vm_compute in Hc. discriminate. Qed.

Lemma csi_end_only_params ps :
  Forall (fun c => is_param c = true) ps -> csi_end ps = None.
Proof.
  induction 1 as [|c ps Hc _ IH]; [reflexivity|]. cbn [csi_end]. rewrite Hc. exact IH.
Qed.

(** X25: each chunk read from the channel is cleaned on its own, so a
    control sequence cut in two by the chunk boundary is removed from
    neither part: all of its characters reach the display, while the same
    text read as one chunk would lose them. *)
Theorem clean_split_sequence a ps l b :
  ESC ∉ a -> ESC ∉ b ->
  Forall (fun c => is_param c = true) ps ->
  is_letter l = true ->
  clean (a ++ ESC :: "["%char :: ps) ++ clean (l :: b)
  = a ++ ESC :: "["%char :: ps ++ l :: b
  /\ clean ((a ++ ESC :: "["%char :: ps) ++ l :: b) = a ++ b.
Proof.
  intros Ha Hb Hps Hl.
  assert (Hplain : forall t, ESC ∉ t -> clean t = t).
  { intros t Ht. rewrite <- (app_nil_r t) at 1. rewrite clean_plain_prefix by exact Ht.
    rewrite clean_nil, app_nil_r. reflexivity. }
  assert (Hparams : ESC ∉ ps).
  { intros Hin. rewrite Forall_forall in Hps. eapply param_not_escape; eauto. }
  assert (Hletter : l <> ESC) by (intros ->; vm_compute in Hl; discriminate).
  split.
  - rewrite clean_plain_prefix by exact Ha.
    rewrite clean_keep.
    + rewrite (Hplain ("["%char :: ps)).
      * rewrite (Hplain (l :: b)); [rewrite <- !app_assoc; reflexivity|].
        intros Hin. apply elem_of_cons in Hin as [Hin|Hin]; [congruence | auto].
      * intros Hin. apply elem_of_cons in Hin as [Hin|Hin]; [discriminate Hin | auto].
    + unfold csi_match. rewrite !bool_decide_eq_true_2 by reflexivity. cbn [andb].
      apply csi_end_only_params, Hps.
  - rewrite <- app_assoc. cbn [app].
    rewrite clean_plain_prefix by exact Ha. f_equal.
    rewrite (clean_match _ b); [apply Hplain, Hb|].
    unfold csi_match. rewrite !bool_decide_eq_true_2 by reflexivity. cbn [andb].
    rewrite csi_end_params by exact Hps. cbn [csi_end].
    rewrite (letter_not_param l Hl), Hl. reflexivity.
Qed.
End Cleaning.

(** ** Opening a tab *)

Section Startup.
Context {W : Type} `{Collab W}.
Variable home : str.
Implicit Types (tab : ConnectionTab.t) (env : Env W).

(** The three calls at the end of [__init__], from any tab. *)
Lemma startup_run tab env :
  exists tab' env' evs rmore lmore,
    (ConnectionTab.connect_all ;;
     ConnectionTab.list_remote_files ;;
     ConnectionTab.list_local_files) (tab, env)
    = (Ok tt, (tab', env'))
    /\ log env' = log env ++ evs
    /\ (connects evs <= 1)%nat
    /\ refreshes evs = 1%nat
    /\ local_refreshes evs = 1%nat
    /\ ConnectionTab.remote_list tab' = parent_item :: rmore
    /\ ConnectionTab.local_list tab' = parent_item :: lmore
    /\ ConnectionTab.remote_path tab' = ConnectionTab.remote_path tab
    /\ ConnectionTab.local_path tab' = ConnectionTab.local_path tab
    /\ ConnectionTab.cfg tab' = ConnectionTab.cfg tab.
Proof.
  destruct (connect_all_shape tab env) as (sf & tr & term & w1 & evs1 & Hc & Hr1 & Hl1 & Hc1).
  unfold bind. rewrite Hc.
  match goal with
  | |- context [ConnectionTab.list_remote_files (?t, ?e)] =>
      destruct (list_remote_files_run t e) as (rmore & rlbl & w2 & evs2 & Hl & Hev & _)
  end.
  rewrite Hl.
  match goal with
  | |- context [ConnectionTab.list_local_files (?t, ?e)] =>
      destruct (list_local_files_run t e)
        as (lmore & llbl & w3 & evs3 & Hll & Hr3 & Hl3 & Hc3)
  end.
  rewrite Hll.
  pose proof (listing_events_refreshes _ _ Hev) as Hr2.
  destruct (listing_events_quiet _ _ Hev) as [Hl2 Hc2].
  eexists _, _, (evs1 ++ ERefreshRemote :: evs2 ++ ERefreshLocal :: evs3), rmore, lmore.
  split; [reflexivity|].
  destruct tab. cbn -[refreshes local_refreshes connects].
  rewrite <- !app_assoc. cbn [app].
  split; [reflexivity|].
  rewrite connects_app, refreshes_app, local_refreshes_app.
  change (ERefreshRemote :: evs2 ++ ERefreshLocal :: evs3)
    with ([ERefreshRemote] ++ evs2 ++ [ERefreshLocal] ++ evs3).
  rewrite !connects_app, !refreshes_app, !local_refreshes_app.
  rewrite Hr1, Hr2, Hr3, Hl1, Hl2, Hl3, Hc2, Hc3.
  unfold connects, refreshes, local_refreshes in *. cbn.
  repeat split; lia.
Qed.

(** X26: a tab built from a profile whose two cursors are strings comes
    up whatever the server and the disk do: the constructor returns
    normally after at most one authentication, exactly one remote and
    one local refresh, with the parent marker first in both views; the
    remote cursor is the stored one, or the root when the profile has
    none, and the local cursor is the stored one, or the home directory
    when it is missing, [None] or empty. *)
Theorem init_comes_up cfg tab0 env :
  ConnectionTab.fields home cfg = Some tab0 ->
  exists tab' env' evs rmore lmore,
    ConnectionTab.__init__ home cfg env = Some (Ok tt, (tab', env'))
    /\ log env' = log env ++ evs
    /\ (connects evs <= 1)%nat
    /\ refreshes evs = 1%nat
    /\ local_refreshes evs = 1%nat
    /\ ConnectionTab.remote_list tab' = parent_item :: rmore
    /\ ConnectionTab.local_list tab' = parent_item :: lmore
    /\ ConnectionTab.cfg tab' = cfg
    /\ (cfg !! lit "remote_path" = None -> ConnectionTab.remote_path tab' = lit "/")
    /\ (forall r, cfg !! lit "remote_path" = Some (PStr r) ->
                  ConnectionTab.remote_path tab' = r)
    /\ (cfg !! lit "local_path" = None \/ cfg !! lit "local_path" = Some PNone
        \/ cfg !! lit "local_path" = Some (PStr []) ->
        ConnectionTab.local_path tab' = home)
    /\ (forall c l, cfg !! lit "local_path" = Some (PStr (c :: l)) ->
                    ConnectionTab.local_path tab' = c :: l).
Proof.
  intros Hf. unfold ConnectionTab.__init__. rewrite Hf.
  destruct (startup_run tab0 env)
    as (tab' & env' & evs & rmore & lmore & Hrun & Hlog & Hc & Hr & Hl & Hrl & Hll
        & Hrp & Hlp & Hcfg).
  exists tab', env', evs, rmore, lmore.
  rewrite Hrun, Hrp, Hlp, Hcfg.
  do 7 (split; [assumption || reflexivity|]).
  revert Hf. unfold ConnectionTab.fields, dict_get.
  destruct (cfg !! lit "remote_path") as [vr|] eqn:Hvr;
    destruct (cfg !! lit "local_path") as [vl|] eqn:Hvl; cbn.
  - destruct vr as [| | |r| |]; try discriminate.
    destruct (ConnectionTab.truthy vl) eqn:Ht.
    + destruct vl as [| | |l| |]; try discriminate. intros [= <-]. cbn.
      split; [reflexivity|]. repeat split.
      * intros Hn; discriminate Hn.
      * intros r' [= <-]. reflexivity.
      * intros [Hn|[Hn|Hn]]; try discriminate Hn.
        injection Hn as ->. discriminate Ht.
      * intros c l' [= ->]. reflexivity.
    + intros [= <-]. cbn. split; [reflexivity|]. repeat split.
      * intros Hn; discriminate Hn.
      * intros r' [= <-]. reflexivity.
      * intros c l' [= ->]. discriminate Ht.
  - destruct vr as [| | |r| |]; try discriminate.
    intros [= <-]. cbn. split; [reflexivity|]. repeat split.
    + intros Hn; discriminate Hn.
    + intros r' [= <-]. reflexivity.
    + intros c l' Hn; discriminate Hn.
  - destruct (ConnectionTab.truthy vl) eqn:Ht.
    + destruct vl as [| | |l| |]; try discriminate. intros [= <-]. cbn.
      split; [reflexivity|]. repeat split.
      * intros r' Hn; discriminate Hn.
      * intros [Hn|[Hn|Hn]]; try discriminate Hn.
        injection Hn as ->. discriminate Ht.
      * intros c l' [= ->]. reflexivity.
    + intros [= <-]. cbn. split; [reflexivity|]. repeat split.
      * intros r' Hn; discriminate Hn.
      * intros c l' [= ->]. discriminate Ht.
  - intros [= <-]. cbn. split; [reflexivity|]. repeat split.
    + intros r' Hn; discriminate Hn.
    + intros c l' Hn; discriminate Hn.
Qed.

(** What the dialog's profile holds under the three keys that opening a
    tab reads. *)
Lemma get_data_reads (dlg : ConfigDialog.t) data :
  ConfigDialog.get_data dlg = Ok data ->
  data !! lit "server" = Some (PStr (PyStr.strip (ConfigDialog.server dlg)))
  /\ data !! lit "local_path" = Some (PStr (PyStr.strip (ConfigDialog.local_path dlg)))
  /\ data !! lit "remote_path"
     = Some (PStr (PyStr.or_else (PyStr.strip (ConfigDialog.remote_path dlg)) (lit "/"))).
Proof.
  unfold ConfigDialog.get_data.
  destruct (match PyStr.strip (ConfigDialog.port dlg) with
            | [] => Ok 22 | _ => _ end) as [port|e]; [|discriminate].
  intros [= <-].
  repeat first [rewrite lookup_insert_eq | rewrite lookup_insert_ne by discriminate].
  repeat split.
  unfold PyStr.or_else. destruct (PyStr.strip (ConfigDialog.local_path dlg)); reflexivity.
Qed.

#[local] Arguments AppWindow.add_connection_tab : simpl never.

(** X27: opening a connection from the dialog.  A cancelled dialog
    changes nothing, and a port field that [int] rejects raises out of
    the handler with nothing changed.  Otherwise the profile is
    completed (a blank "Local Clone Folder" becomes the folder
    [Cloned_From_<server>] under the home directory), appended to the
    saved profiles and written to the configuration file, and a tab is
    built from it and appended; a failure to write is printed and does
    not keep the tab from opening.  The tab's remote cursor is the
    stripped "Remote Path" field, or the root for a blank one. *)
Theorem open_new_conn_dialog_opens (dlg : ConfigDialog.t) app env :
  AppWindow.open_new_conn_dialog home None (app, env) = Some (Ok tt, (app, env))
  /\ (forall e,
        ConfigDialog.get_data dlg = Raise e ->
        AppWindow.open_new_conn_dialog home (Some dlg) (app, env)
        = Some (Raise e, (app, env)))
  /\ (forall data,
        ConfigDialog.get_data dlg = Ok data ->
        let server := PyStr.strip (ConfigDialog.server dlg) in
        let typed := PyStr.strip (ConfigDialog.local_path dlg) in
        let folder :=
          match typed with
          | [] => os_path_join home (lit "Cloned_From_" ++ server)
          | _ => typed
          end in
        let cfg := <[lit "local_path" := PStr folder]> data in
        let saved := AppWindow.saved_configs app ++ [PDict cfg] in
        let dump := JsonDumpFile CONFIG_FILE (PList saved) in
        exists tab' env' evs,
          AppWindow.open_new_conn_dialog home (Some dlg) (app, env)
          = Some (Ok tt,
                  ({| AppWindow.tabs := AppWindow.tabs app ++ [WConnectionTab tab'];
                      AppWindow.saved_configs := saved |}, env'))
          /\ log env'
             = log env ++ ECall dump
                 :: match (answer dump (world env)).1 with
                    | Ok _ => []
                    | Raise e => [EPrintMsg (lit "save configs error:") e]
                    end ++ evs
          /\ (connects evs <= 1)%nat
          /\ refreshes evs = 1%nat
          /\ local_refreshes evs = 1%nat
          /\ ConnectionTab.cfg tab' = cfg
          /\ ConnectionTab.remote_path tab'
             = PyStr.or_else (PyStr.strip (ConfigDialog.remote_path dlg)) (lit "/")
          /\ ConnectionTab.local_path tab' = PyStr.or_else folder home).
Proof.
  split; [reflexivity|]. split.
  - intros e He. unfold AppWindow.open_new_conn_dialog. rewrite He. reflexivity.
  - intros data Hdata. cbn zeta.
    unfold AppWindow.open_new_conn_dialog. rewrite Hdata.
    destruct (get_data_reads dlg data Hdata) as (Hserver & Hlocal & Hremote).
    set (folder := match PyStr.strip (ConfigDialog.local_path dlg) with
                   | [] => os_path_join home _ | _ => _ end).
    assert (Hcfg : AppWindow.with_local_default home data
                   = Ok (<[lit "local_path" := PStr folder]> data)).
    { unfold AppWindow.with_local_default, dict_get. rewrite Hlocal, Hserver.
      subst folder. destruct (PyStr.strip (ConfigDialog.local_path dlg)) eqn:Htyped.
      - reflexivity.
      - cbn [ConnectionTab.truthy]. rewrite insert_id by exact Hlocal. reflexivity. }
    rewrite Hcfg. clearbody folder. clear Hcfg.
    set (cfg := <[lit "local_path" := PStr folder]> data).
    assert (Hfields : exists tab0,
              ConnectionTab.fields home cfg = Some tab0
              /\ ConnectionTab.cfg tab0 = cfg
              /\ ConnectionTab.remote_path tab0
                 = PyStr.or_else (PyStr.strip (ConfigDialog.remote_path dlg)) (lit "/")
              /\ ConnectionTab.local_path tab0 = PyStr.or_else folder home).
    { unfold ConnectionTab.fields, dict_get. subst cfg.
      rewrite lookup_insert_ne by discriminate. rewrite Hremote, lookup_insert_eq.
      destruct folder; cbn; eexists; (split; [reflexivity|]); repeat split. }
    destruct Hfields as (tab0 & Hf & Hc0 & Hr0 & Hl0). clearbody cfg.
    destruct app as [tabs saved], env as [w lg].
    unfold AppWindow.save_configs. py_unfold.
    destruct (answer (JsonDumpFile CONFIG_FILE (PList (saved ++ [PDict cfg]))) w)
      as [[u|e] w1]; cbn;
      unfold AppWindow.add_connection_tab, ConnectionTab.__init__; rewrite Hf;
      match goal with
      | |- context [ConnectionTab.list_local_files] =>
          match goal with
          | |- context [?run (tab0, ?e1)] =>
              destruct (startup_run tab0 e1)
                as (tab' & env' & evs & rmore & lmore & Hrun & Hlog & Hc & Hr & Hl
                    & _ & _ & Hrp & Hlp & Hcf)
          end
      end;
      rewrite Hrun; exists tab', env', evs;
      (split; [reflexivity|]);
      rewrite Hlog, Hrp, Hlp, Hcf; cbn; rewrite <- ?app_assoc; cbn;
      repeat split; assumption.
Qed.
End Startup.

(** ** Double click on the local side *)

Ltac absurd_name :=
  exfalso;
  match goal with
  | Hne : _ <> _, Heq : _ = _ |- _ => exact (Hne Heq)
  end.

Section LocalDouble.
Context {W : Type} `{Collab W}.
Variable os_path_dirname : str -> str.
Implicit Types (tab : ConnectionTab.t) (env : Env W).

(** X28: a double click on the local side never raises and never touches
    the remote side or the connection.  The parent marker moves the
    cursor to [dirname] of it, or leaves it where [dirname] is empty; a
    directory becomes the cursor; both refresh the local view once.  A
    file is handed to the host without any refresh, and a failure to
    open it ends in the "Opening failed" box with the tab as it was. *)
Theorem local_double_spec it tab env :
  let lp := ConnectionTab.local_path tab in
  let path := os_path_join lp (ConnectionTab.item_name it) in
  exists tab' env' evs,
    ConnectionTab.local_double os_path_dirname it (tab, env) = (Ok tt, (tab', env'))
    /\ log env' = log env ++ evs
    /\ refreshes evs = 0%nat /\ connects evs = 0%nat
    /\ ConnectionTab.remote_path tab' = ConnectionTab.remote_path tab
    /\ ConnectionTab.remote_list tab' = ConnectionTab.remote_list tab
    /\ ConnectionTab.sftp tab' = ConnectionTab.sftp tab
    /\ ConnectionTab.transport tab' = ConnectionTab.transport tab
    /\ (ConnectionTab.item_name it = lit ".." ->
        ConnectionTab.local_path tab' = PyStr.or_else (os_path_dirname lp) lp
        /\ local_refreshes evs = 1%nat)
    /\ (ConnectionTab.item_name it <> lit ".." -> path_isdir (world env) path = true ->
        ConnectionTab.local_path tab' = path /\ local_refreshes evs = 1%nat)
    /\ (ConnectionTab.item_name it <> lit ".." -> path_isdir (world env) path = false ->
        tab' = tab
        /\ (evs = [ECall (OsStartfile path)]
            \/ exists e, evs = [ECall (OsStartfile path);
                                ECritical (lit "Opening failed") e])).
Proof.
  cbn zeta. unfold ConnectionTab.local_double.
  destruct (bool_decide (ConnectionTab.item_name it = lit "..")) eqn:Hn.
  - apply bool_decide_eq_true in Hn.
    unfold bind at 1. unfold modify at 1.
    match goal with
    | |- context [ConnectionTab.list_local_files (?t, ?e)] =>
        destruct (list_local_files_run t e)
          as (more & lbl & w' & evs & Hrun & Hr & Hl & Hc)
    end.
    destruct tab, env. cbn [fst snd] in *. rewrite Hrun.
    eexists _, _, (ERefreshLocal :: evs). split; [reflexivity|].
    unfold refreshes, connects, local_refreshes in *. cbn.
    rewrite Hr, Hc, Hl.
    repeat split; try reflexivity; try congruence; try absurd_name.
  - apply bool_decide_eq_false in Hn.
    destruct tab as [cfg rp lp sf tr term rl rlbl ll llbl tin], env as [w lg].
    unfold bind at 1. unfold get_self at 1. cbn [ConnectionTab.local_path world].
    destruct (path_isdir w (os_path_join lp (ConnectionTab.item_name it))) eqn:Hd.
    + unfold bind at 1. unfold modify at 1.
      match goal with
      | |- context [ConnectionTab.list_local_files (?t, ?e)] =>
          destruct (list_local_files_run t e)
            as (more & lbl & w' & evs & Hrun & Hr & Hl & Hc)
      end.
      rewrite Hrun.
      eexists _, _, (ERefreshLocal :: evs). split; [reflexivity|].
      unfold refreshes, connects, local_refreshes in *. cbn.
      rewrite Hr, Hc, Hl.
      repeat split; try reflexivity; try congruence; try absurd_name.
    + py_unfold.
      destruct (answer (OsStartfile (os_path_join lp (ConnectionTab.item_name it))) w)
        as [[u|e] w']; cbn.
      * cbn in u. destruct u. eexists _, _, _. split; [reflexivity|]. cbn.
        repeat split; try reflexivity; try congruence; try absurd_name.
        left. reflexivity.
      * rewrite <- app_assoc. eexists _, _, _. split; [reflexivity|]. cbn.
        repeat split; try reflexivity; try congruence; try absurd_name.
        right. eexists. reflexivity.
Qed.
End LocalDouble.

(** ** Further worked examples on the scripted collaborator *)

(** Closed facts about concrete strings, by evaluation of the decision
    procedure. *)
Ltac decided :=
  lazymatch goal with
  | |- ?x <> ?y =>
      apply (@bool_decide_unpack _ (not_dec (list_eq_dec (A:=ascii) x y)));
      vm_compute; exact I
  | |- ?c ∉ ?l =>
      apply (@bool_decide_unpack _ (not_dec (list_elem_of_dec (A:=ascii) c l)));
      vm_compute; exact I
  | |- Forall ?P ?l =>
      apply (@bool_decide_unpack _ (Forall_dec (A:=ascii) P l));
      vm_compute; exact I
  end.

Ltac in_range := unfold py_stat.in_mode_t; cbn; lia.

Ltac components :=
  repeat first [apply Forall_cons_2 | apply Forall_nil_2];
  unfold component, name; repeat split; decided.

Section FurtherWorked.
Import Scripted SSHTerminal.


(** X1: the quiet server's two entries, behind the parent marker. *)
Lemma list_remote_files_complete_witness :
  ConnectionTab.sftp srv_tab = Some 2%nat
  /\ Forall (fun file => py_stat.in_mode_t c_types file.2)
       [(lit "a.txt", 33188); (lit "d", 16877)]
  /\ answer (SFTPListdirAttr 2%nat (lit "/srv")) quiet
     = (Ok (map reported [(lit "a.txt", 33188); (lit "d", 16877)]), quiet)
  /\ ConnectionTab.list_remote_files (tab_at "/srv" "/home/u" [], env0 quiet)
     = (Ok tt,
        (srv_tab,
         {| world := quiet;
            log := [ERefreshRemote; ECall (SFTPListdirAttr 2%nat (lit "/srv"))] |})).
Proof.
  assert (Hmodes : Forall (fun file => py_stat.in_mode_t c_types file.2)
                     [(lit "a.txt", 33188); (lit "d", 16877)])
    by (repeat constructor; in_range).
  split; [reflexivity | split; [exact Hmodes | split; [reflexivity |]]].
  exact (proj1 (list_remote_files_complete (tab_at "/srv" "/home/u" []) (env0 quiet)
                  2%nat [(lit "a.txt", 33188); (lit "d", 16877)] quiet
                  eq_refl Hmodes eq_refl)).
Defined.

(** X2: [b] comes without mode bits, or with a mode beyond what the
    host's [mode_t] holds: [a.txt] is shown, [d] is not. *)
Lemma list_remote_files_modeless_witness :
  ConnectionTab.sftp srv_tab = Some 2%nat
  /\ Forall (fun file => py_stat.in_mode_t c_types file.2) [(lit "a.txt", 33188)]
  /\ ~ py_stat.in_mode_t c_types 81920
  /\ (exists e,
        ConnectionTab.list_remote_files (srv_tab, env0 partial_listing)
        = (Ok tt,
           (ConnectionTab.set_remote_list
              [parent_item; entry_item (lit "a.txt") false false] srv_tab,
            {| world := partial_listing;
               log := [ERefreshRemote; ECall (SFTPListdirAttr 2%nat (lit "/srv"));
                       EPrint e] |}))
        /\ e = TypeError (lit "an integer is required"))
  /\ (exists e,
        ConnectionTab.list_remote_files (srv_tab, env0 wide_mode_listing)
        = (Ok tt,
           (ConnectionTab.set_remote_list
              [parent_item; entry_item (lit "a.txt") false false] srv_tab,
            {| world := wide_mode_listing;
               log := [ERefreshRemote; ECall (SFTPListdirAttr 2%nat (lit "/srv"));
                       EPrint e] |}))
        /\ exists msg, e = OverflowError msg).
Proof.
  assert (Hmodes : Forall (fun file => py_stat.in_mode_t c_types file.2)
                     [(lit "a.txt", 33188)])
    by (repeat constructor; in_range).
  assert (Hwide : ~ py_stat.in_mode_t c_types 81920) by in_range.
  split; [reflexivity | split; [exact Hmodes | split; [exact Hwide |]]].
  split.
  - exact (list_remote_files_modeless srv_tab (env0 partial_listing) 2%nat
             [(lit "a.txt", 33188)] (modeless (lit "b")) [directory "d"] partial_listing
             eq_refl Hmodes eq_refl (or_introl eq_refl)).
  - exact (list_remote_files_modeless srv_tab (env0 wide_mode_listing) 2%nat
             [(lit "a.txt", 33188)] {| filename := lit "b"; st_mode := Some 81920 |}
             [directory "d"] wide_mode_listing
             eq_refl Hmodes eq_refl
             (or_intror (ex_intro _ 81920 (conj eq_refl Hwide)))).
Defined.

(** X5: [cd ../x] typed at [/a/b] leads to [/a/x]. *)
Lemma cd_walks_components_witness :
  PyStr.strip (lit "cd ../x") = lit "cd " ++ lit "../x"
  /\ PyStr.strip (lit "../x") = PyStr.join posixpath.sep [lit ".."; lit "x"]
  /\ Forall component [lit "a"; lit "b"]
  /\ Forall name [lit ".."; lit "x"]
  /\ ConnectionTab.remote_path
       (ConnectionTab.send_term
          (typed "cd ../x" (tab_at "/a/b" "/home/u" shown), env0 quiet)).2.1
     = lit "/a/x".
Proof.
  assert (Hcs : Forall component [lit "a"; lit "b"]) by components.
  assert (Hds : Forall name [lit ".."; lit "x"]) by components.
  split; [reflexivity | split; [reflexivity | split; [exact Hcs | split; [exact Hds |]]]].
  exact (proj1 (cd_walks_components (typed "cd ../x" (tab_at "/a/b" "/home/u" shown))
                  (env0 quiet) [lit "a"; lit "b"] [lit ".."; lit "x"] (lit "../x")
                  eq_refl Hcs eq_refl eq_refl ltac:(discriminate) Hds)).
Defined.

(** X6: from [/a/b] both ways up lead to [/a]. *)
Lemma cd_up_is_parent_marker_witness :
  PyStr.strip (lit "cd ..") = lit "cd .."
  /\ ConnectionTab.item_name parent_item = lit ".."
  /\ ConnectionTab.remote_path
       (ConnectionTab.send_term
          (typed "cd .." (tab_at "/a/b" "/home/u" shown), env0 quiet)).2.1
     = lit "/a"
  /\ ConnectionTab.remote_path
       (ConnectionTab.remote_double parent_item
          (typed "cd .." (tab_at "/a/b" "/home/u" shown), env0 listing_fails)).2.1
     = lit "/a".
Proof.
  assert (Hcs : Forall component [lit "a"; lit "b"]) by components.
  split; [reflexivity | split; [reflexivity |]].
  exact (cd_up_is_parent_marker (typed "cd .." (tab_at "/a/b" "/home/u" shown))
           (env0 quiet) (env0 listing_fails) [lit "a"; lit "b"] parent_item
           eq_refl Hcs eq_refl eq_refl).
Defined.

(** X8: into [d] from [/srv] and back. *)
Lemma enter_then_up_returns_witness :
  data (entry_item (lit "d") true true) = Some (lit "d")
  /\ component (lit "d")
  /\ answer (SFTPStat 2%nat (lit "/srv/d")) quiet = (Ok (directory "d"), quiet)
  /\ py_stat.in_mode_t c_types 16877
  /\ py_stat.S_IFMT 16877 = py_stat.S_IFDIR
  /\ ConnectionTab.remote_path
       (ConnectionTab.remote_double (entry_item (lit "d") true true)
          (srv_tab, env0 quiet)).2.1
     = lit "/srv/d"
  /\ ConnectionTab.remote_path
       (ConnectionTab.remote_double parent_item
          (ConnectionTab.remote_double (entry_item (lit "d") true true)
             (srv_tab, env0 quiet)).2).2.1
     = lit "/srv".
Proof.
  assert (Hn : component (lit "d")).
  { unfold component, name. repeat split; decided. }
  assert (Hcs : Forall name [lit "srv"]) by components.
  assert (Hm : py_stat.in_mode_t c_types 16877) by in_range.
  split; [reflexivity | split; [exact Hn | split; [reflexivity |]]].
  split; [exact Hm | split; [reflexivity |]].
  exact (enter_then_up_returns (entry_item (lit "d") true true) (lit "d") srv_tab
           (env0 quiet) [lit "srv"] 2%nat (directory "d") 16877 quiet
           eq_refl Hn eq_refl Hcs eq_refl eq_refl eq_refl Hm eq_refl).
Defined.

(** X9: [a.txt] is fetched into a temporary file and opened. *)
Lemma remote_double_opens_file_witness :
  ConnectionTab.item_name (entry_item (lit "a.txt") false false) <> lit ".."
  /\ ConnectionTab.is_dir (lit "/srv/a.txt") (srv_tab, env0 quiet)
     = (Ok false,
        (srv_tab,
         {| world := quiet; log := [ECall (SFTPStat 2%nat (lit "/srv/a.txt"))] |}))
  /\ ConnectionTab.remote_double (entry_item (lit "a.txt") false false)
       (srv_tab, env0 quiet)
     = (Ok tt,
        (srv_tab,
         {| world := quiet;
            log := [ECall (SFTPStat 2%nat (lit "/srv/a.txt"));
                    ECall (Mkstemp (lit "sftp_") (lit "_a.txt"));
                    ECall (OsClose 5);
                    ECall (SFTPGet 2%nat (lit "/srv/a.txt") (lit "/tmp/sftp_0_a.txt"));
                    ECall (OsStartfile (lit "/tmp/sftp_0_a.txt"))] |})).
Proof.
  assert (Hn : ConnectionTab.item_name (entry_item (lit "a.txt") false false) <> lit "..")
    by decided.
  split; [exact Hn | split; [reflexivity |]].
  exact (remote_double_opens_file (entry_item (lit "a.txt") false false) srv_tab
           (env0 quiet) 2%nat quiet [ECall (SFTPStat 2%nat (lit "/srv/a.txt"))]
           Hn eq_refl eq_refl).
Defined.

(** X11: blanks do nothing; on a tab without a terminal [ls] raises
    with nothing else done, and [cd ../x] typed at [/a/b] raises after
    the cursor has moved to [/a/x] and the listing was requested. *)
Lemma send_term_edge_cases_witness :
  PyStr.strip (lit "  ") = []
  /\ ConnectionTab.send_term (typed "  " srv_tab, env0 quiet)
     = (Ok tt, (typed "  " srv_tab, env0 quiet))
  /\ ConnectionTab.ssh_terminal (typed "ls" (fresh_tab profile "/a/b" "/home/u")) = None
  /\ (exists msg,
        ConnectionTab.send_term (typed "ls" (fresh_tab profile "/a/b" "/home/u"), env0 quiet)
        = (Raise (AttributeError msg),
           (typed "ls" (fresh_tab profile "/a/b" "/home/u"), env0 quiet)))
  /\ PyStr.strip (lit "cd ../x") = lit "cd " ++ lit "../x"
  /\ (exists msg tab' env' evs,
        ConnectionTab.send_term
          (typed "cd ../x" (fresh_tab profile "/a/b" "/home/u"), env0 quiet)
        = (Raise (AttributeError msg), (tab', env'))
        /\ ConnectionTab.remote_path tab' = lit "/a/x"
        /\ ConnectionTab.term_in tab' = lit "cd ../x"
        /\ log env' = ERefreshRemote :: evs
        /\ Forall (listing_event (lit "/a/x")) evs).
Proof.
  assert (Hcs : Forall component [lit "a"; lit "b"]) by components.
  assert (Hds : Forall name [lit ".."; lit "x"]) by components.
  split; [reflexivity |].
  split; [exact (proj1 (send_term_edge_cases (typed "  " srv_tab) (env0 quiet)) eq_refl) |].
  split; [reflexivity |]. split.
  - destruct (proj2 (send_term_edge_cases (typed "ls" (fresh_tab profile "/a/b" "/home/u"))
                       (env0 quiet)) ltac:(decided) eq_refl)
      as (msg & tab' & env' & evs & Hrun & _ & Hlog & _ & Hplain & _).
    destruct (Hplain eq_refl) as [-> ->].
    exists msg. rewrite Hrun. destruct env' as [w lg]. cbn in Hlog. subst lg.
    pose proof (f_equal (fun r => world r.2.2) Hrun) as Hw. cbn in Hw.
    rewrite <- Hw. reflexivity.
  - split; [reflexivity |].
    destruct (proj2 (send_term_edge_cases
                       (typed "cd ../x" (fresh_tab profile "/a/b" "/home/u"))
                       (env0 quiet)) ltac:(decided) eq_refl)
      as (msg & tab' & env' & evs & Hrun & Hline & Hlog & _ & _ & Hcd).
    destruct (Hcd (lit "../x") eq_refl) as ((evs' & -> & Hall) & Hwalk).
    pose proof (Hwalk [lit "a"; lit "b"] [lit ".."; lit "x"] eq_refl Hcs eq_refl
                  ltac:(discriminate) Hds) as Hpath.
    exists msg, tab', env', evs'.
    split; [exact Hrun |]. split; [exact Hpath |]. split; [exact Hline |].
    split; [exact Hlog |]. rewrite Hpath in Hall. exact Hall.
Defined.



(** X15: the server refuses the password: the box, and no handle kept. *)
Lemma connect_all_refused_witness :
  dict_getitem profile (lit "server") = Ok (PStr (lit "h"))
  /\ py_int (dict_get profile (lit "port") (PInt 22)) = Ok 22
  /\ dict_getitem profile (lit "username") = Ok (PStr (lit "u"))
  /\ answer (TransportConnect 1%nat (PStr (lit "u")) (PStr (lit "p"))) auth_refused
     = (Raise failure, auth_refused)
  /\ ConnectionTab.connect_all (fresh_tab profile "/" "/home/u", env0 auth_refused)
     = (Ok tt,
        (fresh_tab profile "/" "/home/u",
         {| world := auth_refused;
            log := [ECall (TransportNew (PStr (lit "h")) 22);
                    ECall (TransportConnect 1%nat (PStr (lit "u")) (PStr (lit "p")));
                    ECritical (lit "Connect Error") failure] |})).
Proof.
  split; [reflexivity | split; [reflexivity | split; [reflexivity | split; [reflexivity |]]]].
  exact (connect_all_refused (fresh_tab profile "/" "/home/u") (env0 auth_refused)
           (PStr (lit "h")) 22 1%nat auth_refused (PStr (lit "u")) failure auth_refused
           eq_refl eq_refl eq_refl eq_refl eq_refl eq_refl eq_refl).
Defined.

(** X16: an empty profile, and one that names the server only. *)
Lemma connect_all_missing_keys_witness :
  ConnectionTab.connect_all (fresh_tab ∅ "/" "/home/u", env0 quiet)
  = (Ok tt,
     (fresh_tab ∅ "/" "/home/u",
      {| world := quiet;
         log := [ECritical (lit "Connect Error") (KeyError (lit "server"))] |}))
  /\ ConnectionTab.connect_all
       (fresh_tab (<[lit "server" := PStr (lit "h")]> ∅) "/" "/home/u", env0 quiet)
     = (Ok tt,
        (fresh_tab (<[lit "server" := PStr (lit "h")]> ∅) "/" "/home/u",
         {| world := quiet;
            log := [ECall (TransportNew (PStr (lit "h")) 22);
                    ECritical (lit "Connect Error") (KeyError (lit "username"))] |})).
Proof.
  split.
  - exact (proj1 (connect_all_missing_keys (fresh_tab ∅ "/" "/home/u") (env0 quiet)
                    eq_refl eq_refl) eq_refl).
  - exact (proj2 (connect_all_missing_keys
                    (fresh_tab (<[lit "server" := PStr (lit "h")]> ∅) "/" "/home/u")
                    (env0 quiet) eq_refl eq_refl)
             (PStr (lit "h")) 1%nat quiet eq_refl eq_refl eq_refl eq_refl).
Defined.

(** X18: the pseudo-terminal is refused, and [ls] still goes out. *)
Lemma open_keeps_refused_channel_witness :
  answer (TransportOpenSession 1%nat) pty_refused = (Ok 3%nat, pty_refused)
  /\ answer (ChannelGetPty 3%nat) pty_refused = (Raise failure, pty_refused)
  /\ SSHTerminal.open (closed_terminal, env0 pty_refused)
     = (Ok false,
        (SSHTerminal.set_channel (Some 3%nat) closed_terminal,
         {| world := pty_refused;
            log := [ECall (TransportOpenSession 1%nat); ECall (ChannelGetPty 3%nat)] |}))
  /\ log (SSHTerminal.send (lit "ls")
            (SSHTerminal.set_channel (Some 3%nat) closed_terminal,
             {| world := pty_refused;
                log := [ECall (TransportOpenSession 1%nat);
                        ECall (ChannelGetPty 3%nat)] |})).2.2
     = [ECall (TransportOpenSession 1%nat); ECall (ChannelGetPty 3%nat);
        ECall (ChannelSend 3%nat (lit "ls" ++ newline))].
Proof.
  split; [reflexivity | split; [reflexivity |]].
  pose proof (open_keeps_refused_channel closed_terminal (env0 pty_refused) 3%nat
                pty_refused failure pty_refused (lit "ls") eq_refl eq_refl)
    as (Hopen & _ & Hsend).
  split; [exact Hopen |].
  exact (f_equal (fun r => log r.2.2) Hsend).
Defined.

(** X20: a theme file with a font size and a key of its own. *)
Lemma theme_load_merges_witness :
  path_exists (with_stored (PDict theme_file) quiet) THEME_FILE = true
  /\ answer (JsonLoadFile THEME_FILE) (with_stored (PDict theme_file) quiet)
     = (Ok (PDict theme_file), with_stored (PDict theme_file) quiet)
  /\ (ThemeManager.load (tt, env0 (with_stored (PDict theme_file) quiet))).1
     = Ok (theme_file ∪ Theme.default)
  /\ (theme_file ∪ Theme.default) !! lit "font_size" = Some (PInt 14)
  /\ (theme_file ∪ Theme.default) !! lit "font_family" = Some (PStr (lit "Consolas")).
Proof.
  split; [reflexivity | split; [reflexivity |]].
  pose proof (theme_load_merges tt (env0 (with_stored (PDict theme_file) quiet))
                theme_file (with_stored (PDict theme_file) quiet) eq_refl eq_refl)
    as (Hload & Hkeys & _).
  split; [exact Hload |].
  split; [exact (Hkeys (lit "font_size")) | exact (Hkeys (lit "font_family"))].
Defined.

(** X21: the filled dialog's profile has what [connect_all] reads. *)
Lemma get_data_profile_witness :
  exists cfg,
    ConfigDialog.get_data dialog = Ok cfg
    /\ dict_getitem cfg (lit "server") = Ok (PStr (lit "h"))
    /\ dict_getitem cfg (lit "username") = Ok (PStr (lit "u"))
    /\ dict_get cfg (lit "password") PNone = PStr (lit "p").
Proof.
  eexists. split; [reflexivity |].
  pose proof (proj1 (get_data_profile dialog) _ eq_refl) as (Hs & Hu & Hp & _).
  split; [exact Hs | split; [exact Hu | exact Hp]].
Defined.

(** X22: delete and upload on the parent marker. *)
Lemma parent_marker_actions_raise_witness :
  data parent_item = None
  /\ exists msg,
       ConnectionTab.delete_remote parent_item (srv_tab, env0 quiet)
       = (Raise (TypeError msg), (srv_tab, env0 quiet))
       /\ ConnectionTab.delete_local parent_item (srv_tab, env0 quiet)
          = (Raise (TypeError msg), (srv_tab, env0 quiet))
       /\ ConnectionTab.upload_file parent_item (srv_tab, env0 quiet)
          = (Raise (TypeError msg), (srv_tab, env0 quiet)).
Proof.
  split; [reflexivity |].
  exact (parent_marker_actions_raise parent_item srv_tab (env0 quiet) eq_refl).
Defined.

(** X23: a colour sequence between two words is cut out. *)
Lemma clean_removes_sequences_witness :
  (ESC ∉ lit "ab")
  /\ Forall (fun c => is_param c = true) (lit "0;1")
  /\ is_letter "m"%char = true
  /\ clean (lit "ab" ++ ESC :: "["%char :: lit "0;1" ++ "m"%char :: lit "cd")
     = lit "ab" ++ clean (lit "cd").
Proof.
  assert (Ha : ESC ∉ lit "ab") by decided.
  assert (Hps : Forall (fun c => is_param c = true) (lit "0;1")) by decided.
  split; [exact Ha | split; [exact Hps | split; [reflexivity |]]].
  exact (proj1 (proj2 (clean_removes_sequences (lit "ab") (lit "0;1") (lit "cd") Ha Hps))
           "m"%char eq_refl).
Defined.

(** X25: a colour sequence cut behind its parameter. *)
Lemma clean_split_sequence_witness :
  (ESC ∉ lit "$ ")
  /\ (ESC ∉ lit "ok")
  /\ Forall (fun c => is_param c = true) (lit "0")
  /\ is_letter "m"%char = true
  /\ clean (lit "$ " ++ ESC :: "["%char :: lit "0") ++ clean ("m"%char :: lit "ok")
     = lit "$ " ++ ESC :: "["%char :: lit "0" ++ "m"%char :: lit "ok"
  /\ clean ((lit "$ " ++ ESC :: "["%char :: lit "0") ++ "m"%char :: lit "ok")
     = lit "$ " ++ lit "ok".
Proof.
  assert (Ha : ESC ∉ lit "$ ") by decided.
  assert (Hb : ESC ∉ lit "ok") by decided.
  assert (Hps : Forall (fun c => is_param c = true) (lit "0")) by decided.
  split; [exact Ha | split; [exact Hb | split; [exact Hps | split; [reflexivity |]]]].
  exact (clean_split_sequence (lit "$ ") (lit "0") "m"%char (lit "ok") Ha Hb Hps eq_refl).
Defined.

(** X26: the profile of the examples, on a server that refuses the
    password: the tab comes up all the same. *)
Lemma init_comes_up_witness :
  ConnectionTab.fields (lit "/home/u") profile = Some (fresh_tab profile "/" "/home/u")
  /\ exists tab' env' evs,
       ConnectionTab.__init__ (lit "/home/u") profile (env0 auth_refused)
       = Some (Ok tt, (tab', env'))
       /\ log env' = evs
       /\ (connects evs <= 1)%nat
       /\ refreshes evs = 1%nat
       /\ local_refreshes evs = 1%nat.
Proof.
  split; [reflexivity |].
  destruct (init_comes_up (lit "/home/u") profile (fresh_tab profile "/" "/home/u")
              (env0 auth_refused) eq_refl)
    as (tab' & env' & evs & rmore & lmore & Hrun & Hlog & Hc & Hr & Hl & _).
  exists tab', env', evs.
  split; [exact Hrun | split; [exact Hlog | split; [exact Hc | split; [exact Hr | exact Hl]]]].
Defined.

(** X27: the dialog with both path fields blank, on a host where the
    configuration file cannot be written: the error is printed, and the
    tab opens at the root and at [Cloned_From_h] under the home
    directory. *)
Lemma open_new_conn_dialog_opens_witness :
  ConfigDialog.get_data dialog
  = Ok (<[lit "keyfile" := PStr (lit "/home/u/.ssh/id_rsa")]>
          (<[lit "local_path" := PStr (lit "")]> profile))
  /\ exists tab' env' evs,
       AppWindow.open_new_conn_dialog (lit "/home/u") (Some dialog)
         (no_tabs, env0 read_only_storage)
       = Some (Ok tt,
               ({| AppWindow.tabs := [WConnectionTab tab'];
                   AppWindow.saved_configs :=
                     [PDict (<[lit "local_path" := PStr (lit "/home/u/Cloned_From_h")]>
                               (<[lit "keyfile" := PStr (lit "/home/u/.ssh/id_rsa")]>
                                  (<[lit "local_path" := PStr (lit "")]> profile)))] |},
                env'))
       /\ log env'
          = ECall (JsonDumpFile CONFIG_FILE
                     (PList [PDict (<[lit "local_path" :=
                                        PStr (lit "/home/u/Cloned_From_h")]>
                                      (<[lit "keyfile" := PStr (lit "/home/u/.ssh/id_rsa")]>
                                         (<[lit "local_path" := PStr (lit "")]> profile)))]))
              :: EPrintMsg (lit "save configs error:") failure :: evs
       /\ ConnectionTab.remote_path tab' = lit "/"
       /\ ConnectionTab.local_path tab' = lit "/home/u/Cloned_From_h".
Proof.
  assert (Hdata : ConfigDialog.get_data dialog
                  = Ok (<[lit "keyfile" := PStr (lit "/home/u/.ssh/id_rsa")]>
                          (<[lit "local_path" := PStr (lit "")]> profile)))
    by (vm_compute; reflexivity).
  split; [exact Hdata |].
  destruct (proj2 (proj2 (open_new_conn_dialog_opens (lit "/home/u") dialog no_tabs
                            (env0 read_only_storage))) _ Hdata)
    as (tab' & env' & evs & Hrun & Hlog & _ & _ & _ & _ & Hrp & Hlp).
  exists tab', env', evs.
  split; [exact Hrun | split; [exact Hlog | split; [exact Hrp | exact Hlp]]].
Defined.

(** X17: closing the console tab calls no collaborator. *)
Lemma close_tab_always_witness :
  AppWindow.tabs console_only !! 0%nat = Some WCmdConsole
  /\ exists env',
       AppWindow.close_tab 0 (console_only, env0 quiet) = (Ok tt, (no_tabs, env'))
       /\ env' = env0 quiet.
Proof.
  split; [reflexivity |].
  destruct (close_tab_always 0 console_only (env0 quiet))
    as (env' & evs & Hrun & _ & _ & _ & Hquiet).
  exists env'. split; [exact Hrun | exact (Hquiet eq_refl)].
Defined.

(** X28: a double click on the local file [a.txt] hands it to the host
    and leaves the tab as it was. *)
Lemma local_double_spec_witness :
  ConnectionTab.item_name (entry_item (lit "a.txt") false false) <> lit ".."
  /\ path_isdir quiet (lit "/home/u/a.txt") = false
  /\ exists tab' env' evs,
       ConnectionTab.local_double posixpath.dirname
         (entry_item (lit "a.txt") false false) (srv_tab, env0 quiet)
       = (Ok tt, (tab', env'))
       /\ log env' = evs
       /\ tab' = srv_tab
       /\ (evs = [ECall (OsStartfile (lit "/home/u/a.txt"))]
           \/ exists e, evs = [ECall (OsStartfile (lit "/home/u/a.txt"));
                               ECritical (lit "Opening failed") e]).
Proof.
  assert (Hn : ConnectionTab.item_name (entry_item (lit "a.txt") false false) <> lit "..")
    by decided.
  split; [exact Hn | split; [reflexivity |]].
  destruct (local_double_spec posixpath.dirname (entry_item (lit "a.txt") false false)
              srv_tab (env0 quiet))
    as (tab' & env' & evs & Hrun & Hlog & _ & _ & _ & _ & _ & _ & _ & _ & Hfile).
  destruct (Hfile Hn eq_refl) as [Htab Hevs].
  exists tab', env', evs.
  split; [exact Hrun | split; [exact Hlog | split; [exact Htab | exact Hevs]]].
Defined.
End FurtherWorked.
